(** * RFM scoring pipeline of [app.py]

    A shallow embedding of [preprocess_data] (lines 12-61), of the data
    [create_plots] computes for its figures and of its re-engagement pass
    (lines 66-105), and of the route [index] up to the frame it plots,
    together with the pandas / numpy operations they call.

    Conventions.
    - A DataFrame is a list of row records, in row order.  A column is the
      list obtained by mapping a field over the rows.
    - A missing cell (NaN / NaT) is [None].
    - int64 and float64 arithmetic is idealised as exact arithmetic over
      [Q]: a sum is the exact sum and the edges of [numpy.linspace] are the
      exact ones.  On a table of whole amounts ([whole_amounts]) the
      program computes these very values and bins as the model does.  On
      other tables its sums and edges are the float64 roundings of the
      model's, so a value within rounding distance of an edge may change
      bin and two totals that differ by rounding only may make [cut] raise
      for duplicate edges.  Statements that need the exact value of a sum
      or of an edge of the Monetary column are made for tables of whole
      amounts; the other statements are about orders, ranges and labels,
      which rounding keeps.
    - The date parser ([pd.to_datetime]) and the random generator
      ([RandomState.choice]) are inputs of the model.  [preprocess_data]
      and [create_plots] take the date of the clock reading and the
      generator as arguments; [index_request] runs them in a [World] that
      holds the file, the wall clock and numpy's global generator.
    - [CustomerID] and [TransactionAmount] are present in every input row;
      [OrderID] may be missing, [PurchaseDate] may fail to parse.
    - A raised Python exception is the [Raise] branch of [result]. *)

From Stdlib Require Import List ZArith QArith Qabs Qround Qminmax.
From Stdlib Require Import String Bool Lia Lqa Arith Sorted Permutation.
From Stdlib Require OrderedTypeEx PrimFloat Uint63.
Import ListNotations.

Local Open Scope Z_scope.

(** ** Exceptions *)

Inductive exn : Type :=
| ValueError (msg : string)
| IndexError (msg : string).

Inductive result (A : Type) : Type :=
| Ok (a : A)
| Raise (e : exn).

Arguments Ok {A} a.
Arguments Raise {A} e.

Definition bind {A B : Type} (m : result A) (k : A -> result B) : result B :=
  match m with
  | Ok a => k a
  | Raise e => Raise e
  end.

Notation "x <- m ;; k" := (bind m (fun x => k))
  (at level 61, m at next level, right associativity).

Definition raises {A : Type} (m : result A) : Prop :=
  exists e, m = Raise e.

(** ** numpy / pandas primitives *)

Module Pandas.

Definition Qltb (x y : Q) : bool := negb (Qle_bool y x).

(** [np.nanmin] / [np.nanmax]: extremum of the non-missing entries; [None]
    stands for the NaN obtained when there is none. *)
Fixpoint nanmin (x : list (option Q)) : option Q :=
  match x with
  | [] => None
  | None :: t => nanmin t
  | Some v :: t =>
      match nanmin t with
      | None => Some v
      | Some m => Some (if Qltb m v then m else v)
      end
  end.

Fixpoint nanmax (x : list (option Q)) : option Q :=
  match x with
  | [] => None
  | None :: t => nanmax t
  | Some v :: t =>
      match nanmax t with
      | None => Some v
      | Some m => Some (if Qltb v m then m else v)
      end
  end.

(** [np.linspace(start, stop, num, endpoint=True)]:
    [step = (stop - start) / (num - 1)], [y = arange(num) * step + start],
    and the last sample is overwritten with [stop]. *)
Definition linspace (start stop : Q) (num : nat) : list Q :=
  match num with
  | O => []
  | S O => [start]
  | S div =>
      let step := ((stop - start) / inject_Z (Z.of_nat div))%Q in
      map (fun i => (inject_Z (Z.of_nat i) * step + start)%Q) (seq 0 div)
        ++ [stop]
  end.

(** [a.searchsorted(v, side='left')] on an ascending array: the first
    position whose element is not below [v]. *)
Fixpoint searchsorted_left (a : list Q) (v : Q) : nat :=
  match a with
  | [] => O
  | e :: a' => if Qltb e v then S (searchsorted_left a' v) else O
  end.

(** The duplicate test behind "Bin edges must be unique". *)
Fixpoint has_duplicates (a : list Q) : bool :=
  match a with
  | [] => false
  | e :: a' => existsb (Qeq_bool e) a' || has_duplicates a'
  end.

(** [0.001 * abs(m) if m != 0 else 0.001]: by how much [pd.cut] moves an
    end point outwards when the column is constant. *)
Definition widen (m : Q) : Q :=
  if Qeq_bool m 0 then 1 # 1000 else ((1 # 1000) * Qabs m)%Q.

(** The edges [pd.cut] computes for an integer [bins] and [right=True]:
    a constant column is widened on both sides before [linspace]; otherwise
    the lowest edge is lowered by 0.1% of the range after it. *)
Definition nbins_to_bins (mn mx : Q) (nbins : nat) : list Q :=
  if Qeq_bool mn mx then
    linspace (mn - widen mn) (mx + widen mx) (nbins + 1)
  else
    let adj := ((mx - mn) * (1 # 1000))%Q in
    match linspace mn mx (nbins + 1) with
    | [] => []
    | b0 :: rest => (b0 - adj)%Q :: rest
    end.

(** [_bins_to_cuts] for one cell: position by [searchsorted], missing when
    the cell is missing or falls outside the edges, else the label of the
    bin. *)
Definition bins_to_cuts {L : Type} (edges : list Q) (labels : list L)
    (cell : option Q) : option L :=
  match cell with
  | None => None
  | Some v =>
      let ids := searchsorted_left edges v in
      if (ids =? 0)%nat || (ids =? List.length edges)%nat then None
      else nth_error labels (ids - 1)
  end.

(** [pd.cut(x, bins=nbins, labels=labels)] with the defaults
    [right=True, include_lowest=False, duplicates='raise']. *)
Definition cut {L : Type} (x : list (option Q)) (nbins : nat)
    (labels : list L) : result (list (option L)) :=
  if (nbins <? 1)%nat then
    Raise (ValueError "`bins` should be a positive integer.")
  else
    match x with
    | [] => Raise (ValueError "Cannot cut empty array")
    | _ =>
        match nanmin x, nanmax x with
        | Some mn, Some mx =>
            let edges := nbins_to_bins mn mx nbins in
            if has_duplicates edges then
              Raise (ValueError "Bin edges must be unique")
            else if negb (List.length labels =? List.length edges - 1)%nat then
              Raise (ValueError
                "Bin labels must be one fewer than the number of bin edges")
            else Ok (map (bins_to_cuts edges labels) x)
        | _, _ => Raise (ValueError "Bin edges must be unique")
        end
    end.

(** [Categorical.astype(int)]: refuses a column holding a missing value. *)
Fixpoint astype_int (col : list (option Z)) : result (list Z) :=
  match col with
  | [] => Ok []
  | None :: _ => Raise (ValueError "Cannot convert float NaN to integer")
  | Some v :: t => t' <- astype_int t ;; Ok (v :: t')
  end.

End Pandas.

Import Pandas.

(** [round(q)] of Python 3: to the nearest integer, a tie going to the even
    neighbour. *)
Definition py_round (q : Q) : Z :=
  let f := Qfloor q in
  match (q - inject_Z f ?= 1 # 2)%Q with
  | Lt => f
  | Gt => f + 1
  | Eq => if Z.even f then f else f + 1
  end.

(** ** Data model *)

(** One row of [rfm_data.csv].  [OrderID] may be an empty cell; the other
    three columns are taken as filled in, [PurchaseDate] still as text. *)
Record TransactionRecord : Type := mkTransaction {
  CustomerID : Z;
  OrderID : option Z;
  PurchaseDate : string;
  TransactionAmount : Q
}.

(** A row after line 29: the transaction with its three metrics. *)
Record MetricRow : Type := mkMetricRow {
  txn : TransactionRecord;
  Recency : option Z;
  Frequency : option Z;
  MonetaryValue : option Q
}.

(** A row of the frame returned by [preprocess_data].  [index] is the row
    label: the second merge leaves a RangeIndex, and the later column
    assignments keep it. *)
Record ScoredRecord : Type := mkScoredRecord {
  index : nat;
  metrics : MetricRow;
  RecencyScore : Z;
  FrequencyScore : Z;
  MonetaryScore : Z;
  RFM_Score : Z;
  ValueSegment : option string;
  CustomerSegment : string
}.

(** ** Group-by and merge *)

Fixpoint insert_key (k : Z) (keys : list Z) : list Z :=
  match keys with
  | [] => [k]
  | h :: t =>
      if k <? h then k :: keys
      else if k =? h then keys
      else h :: insert_key k t
  end.

(** The group keys of [groupby]: the distinct key values, ascending. *)
Definition group_keys (keys : list Z) : list Z :=
  fold_right insert_key [] keys.

Definition notna {A : Type} (c : option A) : bool :=
  match c with Some _ => true | None => false end.

(** [df.groupby(key)[col].count().reset_index()]: per group, the number of
    non-missing cells of [col]. *)
Definition groupby_count {A B : Type} (key : A -> Z) (col : A -> option B)
    (df : list A) : list (Z * Z) :=
  map (fun k =>
         (k, Z.of_nat (List.length
                (filter (fun r => (key r =? k) && notna (col r)) df))))
      (group_keys (map key df)).

Definition Qsum (l : list Q) : Q := fold_right Qplus 0%Q l.

(** [df.groupby(key)[col].sum().reset_index()]. *)
Definition groupby_sum {A : Type} (key : A -> Z) (col : A -> Q)
    (df : list A) : list (Z * Q) :=
  map (fun k => (k, Qsum (map col (filter (fun r => key r =? k) df))))
      (group_keys (map key df)).

(** [left.merge(right, on=key, how='left')]: every left row, in order,
    paired with each right row of the same key, or once with a missing
    value when there is none. *)
Definition merge_left {A B C : Type} (key : A -> Z) (join : A -> option B -> C)
    (left : list A) (right : list (Z * B)) : list C :=
  flat_map
    (fun a =>
       match filter (fun kb => fst kb =? key a) right with
       | [] => [join a None]
       | matches => map (fun kb => join a (Some (snd kb))) matches
       end)
    left.

(** ** Column helpers *)

Fixpoint map3 {A B C D : Type} (f : A -> B -> C -> D)
    (a : list A) (b : list B) (c : list C) : list D :=
  match a, b, c with
  | x :: a', y :: b', z :: c' => f x y z :: map3 f a' b' c'
  | _, _, _ => []
  end.

(** [col.loc[mask] = v] on one column. *)
Fixpoint loc_set {A : Type} (mask : list bool) (v : A) (col : list A)
    : list A :=
  match mask, col with
  | b :: mask', c :: col' => (if b then v else c) :: loc_set mask' v col'
  | _, _ => col
  end.

(** Lines 54-59: the segment column from the score column. *)
Definition assign_segments (rfm : list Z) : list string :=
  let seg := map (fun _ => ""%string) rfm in
  let seg := loc_set (map (fun s => 9 <=? s) rfm) "Champions"%string seg in
  let seg := loc_set (map (fun s => (6 <=? s) && (s <? 9)) rfm)
               "Potential Loyalists"%string seg in
  let seg := loc_set (map (fun s => (5 <=? s) && (s <? 6)) rfm)
               "At Risk Customers"%string seg in
  let seg := loc_set (map (fun s => (4 <=? s) && (s <? 5)) rfm)
               "Can't Lose"%string seg in
  let seg := loc_set (map (fun s => (3 <=? s) && (s <? 4)) rfm)
               "Lost"%string seg in
  seg.

(** The columns put side by side, row labels counting from [i]. *)
Fixpoint assemble (i : nat) (ms : list MetricRow) (rs fs mo rfm : list Z)
    (vs : list (option string)) (seg : list string) : list ScoredRecord :=
  match ms, rs, fs, mo, rfm, vs, seg with
  | m :: ms', r :: rs', f :: fs', o :: mo', t :: rfm', v :: vs', s :: seg' =>
      mkScoredRecord i m r f o t v s
        :: assemble (S i) ms' rs' fs' mo' rfm' vs' seg'
  | _, _, _, _, _, _, _ => []
  end.

Definition recency_scores : list Z := [5; 4; 3; 2; 1].
Definition frequency_scores : list Z := [1; 2; 3; 4; 5].
Definition monetary_scores : list Z := [1; 2; 3; 4; 5].
Definition segment_labels : list string :=
  ["Low-Value"; "Mid-Value"; "High-Value"]%string.

Definition Zcell (c : option Z) : option Q := option_map inject_Z c.

Section Pipeline.

(** [pd.to_datetime(s, errors='coerce')] followed by [.dt.date], as a day
    number; [None] is NaT, the outcome for text that does not parse. *)
Variable to_datetime : string -> option Z.

(** [numpy.random.RandomState(seed).choice(N, size=n, replace=False)]. *)
Variable RandomState_choice : Z -> nat -> nat -> list nat.

(** Line 19: days from the purchase date to [now].  A NaT date is carried
    on as a missing [Recency], which is how the specification reads the
    line; the model does not decide whether the subtraction or [.days]
    already raise on a NaT, so an exception it shows for such a row is the
    latest the program can raise. *)
Definition recency_of (now : Z) (t : TransactionRecord) : option Z :=
  option_map (fun d => now - d) (to_datetime (PurchaseDate t)).

(** Lines 13-19: the table with its [Recency] column.  [now] is
    [datetime.now().date()]. *)
Definition dated_frame (now : Z) (csv : list TransactionRecord)
    : list (TransactionRecord * option Z) :=
  map (fun t => (t, recency_of now t)) csv.

(** Lines 22-24: [Frequency] grouped, then merged back. *)
Definition frequency_frame (now : Z) (csv : list TransactionRecord)
    : list (TransactionRecord * option Z * option Z) :=
  let data := dated_frame now csv in
  let frequency_data :=
    groupby_count (fun r => CustomerID (fst r)) (fun r => OrderID (fst r))
      data in
  merge_left (fun r => CustomerID (fst r)) (fun r f => (r, f))
    data frequency_data.

(** Lines 27-29: [MonetaryValue] grouped, then merged back. *)
Definition metrics_frame (now : Z) (csv : list TransactionRecord)
    : list MetricRow :=
  let data := frequency_frame now csv in
  let monetary_data :=
    groupby_sum (fun r => CustomerID (fst (fst r)))
      (fun r => TransactionAmount (fst (fst r))) data in
  merge_left (fun r => CustomerID (fst (fst r)))
    (fun r m => mkMetricRow (fst (fst r)) (snd (fst r)) (snd r) m)
    data monetary_data.

(** Lines 12-61. *)
Definition preprocess_data (now : Z) (csv : list TransactionRecord)
    : result (list ScoredRecord) :=
  let data := metrics_frame now csv in
  rs <- cut (map (fun m => Zcell (Recency m)) data) 5 recency_scores ;;
  fs <- cut (map (fun m => Zcell (Frequency m)) data) 5 frequency_scores ;;
  mo <- cut (map MonetaryValue data) 5 monetary_scores ;;
  rs <- astype_int rs ;;
  fs <- astype_int fs ;;
  mo <- astype_int mo ;;
  let rfm := map3 (fun r f m => r + f + m) rs fs mo in
  vs <- cut (map (fun s => Some (inject_Z s)) rfm) 3 segment_labels ;;
  let seg := assign_segments rfm in
  Ok (assemble 0 data rs fs mo rfm vs seg).

(** ** Re-engagement pass *)

(** [df.take(locs)]: rows by position. *)
Fixpoint take {A : Type} (df : list A) (locs : list nat) : result (list A) :=
  match locs with
  | [] => Ok []
  | i :: locs' =>
      match nth_error df i with
      | None => Raise (IndexError "indices are out-of-bounds")
      | Some r => rest <- take df locs' ;; Ok (r :: rest)
      end
  end.

(** [df.sample(frac=frac, random_state=seed)]. *)
Definition sample {A : Type} (df : list A) (frac : Q) (seed : Z)
    : result (list A) :=
  let n := Z.to_nat (py_round (frac * inject_Z (Z.of_nat (List.length df)))) in
  take df (RandomState_choice seed (List.length df) n).

Definition set_segment (s : string) (r : ScoredRecord) : ScoredRecord :=
  mkScoredRecord (index r) (metrics r) (RecencyScore r) (FrequencyScore r)
    (MonetaryScore r) (RFM_Score r) (ValueSegment r) s.

(** [data.loc[labels, 'RFM Customer Segments'] = s]: every row whose label
    is listed. *)
Definition loc_set_segment (labels : list nat) (s : string)
    (data : list ScoredRecord) : list ScoredRecord :=
  map (fun r => if existsb (Nat.eqb (index r)) labels then set_segment s r
                else r) data.

Definition reactivation_rate : Q := 2 # 10.

(** Lines 101-104 of [create_plots]: the frame as the call leaves it.  The
    figures it returns are outside the model. *)
Definition create_plots (data : list ScoredRecord) : result (list ScoredRecord) :=
  let lost_customers :=
    filter (fun r => String.eqb (CustomerSegment r) "Lost") data in
  reactivated_customers <- sample lost_customers reactivation_rate 1 ;;
  Ok (loc_set_segment (map index reactivated_customers)
        "Potential Loyalists"%string data).

(** [data['RFM Customer Segments'].value_counts()], read at one label. *)
Definition value_counts (data : list ScoredRecord) (label : string) : nat :=
  List.length (filter (fun r => String.eqb (CustomerSegment r) label) data).

(** The route [index], lines 116-117, up to the frame it plots. *)
Definition index_view (now : Z) (csv : list TransactionRecord)
    : result (list ScoredRecord) :=
  data <- preprocess_data now csv ;;
  create_plots data.

End Pipeline.

(** ** Interval vocabulary for the binning claims *)

Definition bin_width (mn mx : Q) (nbins : nat) : Q :=
  ((mx - mn) / inject_Z (Z.of_nat nbins))%Q.

Definition bin_edge (mn mx : Q) (nbins k : nat) : Q :=
  (mn + inject_Z (Z.of_nat k) * bin_width mn mx nbins)%Q.

(** Bin [k] as [pd.cut] draws it: open on the left, closed on the right,
    the lowest bin reaching down to the minimum itself. *)
Definition right_closed_bin (mn mx : Q) (nbins k : nat) (v : Q) : Prop :=
  ((bin_edge mn mx nbins k < v)%Q \/ (k = O /\ (mn <= v)%Q))
  /\ (v <= bin_edge mn mx nbins (S k))%Q.

(** Bin [k] read as closed on the left and open on the right, the highest
    bin reaching up to the maximum itself. *)
Definition half_open_bin (mn mx : Q) (nbins k : nat) (v : Q) : Prop :=
  (bin_edge mn mx nbins k <= v)%Q
  /\ ((v < bin_edge mn mx nbins (S k))%Q \/ (S k = nbins /\ (v <= mx)%Q)).

(** ** Vocabulary of the statements *)

(** The number of a customer's rows, of those with an [OrderID], and the
    total of the customer's amounts, read off the input table. *)
Definition row_count (csv : list TransactionRecord) (c : Z) : nat :=
  List.length (filter (fun t => CustomerID t =? c) csv).

Definition order_count (csv : list TransactionRecord) (c : Z) : Z :=
  Z.of_nat
    (List.length
       (filter (fun t => (CustomerID t =? c) && notna (OrderID t)) csv)).

Definition amount_total (csv : list TransactionRecord) (c : Z) : Q :=
  Qsum (map TransactionAmount (filter (fun t => CustomerID t =? c) csv)).

Definition metric_row (to_datetime : string -> option Z) (now : Z)
    (csv : list TransactionRecord) (t : TransactionRecord) : MetricRow :=
  mkMetricRow t (recency_of to_datetime now t)
    (Some (order_count csv (CustomerID t)))
    (Some (amount_total csv (CustomerID t))).

(** The rule chain of the segment thresholds, first matching rule first. *)
Definition segment_rule (s : Z) : string :=
  if 9 <=? s then "Champions"
  else if (6 <=? s) && (s <? 9) then "Potential Loyalists"
  else if (5 <=? s) && (s <? 6) then "At Risk Customers"
  else if (4 <=? s) && (s <? 5) then "Can't Lose"
  else if (3 <=? s) && (s <? 4) then "Lost"
  else "".

Definition all_segments : list string :=
  ["Champions"; "Potential Loyalists"; "At Risk Customers"; "Can't Lose";
   "Lost"]%string.

(** The metric columns as [cut] receives them. *)
Definition recency_column (data : list MetricRow) : list (option Q) :=
  map (fun m => Zcell (Recency m)) data.
Definition frequency_column (data : list MetricRow) : list (option Q) :=
  map (fun m => Zcell (Frequency m)) data.
Definition monetary_column (data : list MetricRow) : list (option Q) :=
  map MonetaryValue data.
Definition score_column (data : list ScoredRecord) : list (option Q) :=
  map (fun r => Some (inject_Z (RFM_Score r))) data.

(** How a scored row hangs on its metric row, given the four edge arrays. *)
Definition scored_from (eR eF eM eV : list Q) (m : MetricRow)
    (r : ScoredRecord) : Prop :=
  metrics r = m /\
  bins_to_cuts eR recency_scores (Zcell (Recency m)) = Some (RecencyScore r) /\
  bins_to_cuts eF frequency_scores (Zcell (Frequency m))
    = Some (FrequencyScore r) /\
  bins_to_cuts eM monetary_scores (MonetaryValue m) = Some (MonetaryScore r) /\
  RFM_Score r = RecencyScore r + FrequencyScore r + MonetaryScore r /\
  ValueSegment r
    = bins_to_cuts eV segment_labels (Some (inject_Z (RFM_Score r))) /\
  CustomerSegment r = segment_rule (RFM_Score r).

(** The bin a value is put in: bin [k] of [nbins], right-closed when the
    extremes differ and the middle one when they coincide. *)
Definition binned {L : Type} (labels : list L) (mn mx : Q) (nbins : nat)
    (v : Q) (l : L) : Prop :=
  exists k,
    nth_error labels k = Some l /\
    ((mn < mx)%Q -> right_closed_bin mn mx nbins k v) /\
    ((mn == mx)%Q -> (2 * k + 1 = nbins)%nat).

Definition all_dates_parse (to_datetime : string -> option Z)
    (csv : list TransactionRecord) : Prop :=
  forall t, In t csv -> to_datetime (PurchaseDate t) <> None.

(** The two bin counts the pipeline asks of [cut]. *)
Definition pipeline_bins (n : nat) : Prop := n = 5%nat \/ n = 3%nat.

(** [mn] and [mx] are the extremes [cut] observes in a column. *)
Definition observed_range (col : list (option Q)) (mn mx : Q) : Prop :=
  nanmin col = Some mn /\ nanmax col = Some mx.

(** A draw of [n] distinct positions below [N]: what
    [choice(N, size=n, replace=False)] returns. *)
Definition valid_draw (N n : nat) (locs : list nat) : Prop :=
  List.length locs = n /\ NoDup locs /\ Forall (fun i => (i < N)%nat) locs.

Definition segment_total (data : list ScoredRecord) : nat :=
  list_sum (map (fun label =>
                   List.length
                     (filter (fun r => String.eqb (CustomerSegment r) label)
                        data))
                all_segments).

(** C4 as the specification words it, for the Recency column: the score of
    a row is the label of the half-open bin its value lies in. *)
Definition half_open_binning (to_datetime : string -> option Z) : Prop :=
  forall now csv out,
    preprocess_data to_datetime now csv = Ok out ->
    forall mn mx,
      observed_range (recency_column (map metrics out)) mn mx ->
      (mn < mx)%Q ->
      forall r v,
        In r out -> Recency (metrics r) = Some v ->
        exists k,
          half_open_bin mn mx 5 k (inject_Z v) /\
          nth_error recency_scores k = Some (RecencyScore r).

(** ** Sample data *)

(** A date parser for the samples: four ISO dates of June 2023 as day
    numbers since 1970-01-01, any other text unparseable. *)
Definition sample_to_datetime (s : string) : option Z :=
  if String.eqb s "2023-06-10" then Some 19518
  else if String.eqb s "2023-06-09" then Some 19517
  else if String.eqb s "2023-06-05" then Some 19513
  else if String.eqb s "2023-06-01" then Some 19509
  else None.

Definition sample_now : Z := 19518.

(** A generator for the samples: the last [n] positions, highest first. *)
Definition sample_choice (seed : Z) (N n : nat) : list nat :=
  rev (seq (N - n) n).

(** Three customers, one order each, bought 0, 1 and 5 days ago. *)
Definition sample_csv : list TransactionRecord :=
  [ mkTransaction 1 (Some 101) "2023-06-10" 10;
    mkTransaction 2 (Some 102) "2023-06-09" 20;
    mkTransaction 3 (Some 103) "2023-06-05" 30 ].

Definition sample_frame : list ScoredRecord :=
  Eval vm_compute in
    match preprocess_data sample_to_datetime sample_now sample_csv with
    | Ok out => out
    | Raise _ => []
    end.

(** Three one-order customers of long ago and one recent customer with two
    large orders: three rows end up Lost. *)
Definition lapsed_csv : list TransactionRecord :=
  [ mkTransaction 1 (Some 11) "2023-06-01" 1;
    mkTransaction 2 (Some 12) "2023-06-01" 1;
    mkTransaction 3 (Some 13) "2023-06-01" 1;
    mkTransaction 4 (Some 14) "2023-06-10" 50;
    mkTransaction 4 (Some 15) "2023-06-10" 50 ].

Definition lapsed_frame : list ScoredRecord :=
  Eval vm_compute in
    match preprocess_data sample_to_datetime sample_now lapsed_csv with
    | Ok out => out
    | Raise _ => []
    end.

Definition lapsed_frame_after : list ScoredRecord :=
  Eval vm_compute in
    match create_plots sample_choice lapsed_frame with
    | Ok out => out
    | Raise _ => []
    end.


(** A good row and a row whose date is not a date. *)
Definition malformed_csv : list TransactionRecord :=
  [ mkTransaction 1 (Some 101) "2023-06-05" 10;
    mkTransaction 2 (Some 102) "not a date" 20 ].

(** ** Data behind the figures of [create_plots] *)

(** Line 70: [data['Value Segment'].value_counts()], read at one category.
    The column is categorical, so every category is listed, a count of 0
    included. *)
Definition value_segment_counts (data : list ScoredRecord) (label : string)
    : nat :=
  List.length
    (filter (fun r => match ValueSegment r with
                      | Some l => String.eqb l label
                      | None => false
                      end) data).

Definition champions_color : string := "rgb(158, 202, 225)".

(** [colors[i]] on a Python list: a position past the end raises. *)
Definition list_getitem {A : Type} (l : list A) (i : nat) : result A :=
  match nth_error l i with
  | Some a => Ok a
  | None => Raise (IndexError "list index out of range")
  end.

(** Lines 79-80: the comprehension over [enumerate(segment_counts.index)],
    from position [i] on.  The palette is indexed only for a segment other
    than Champions. *)
Fixpoint marker_colors_from (pastel_colors : list string) (i : nat)
    (segments : list string) : result (list string) :=
  match segments with
  | [] => Ok []
  | segment :: rest =>
      c <- (if String.eqb segment "Champions" then Ok champions_color
            else list_getitem pastel_colors i) ;;
      cs <- marker_colors_from pastel_colors (S i) rest ;;
      Ok (c :: cs)
  end.

(** [pastel_colors] is [px.colors.qualitative.Pastel], [segments] is
    [segment_counts.index]. *)
Definition marker_colors (pastel_colors segments : list string)
    : result (list string) :=
  marker_colors_from pastel_colors 0 segments.

(** The group keys of a [groupby] on a text column: the distinct values in
    ascending order of their characters. *)
Fixpoint insert_label (k : string) (keys : list string) : list string :=
  match keys with
  | [] => [k]
  | h :: t =>
      match String.compare k h with
      | Lt => k :: keys
      | Eq => keys
      | Gt => h :: insert_label k t
      end
  end.

Definition group_labels (keys : list string) : list string :=
  fold_right insert_label [] keys.

(** The sum of an integer column. *)
Definition Zsum (l : list Z) : Z := fold_right Z.add 0 l.

(** [Series.mean()] of an integer column: the exact quotient, of which
    pandas returns the nearest float64. *)
Definition mean (col : list Z) : Q :=
  (Qsum (map inject_Z col) / inject_Z (Z.of_nat (List.length col)))%Q.

(** A row of [segment_scores]. *)
Record SegmentScores : Type := mkSegmentScores {
  segment : string;
  mean_recency : Q;
  mean_frequency : Q;
  mean_monetary : Q
}.

(** Line 89: [data.groupby('RFM Customer Segments')[[...]].mean()
    .reset_index()], computed before the frame is relabelled. *)
Definition segment_scores (data : list ScoredRecord) : list SegmentScores :=
  map (fun label =>
         let rows :=
           filter (fun r => String.eqb (CustomerSegment r) label) data in
         mkSegmentScores label
           (mean (map RecencyScore rows))
           (mean (map FrequencyScore rows))
           (mean (map MonetaryScore rows)))
      (group_labels (map CustomerSegment data)).

(** The lower and upper RFM score of a segment's threshold rule. *)
Definition segment_floor (label : string) : Z :=
  if String.eqb label "Champions" then 9
  else if String.eqb label "Potential Loyalists" then 6
  else if String.eqb label "At Risk Customers" then 5
  else if String.eqb label "Can't Lose" then 4
  else 3.

Definition segment_ceiling (label : string) : Z :=
  if String.eqb label "Champions" then 15
  else if String.eqb label "Potential Loyalists" then 8
  else if String.eqb label "At Risk Customers" then 5
  else if String.eqb label "Can't Lose" then 4
  else 3.

(** What the model asks of the generator: [choice(N, size=n,
    replace=False)] under seed 1 is a valid draw whenever [n <= N]. *)
Definition draws_without_replacement
    (RandomState_choice : Z -> nat -> nat -> list nat) : Prop :=
  forall N n, (n <= N)%nat -> valid_draw N n (RandomState_choice 1 N n).

(** The 11 colours of plotly's Pastel palette. *)
Definition sample_pastel : list string :=
  ["rgb(102, 197, 204)"; "rgb(246, 207, 113)"; "rgb(248, 156, 116)";
   "rgb(220, 176, 242)"; "rgb(135, 197, 95)"; "rgb(158, 185, 243)";
   "rgb(254, 136, 177)"; "rgb(201, 219, 116)"; "rgb(139, 224, 164)";
   "rgb(180, 151, 231)"; "rgb(179, 179, 179)"]%string.

(** A customer with two orders besides a customer with one. *)
Definition repeat_csv : list TransactionRecord :=
  [ mkTransaction 1 (Some 11) "2023-06-01" 5;
    mkTransaction 2 (Some 12) "2023-06-05" 20;
    mkTransaction 2 (Some 13) "2023-06-10" 30 ].

Definition repeat_frame : list ScoredRecord :=
  Eval vm_compute in
    match preprocess_data sample_to_datetime sample_now repeat_csv with
    | Ok out => out
    | Raise _ => []
    end.

(** ** Tables on which float64 computes what exact arithmetic computes *)

(** pandas keeps [TransactionAmount] and [MonetaryValue] as int64 or
    float64 and [cut] compares every column with float64 edges; the model
    computes with exact rationals.  The two agree on a table whose amounts
    are whole numbers with absolute values adding up to at most [10^12]:
    every sum is then an integer far below [2^53], exact in either dtype,
    and an integer column of that size is binned by the float64 edges of
    [linspace] as by the exact ones, since an edge that is not itself an
    integer lies at least a fifth (for three bins a third) away from every
    integer, which is much more than its rounding.  Off such tables a sum
    may be rounded and a value may sit within rounding distance of an
    edge; the statements that depend on the exact value of a sum or of an
    edge of the Monetary column are made for [whole_amounts] tables. *)
Definition is_whole (q : Q) : bool :=
  Qnum q mod Z.pos (Qden q) =? 0.

Definition amount_bound : Z := 1000000000000.

Definition whole_amounts (csv : list TransactionRecord) : bool :=
  forallb (fun t => is_whole (TransactionAmount t)) csv
  && Qle_bool (Qsum (map (fun t => Qabs (TransactionAmount t)) csv))
       (inject_Z amount_bound).

(** An amount that float64 holds without underflow or overflow when [cut]
    widens a constant column by a thousandth of it: zero, or between
    [10^-12] and [10^12] in absolute value. *)
Definition ordinary_amount (a : Q) : bool :=
  Qeq_bool a 0
  || (Qle_bool (1 # 1000000000000) (Qabs a)
      && Qle_bool (Qabs a) (inject_Z amount_bound)).

(** The tables for which the model says when [preprocess_data] returns:
    whole amounts, or a single transaction of ordinary amount, whose
    Monetary column is one value however it is rounded. *)
Definition amounts_exact (csv : list TransactionRecord) : bool :=
  whole_amounts csv
  || match csv with
     | [t] => ordinary_amount (TransactionAmount t)
     | _ => false
     end.



(** ** The edges of [cut] in binary64 *)

(** [linspace] and the edges of [cut] once more, over the kernel's binary64
    numbers, to evaluate what float64 does at given numbers where the
    exact model idealises.  [ratio a b] is the float64 nearest to [a / b],
    which is how a decimal such as 0.1 or 1.8 is read. *)
Module Float64.

Definition of_nat (n : nat) : PrimFloat.float :=
  PrimFloat.of_uint63 (Uint63.of_Z (Z.of_nat n)).

Definition ratio (a b : Z) : PrimFloat.float :=
  PrimFloat.div (PrimFloat.of_uint63 (Uint63.of_Z a))
    (PrimFloat.of_uint63 (Uint63.of_Z b)).

Definition linspace (start stop : PrimFloat.float) (num : nat)
    : list PrimFloat.float :=
  match num with
  | O => []
  | S O => [start]
  | S div =>
      let step := PrimFloat.div (PrimFloat.sub stop start) (of_nat div) in
      map (fun i => PrimFloat.add (PrimFloat.mul (of_nat i) step) start)
          (seq 0 div)
        ++ [stop]
  end.

Fixpoint searchsorted_left (a : list PrimFloat.float) (v : PrimFloat.float)
    : nat :=
  match a with
  | [] => O
  | e :: a' => if PrimFloat.ltb e v then S (searchsorted_left a' v) else O
  end.

Fixpoint has_duplicates (a : list PrimFloat.float) : bool :=
  match a with
  | [] => false
  | e :: a' => existsb (PrimFloat.eqb e) a' || has_duplicates a'
  end.

(** The edges for a column whose extremes differ. *)
Definition nbins_to_bins (mn mx : PrimFloat.float) (nbins : nat)
    : list PrimFloat.float :=
  let adj := PrimFloat.mul (PrimFloat.sub mx mn) (ratio 1 1000) in
  match linspace mn mx (nbins + 1) with
  | [] => []
  | b0 :: rest => PrimFloat.sub b0 adj :: rest
  end.


End Float64.

(** ** The environment of a request *)

Section Request.

Variable to_datetime : string -> option Z.

(** numpy's legacy generator: [MT19937] is the type of its states,
    [RandomState seed] the state [np.random.RandomState(seed)] starts in,
    and [choice g N n] is [choice(N, size=n, replace=False)] drawn from a
    generator in state [g]: the positions, and the state it is left in. *)
Variable MT19937 : Type.
Variable RandomState : Z -> MT19937.
Variable choice : MT19937 -> nat -> nat -> list nat * MT19937.

(** What a request finds around it: the file [rfm_data.csv], the wall
    clock as a day number with the seconds into that day, and the state of
    numpy's global generator, from which an unseeded [sample] draws. *)
Record World : Type := mkWorld {
  rfm_data_csv : list TransactionRecord;
  wall_clock : Z * Z;
  np_random : MT19937
}.

(** [datetime.now().date()]. *)
Definition datetime_now_date (w : World) : Z := fst (wall_clock w).

(** [RandomState(seed).choice(N, size=n, replace=False)], the draw only. *)
Definition seeded_choice (seed : Z) (N n : nat) : list nat :=
  fst (choice (RandomState seed) N n).

(** [df.sample(frac=frac, random_state=state)].  An integer [state] seeds
    a generator of its own; with [None] the draw comes from the global
    generator and moves it on. *)
Definition DataFrame_sample {A : Type} (df : list A) (frac : Q)
    (state : option Z) (w : World) : result (list A) * World :=
  let N := List.length df in
  let n := Z.to_nat (py_round (frac * inject_Z (Z.of_nat N))) in
  match state with
  | Some seed => (take df (fst (choice (RandomState seed) N n)), w)
  | None =>
      let (locs, g) := choice (np_random w) N n in
      (take df locs, mkWorld (rfm_data_csv w) (wall_clock w) g)
  end.

(** [preprocess_data()] in a world: line 13 reads the file, line 19 the
    clock. *)
Definition preprocess_data_request (w : World) : result (list ScoredRecord) :=
  preprocess_data to_datetime (datetime_now_date w) (rfm_data_csv w).

(** Lines 101-104 in a world: the sample is called with
    [random_state=1]. *)
Definition create_plots_request (data : list ScoredRecord) (w : World)
    : result (list ScoredRecord) * World :=
  let lost_customers :=
    filter (fun r => String.eqb (CustomerSegment r) "Lost") data in
  let (reactivated_customers, w') :=
    DataFrame_sample lost_customers reactivation_rate (Some 1) w in
  (reactivated_customers <- reactivated_customers ;;
   Ok (loc_set_segment (map index reactivated_customers)
         "Potential Loyalists"%string data),
   w').

(** The route [index], lines 116-117: the frame it plots, or the exception
    that ends the request, and the world it leaves. *)
Definition index_request (w : World)
    : result (list ScoredRecord) * World :=
  match preprocess_data_request w with
  | Ok data => create_plots_request data w
  | Raise e => (Raise e, w)
  end.

End Request.

Arguments mkWorld {MT19937} _ _ _.
Arguments rfm_data_csv {MT19937} _.
Arguments wall_clock {MT19937} _.
Arguments np_random {MT19937} _.
Arguments datetime_now_date {MT19937} _.
Arguments seeded_choice {MT19937} _ _ _ _ _.
Arguments DataFrame_sample {MT19937} _ _ {A} _ _ _ _.
Arguments preprocess_data_request _ {MT19937} _.
Arguments create_plots_request {MT19937} _ _ _ _.
Arguments index_request _ {MT19937} _ _ _.

(** A generator for the samples: its state is a number, a seed is the
    state it starts in, and a draw takes [n] consecutive positions from
    the state on, modulo [N], moving the state on by [n]. *)
Definition sample_RandomState (seed : Z) : Z := seed.

Definition sample_generator (g : Z) (N n : nat) : list nat * Z :=
  (map (fun i => ((Z.to_nat g + i) mod N)%nat) (seq 0 n), g + Z.of_nat n).

(** Two worlds with the lapsed-customer table on the same day: one in the
    morning, one in the evening, the global generator in different
    states. *)
Definition morning : World Z :=
  mkWorld lapsed_csv (sample_now, 28800) 7.

Definition evening : World Z :=
  mkWorld lapsed_csv (sample_now, 72000) 11.

Lemma Qltb_true (x y : Q) : Qltb x y = true <-> (x < y)%Q.
Proof.
  unfold Qltb. rewrite negb_true_iff. split; intros H.
  - apply Qnot_le_lt. intros Hle. apply Qle_bool_iff in Hle. congruence.
  - destruct (Qle_bool y x) eqn:E; [|reflexivity].
    apply Qle_bool_iff in E. lra.
Qed.

Lemma Qltb_false (x y : Q) : Qltb x y = false <-> (y <= x)%Q.
Proof.
  unfold Qltb. rewrite negb_false_iff. apply Qle_bool_iff.
Qed.

Lemma Qeq_bool_false (x y : Q) : Qeq_bool x y = false <-> ~ (x == y)%Q.
Proof.
  split; intros H.
  - intros E. apply Qeq_bool_iff in E. congruence.
  - destruct (Qeq_bool x y) eqn:E; [|reflexivity].
    apply Qeq_bool_iff in E. contradiction.
Qed.

Ltac Qbools :=
  repeat match goal with
  | H : Qltb _ _ = true |- _ => apply Qltb_true in H
  | H : Qltb _ _ = false |- _ => apply Qltb_false in H
  | H : Qeq_bool _ _ = true |- _ => apply Qeq_bool_iff in H
  | H : Qeq_bool _ _ = false |- _ => apply Qeq_bool_false in H
  end.

(** *** Extremes of a column *)

Lemma nanmin_lower x mn :
  nanmin x = Some mn -> forall v, In (Some v) x -> (mn <= v)%Q.
Proof.
  revert mn. induction x as [|c t IH]; intros mn H v Hin; [contradiction|].
  destruct c as [w|]; simpl in H.
  - destruct (nanmin t) as [m|] eqn:E.
    + injection H as <-. destruct (Qltb m w) eqn:C; Qbools;
        destruct Hin as [Hv|Hv];
        try (injection Hv as ->); try specialize (IH m eq_refl v Hv); lra.
    + injection H as <-. destruct Hin as [Hv|Hv]; [injection Hv as ->; lra|].
      exfalso. clear IH. induction t as [|d t IHt]; [contradiction|].
      destruct d; simpl in E.
      * destruct (nanmin t); discriminate.
      * destruct Hv as [Hv|Hv]; [discriminate|auto].
  - destruct Hin as [Hv|Hv]; [discriminate|eauto].
Qed.

Lemma nanmax_upper x mx :
  nanmax x = Some mx -> forall v, In (Some v) x -> (v <= mx)%Q.
Proof.
  revert mx. induction x as [|c t IH]; intros mx H v Hin; [contradiction|].
  destruct c as [w|]; simpl in H.
  - destruct (nanmax t) as [m|] eqn:E.
    + injection H as <-. destruct (Qltb w m) eqn:C; Qbools;
        destruct Hin as [Hv|Hv];
        try (injection Hv as ->); try specialize (IH m eq_refl v Hv); lra.
    + injection H as <-. destruct Hin as [Hv|Hv]; [injection Hv as ->; lra|].
      exfalso. clear IH. induction t as [|d t IHt]; [contradiction|].
      destruct d; simpl in E.
      * destruct (nanmax t); discriminate.
      * destruct Hv as [Hv|Hv]; [discriminate|auto].
  - destruct Hin as [Hv|Hv]; [discriminate|eauto].
Qed.

Lemma nanmin_In x mn : nanmin x = Some mn -> In (Some mn) x.
Proof.
  revert mn. induction x as [|c t IH]; intros mn H; [discriminate|].
  destruct c as [w|]; simpl in H.
  - destruct (nanmin t) as [m|].
    + injection H as <-. destruct (Qltb m w); [right; auto|left; reflexivity].
    + injection H as <-. left; reflexivity.
  - right; auto.
Qed.

Lemma nanmax_In x mx : nanmax x = Some mx -> In (Some mx) x.
Proof.
  revert mx. induction x as [|c t IH]; intros mx H; [discriminate|].
  destruct c as [w|]; simpl in H.
  - destruct (nanmax t) as [m|].
    + injection H as <-. destruct (Qltb w m); [right; auto|left; reflexivity].
    + injection H as <-. left; reflexivity.
  - right; auto.
Qed.

Lemma nanmin_Some x v : In (Some v) x -> exists mn, nanmin x = Some mn.
Proof.
  induction x as [|c t IH]; intros Hin; [contradiction|].
  destruct c as [w|]; simpl.
  - destruct (nanmin t); eauto.
  - destruct Hin as [Hv|Hv]; [discriminate|auto].
Qed.

Lemma nanmax_Some x v : In (Some v) x -> exists mx, nanmax x = Some mx.
Proof.
  induction x as [|c t IH]; intros Hin; [contradiction|].
  destruct c as [w|]; simpl.
  - destruct (nanmax t); eauto.
  - destruct Hin as [Hv|Hv]; [discriminate|auto].
Qed.

(** *** Position found by [searchsorted] *)

Lemma searchsorted_left_below a v i e :
  (i < searchsorted_left a v)%nat -> nth_error a i = Some e -> (e < v)%Q.
Proof.
  revert i. induction a as [|h t IH]; intros i Hi Hn; simpl in Hi; [lia|].
  destruct (Qltb h v) eqn:C; [|lia]. Qbools.
  destruct i as [|i]; simpl in Hn.
  - injection Hn as <-. exact C.
  - apply (IH i); [lia|exact Hn].
Qed.

Lemma searchsorted_left_at a v e :
  nth_error a (searchsorted_left a v) = Some e -> (v <= e)%Q.
Proof.
  induction a as [|h t IH]; simpl; [discriminate|].
  destruct (Qltb h v) eqn:C; simpl; [exact IH|].
  intros H. injection H as <-. Qbools. exact C.
Qed.

Lemma searchsorted_left_le a v : (searchsorted_left a v <= List.length a)%nat.
Proof.
  induction a as [|h t IH]; simpl; [lia|].
  destruct (Qltb h v); lia.
Qed.

Lemma has_duplicates_sorted a :
  StronglySorted Qlt a -> has_duplicates a = false.
Proof.
  induction 1 as [|h t Hs IH Hall]; simpl; [reflexivity|].
  rewrite IH, orb_false_r. clear Hs IH.
  induction Hall as [|x l Hx Hl IHl]; simpl; [reflexivity|].
  rewrite IHl, orb_false_r. apply Qeq_bool_false. lra.
Qed.

(** *** The edges of [pd.cut] for five and for three bins *)

Lemma widen_pos m : (0 < widen m)%Q.
Proof.
  unfold widen. destruct (Qeq_bool m 0) eqn:E; Qbools; [lra|].
  apply Qabs_case; intros; lra.
Qed.

Lemma widen_wd m m' : (m == m')%Q -> (widen m == widen m')%Q.
Proof.
  intros E. unfold widen.
  destruct (Qeq_bool m 0) eqn:A, (Qeq_bool m' 0) eqn:B; Qbools;
    try lra; try (exfalso; lra).
  rewrite (Qabs_wd _ _ E). reflexivity.
Qed.

Lemma edges5 mn mx :
  nbins_to_bins mn mx 5 =
  if Qeq_bool mn mx then
    let lo := (mn - widen mn)%Q in
    let hi := (mx + widen mx)%Q in
    [ (0 * ((hi - lo) * (1 # 5)) + lo)%Q; (1 * ((hi - lo) * (1 # 5)) + lo)%Q;
      (2 * ((hi - lo) * (1 # 5)) + lo)%Q; (3 * ((hi - lo) * (1 # 5)) + lo)%Q;
      (4 * ((hi - lo) * (1 # 5)) + lo)%Q; hi ]
  else
    [ (0 * ((mx - mn) * (1 # 5)) + mn - (mx - mn) * (1 # 1000))%Q;
      (1 * ((mx - mn) * (1 # 5)) + mn)%Q; (2 * ((mx - mn) * (1 # 5)) + mn)%Q;
      (3 * ((mx - mn) * (1 # 5)) + mn)%Q; (4 * ((mx - mn) * (1 # 5)) + mn)%Q;
      mx ].
Proof. reflexivity. Qed.

Lemma edges3 mn mx :
  nbins_to_bins mn mx 3 =
  if Qeq_bool mn mx then
    let lo := (mn - widen mn)%Q in
    let hi := (mx + widen mx)%Q in
    [ (0 * ((hi - lo) * (1 # 3)) + lo)%Q; (1 * ((hi - lo) * (1 # 3)) + lo)%Q;
      (2 * ((hi - lo) * (1 # 3)) + lo)%Q; hi ]
  else
    [ (0 * ((mx - mn) * (1 # 3)) + mn - (mx - mn) * (1 # 1000))%Q;
      (1 * ((mx - mn) * (1 # 3)) + mn)%Q; (2 * ((mx - mn) * (1 # 3)) + mn)%Q;
      mx ].
Proof. reflexivity. Qed.

Ltac edges_sorted :=
  repeat (constructor; try lra).

Lemma edges5_unique mn mx :
  (mn <= mx)%Q -> has_duplicates (nbins_to_bins mn mx 5) = false.
Proof.
  intros Hle. rewrite edges5. pose proof (widen_pos mn). pose proof (widen_pos mx).
  apply has_duplicates_sorted.
  destruct (Qeq_bool mn mx) eqn:E; Qbools; cbv zeta; edges_sorted.
Qed.

Lemma edges3_unique mn mx :
  (mn <= mx)%Q -> has_duplicates (nbins_to_bins mn mx 3) = false.
Proof.
  intros Hle. rewrite edges3. pose proof (widen_pos mn). pose proof (widen_pos mx).
  apply has_duplicates_sorted.
  destruct (Qeq_bool mn mx) eqn:E; Qbools; cbv zeta; edges_sorted.
Qed.

Ltac bin_arith :=
  unfold right_closed_bin, bin_edge, bin_width, Qdiv;
  cbn [Z.of_nat Pos.of_succ_nat Pos.succ inject_Z Qinv Qnum Qden];
  unfold inject_Z; try lra.

(** Every cell between the extremes lands in a bin: the bin is the
    right-closed one when the extremes differ, the middle one when they
    coincide. *)
Lemma bins_to_cuts5 {L : Type} (labels : list L) mn mx v :
  (mn <= v)%Q -> (v <= mx)%Q -> List.length labels = 5%nat ->
  exists k l,
    nth_error labels k = Some l /\
    bins_to_cuts (nbins_to_bins mn mx 5) labels (Some v) = Some l /\
    ((mn < mx)%Q -> right_closed_bin mn mx 5 k v) /\
    ((mn == mx)%Q -> k = 2%nat).
Proof.
  intros Hlo Hhi Hlen.
  destruct labels as [|l0 [|l1 [|l2 [|l3 [|l4 [|l5 ?]]]]]]; try discriminate.
  pose proof (widen_pos mn) as Wn. pose proof (widen_pos mx) as Wx.
  pose proof (searchsorted_left_below (nbins_to_bins mn mx 5) v) as Hb.
  pose proof (searchsorted_left_at (nbins_to_bins mn mx 5) v) as Ha.
  pose proof (searchsorted_left_le (nbins_to_bins mn mx 5) v) as Hl.
  unfold bins_to_cuts. rewrite edges5 in *.
  destruct (Qeq_bool mn mx) eqn:E; Qbools;
    [pose proof (widen_wd _ _ E)|]; cbv zeta in *;
    destruct (searchsorted_left _ v) as [|[|[|[|[|[|[|k]]]]]]];
    try (simpl in Hl; lia);
    try (specialize (Ha _ eq_refl));
    try (exfalso; lra);
    try (pose proof (Hb 5%nat _ ltac:(lia) eq_refl); exfalso; lra);
    try (pose proof (Hb 4%nat _ ltac:(lia) eq_refl));
    try (pose proof (Hb 3%nat _ ltac:(lia) eq_refl));
    try (pose proof (Hb 2%nat _ ltac:(lia) eq_refl));
    try (pose proof (Hb 1%nat _ ltac:(lia) eq_refl));
    try (pose proof (Hb 0%nat _ ltac:(lia) eq_refl));
    try (exfalso; lra);
    (match goal with
     | |- context [nth_error _ (?n - 1)] =>
         let k := eval compute in (n - 1)%nat in exists k
     end);
    (eexists; split; [reflexivity|split; [reflexivity|split]]);
    intros; try contradiction; try (exfalso; lra); try reflexivity;
    bin_arith; (split; [first [left; lra | right; split; [reflexivity|lra]] | lra]).
Qed.

Lemma bins_to_cuts3 {L : Type} (labels : list L) mn mx v :
  (mn <= v)%Q -> (v <= mx)%Q -> List.length labels = 3%nat ->
  exists k l,
    nth_error labels k = Some l /\
    bins_to_cuts (nbins_to_bins mn mx 3) labels (Some v) = Some l /\
    ((mn < mx)%Q -> right_closed_bin mn mx 3 k v) /\
    ((mn == mx)%Q -> k = 1%nat).
Proof.
  intros Hlo Hhi Hlen.
  destruct labels as [|l0 [|l1 [|l2 [|l3 ?]]]]; try discriminate.
  pose proof (widen_pos mn) as Wn. pose proof (widen_pos mx) as Wx.
  pose proof (searchsorted_left_below (nbins_to_bins mn mx 3) v) as Hb.
  pose proof (searchsorted_left_at (nbins_to_bins mn mx 3) v) as Ha.
  pose proof (searchsorted_left_le (nbins_to_bins mn mx 3) v) as Hl.
  unfold bins_to_cuts. rewrite edges3 in *.
  destruct (Qeq_bool mn mx) eqn:E; Qbools;
    [pose proof (widen_wd _ _ E)|]; cbv zeta in *;
    destruct (searchsorted_left _ v) as [|[|[|[|[|k]]]]];
    try (simpl in Hl; lia);
    try (specialize (Ha _ eq_refl));
    try (exfalso; lra);
    try (pose proof (Hb 3%nat _ ltac:(lia) eq_refl); exfalso; lra);
    try (pose proof (Hb 2%nat _ ltac:(lia) eq_refl));
    try (pose proof (Hb 1%nat _ ltac:(lia) eq_refl));
    try (pose proof (Hb 0%nat _ ltac:(lia) eq_refl));
    try (exfalso; lra);
    (match goal with
     | |- context [nth_error _ (?n - 1)] =>
         let k := eval compute in (n - 1)%nat in exists k
     end);
    (eexists; split; [reflexivity|split; [reflexivity|split]]);
    intros; try contradiction; try (exfalso; lra); try reflexivity;
    bin_arith; (split; [first [left; lra | right; split; [reflexivity|lra]] | lra]).
Qed.

(** The right-closed bins do not overlap: a value lies in one of them only. *)
Lemma bin_edge_mono mn mx nbins k k' :
  (mn < mx)%Q -> (0 < nbins)%nat -> (k <= k')%nat ->
  (bin_edge mn mx nbins k <= bin_edge mn mx nbins k')%Q.
Proof.
  intros Hlt Hn Hk. unfold bin_edge.
  assert (Hw : (0 <= bin_width mn mx nbins)%Q).
  { unfold bin_width. apply Qle_shift_div_l.
    - change 0%Q with (inject_Z 0). rewrite <- Zlt_Qlt. lia.
    - lra. }
  assert (Hi : (inject_Z (Z.of_nat k) <= inject_Z (Z.of_nat k'))%Q).
  { rewrite <- Zle_Qle. lia. }
  pose proof (Qmult_le_compat_r _ _ _ Hi Hw). lra.
Qed.

Lemma right_closed_bin_unique mn mx nbins k k' v :
  (mn < mx)%Q -> (0 < nbins)%nat ->
  right_closed_bin mn mx nbins k v -> right_closed_bin mn mx nbins k' v ->
  k = k'.
Proof.
  intros Hlt Hn [Hlo Hhi] [Hlo' Hhi'].
  destruct (Nat.lt_trichotomy k k') as [H|[H|H]]; [exfalso|exact H|exfalso].
  - destruct Hlo' as [Hlo'|[-> _]]; [|lia].
    pose proof (bin_edge_mono mn mx nbins (S k) k' Hlt Hn ltac:(lia)). lra.
  - destruct Hlo as [Hlo|[-> _]]; [|lia].
    pose proof (bin_edge_mono mn mx nbins (S k') k Hlt Hn ltac:(lia)). lra.
Qed.

(** *** [cut] as a whole *)

Lemma cut_Ok_inv {L : Type} x n (labels : list L) ys :
  cut x n labels = Ok ys ->
  exists mn mx,
    nanmin x = Some mn /\ nanmax x = Some mx /\
    ys = map (bins_to_cuts (nbins_to_bins mn mx n) labels) x.
Proof.
  unfold cut. destruct (n <? 1)%nat; [discriminate|].
  destruct x as [|c t]; [discriminate|].
  destruct (nanmin (c :: t)) as [mn|]; [|discriminate].
  destruct (nanmax (c :: t)) as [mx|]; [|discriminate].
  destruct (has_duplicates _); [discriminate|].
  destruct (negb _); [discriminate|].
  intros H. injection H as <-. eauto.
Qed.

Lemma bins_to_cuts_label {L : Type} edges (labels : list L) c l :
  bins_to_cuts edges labels c = Some l -> In l labels /\ exists v, c = Some v.
Proof.
  unfold bins_to_cuts. destruct c as [v|]; [|discriminate].
  destruct (_ || _); [discriminate|].
  intros H. split; [eapply nth_error_In; eauto|eauto].
Qed.

Lemma cut_filled {L : Type} (x : list Q) n (labels : list L) :
  pipeline_bins n -> x <> [] -> List.length labels = n ->
  exists mn mx,
    nanmin (map Some x) = Some mn /\ nanmax (map Some x) = Some mx /\
    cut (map Some x) n labels =
      Ok (map (bins_to_cuts (nbins_to_bins mn mx n) labels) (map Some x)) /\
    Forall (fun v => (mn <= v)%Q /\ (v <= mx)%Q) x.
Proof.
  intros Hn Hx Hlen. destruct x as [|v0 t]; [congruence|].
  destruct (nanmin_Some (map Some (v0 :: t)) v0) as [mn Hmn]; [left; reflexivity|].
  destruct (nanmax_Some (map Some (v0 :: t)) v0) as [mx Hmx]; [left; reflexivity|].
  exists mn, mx. split; [exact Hmn|]. split; [exact Hmx|].
  assert (Hall : Forall (fun v => (mn <= v)%Q /\ (v <= mx)%Q) (v0 :: t)).
  { apply Forall_forall. intros v Hv. split.
    - apply (nanmin_lower _ _ Hmn). apply in_map. exact Hv.
    - apply (nanmax_upper _ _ Hmx). apply in_map. exact Hv. }
  split; [|exact Hall].
  assert (Hle : (mn <= mx)%Q).
  { inversion Hall as [|? ? [? ?] ?]; subst. lra. }
  unfold cut. rewrite Hmn, Hmx.
  destruct Hn as [-> | ->]; simpl (_ <? _)%nat; cbv iota.
  - rewrite (edges5_unique _ _ Hle).
    replace (List.length (nbins_to_bins mn mx 5)) with 6%nat
      by (rewrite edges5; destruct (Qeq_bool mn mx); reflexivity).
    rewrite Hlen. reflexivity.
  - rewrite (edges3_unique _ _ Hle).
    replace (List.length (nbins_to_bins mn mx 3)) with 4%nat
      by (rewrite edges3; destruct (Qeq_bool mn mx); reflexivity).
    rewrite Hlen. reflexivity.
Qed.

(** *** [astype(int)] *)

Lemma astype_int_Ok col l : astype_int col = Ok l -> col = map Some l.
Proof.
  revert l. induction col as [|c t IH]; intros l H; simpl in H.
  - injection H as <-. reflexivity.
  - destruct c as [v|]; [|discriminate].
    destruct (astype_int t) as [t'|e]; simpl in H; [|discriminate].
    injection H as <-. simpl. f_equal. apply IH. reflexivity.
Qed.

Lemma astype_int_Some l : astype_int (map Some l) = Ok l.
Proof.
  induction l as [|v t IH]; simpl; [reflexivity|]. rewrite IH. reflexivity.
Qed.

Lemma astype_int_missing col : In None col -> raises (astype_int col).
Proof.
  induction col as [|c t IH]; intros Hin; [contradiction|].
  destruct c as [v|]; simpl.
  - destruct Hin as [Hv|Hv]; [discriminate|].
    destruct (IH Hv) as [e He]. rewrite He. exists e. reflexivity.
  - eexists. reflexivity.
Qed.

(** *** Group keys *)

Lemma insert_key_In k keys x : In x (insert_key k keys) <-> x = k \/ In x keys.
Proof.
  induction keys as [|h t IH]; simpl.
  - intuition.
  - destruct (k <? h) eqn:A; [simpl; intuition|].
    destruct (k =? h) eqn:B.
    + apply Z.eqb_eq in B. subst. simpl. intuition.
    + simpl. rewrite IH. intuition.
Qed.

Lemma insert_key_sorted k keys :
  StronglySorted Z.lt keys -> StronglySorted Z.lt (insert_key k keys).
Proof.
  induction 1 as [|h t Hs IH Hall]; simpl.
  - repeat constructor.
  - destruct (k <? h) eqn:A.
    + apply Z.ltb_lt in A. constructor; [constructor; assumption|].
      constructor; [exact A|].
      eapply Forall_impl; [|exact Hall]. intros; simpl in *; lia.
    + destruct (k =? h) eqn:B; [constructor; assumption|].
      apply Z.ltb_ge in A. apply Z.eqb_neq in B.
      constructor; [exact IH|].
      apply Forall_forall. intros x Hx. apply insert_key_In in Hx.
      destruct Hx as [->|Hx]; [lia|].
      rewrite Forall_forall in Hall. auto.
Qed.

Lemma group_keys_In keys x : In x (group_keys keys) <-> In x keys.
Proof.
  induction keys as [|h t IH]; simpl; [tauto|].
  rewrite insert_key_In, IH. intuition.
Qed.

Lemma group_keys_sorted keys : StronglySorted Z.lt (group_keys keys).
Proof.
  induction keys as [|h t IH]; simpl; [constructor|].
  apply insert_key_sorted. exact IH.
Qed.

Lemma sorted_lookup {B : Type} (g : Z -> B) keys k :
  StronglySorted Z.lt keys -> In k keys ->
  filter (fun kb => fst kb =? k) (map (fun x => (x, g x)) keys) = [(k, g k)].
Proof.
  induction 1 as [|h t Hs IH Hall]; intros Hin; [contradiction|].
  rewrite Forall_forall in Hall. simpl.
  destruct (h =? k) eqn:A.
  - apply Z.eqb_eq in A. subst h. f_equal.
    clear IH Hin Hs. induction t as [|y t IHt]; [reflexivity|]. simpl.
    assert (k < y) by (apply Hall; left; reflexivity).
    destruct (y =? k) eqn:Ey; [apply Z.eqb_eq in Ey; lia|].
    apply IHt. intros x Hx. apply Hall. right. exact Hx.
  - apply Z.eqb_neq in A. destruct Hin as [->|Hin]; [congruence|]. auto.
Qed.

(** A left merge against a group-by of the same key column is one row out
    per row in. *)
Lemma merge_left_groups {A B C : Type} (key : A -> Z)
    (join : A -> option B -> C) (g : Z -> B) (left all : list A) :
  incl left all ->
  merge_left key join left
    (map (fun k => (k, g k)) (group_keys (map key all)))
  = map (fun a => join a (Some (g (key a)))) left.
Proof.
  intros Hincl. unfold merge_left.
  induction left as [|a t IH]; [reflexivity|]. simpl.
  rewrite sorted_lookup.
  - simpl. f_equal. apply IH. intros x Hx. apply Hincl. right. exact Hx.
  - apply group_keys_sorted.
  - apply group_keys_In. apply in_map. apply Hincl. left. reflexivity.
Qed.

(** *** Segment assignment *)

Ltac segment_cases s :=
  let Hs := fresh "Hs" in
  assert (Hs : s < 3 \/ s = 3 \/ s = 4 \/ s = 5 \/ 6 <= s < 9 \/ 9 <= s)
    by lia;
  unfold segment_rule;
  destruct Hs as [Hs|[Hs|[Hs|[Hs|[Hs|Hs]]]]];
  try (exfalso; lia);
  repeat match goal with
         | |- context [?a <=? ?b] =>
             first [rewrite (proj2 (Z.leb_le a b)) by lia
                   |rewrite (proj2 (Z.leb_gt a b)) by lia]
         | |- context [?a <? ?b] =>
             first [rewrite (proj2 (Z.ltb_lt a b)) by lia
                   |rewrite (proj2 (Z.ltb_ge a b)) by lia]
         end; cbn [andb].

Lemma assign_segments_rule rfm : assign_segments rfm = map segment_rule rfm.
Proof.
  induction rfm as [|s t IH]; [reflexivity|].
  unfold assign_segments in *. simpl. f_equal; [|exact IH].
  segment_cases s; reflexivity.
Qed.

Lemma segment_rule_range s :
  3 <= s <= 15 -> In (segment_rule s) all_segments.
Proof.
  intros Hs. unfold all_segments.
  segment_cases s; simpl; tauto.
Qed.

(** *** Lists *)

Lemma filter_map_comm {A B : Type} (f : A -> B) (p : B -> bool) l :
  filter p (map f l) = map f (filter (fun a => p (f a)) l).
Proof.
  induction l as [|a t IH]; simpl; [reflexivity|].
  destruct (p (f a)); simpl; rewrite IH; reflexivity.
Qed.

Lemma map_Some_inj {A B : Type} (f : A -> option B) data (l : list B) :
  map Some l = map f data -> Forall2 (fun a b => f a = Some b) data l.
Proof.
  revert l. induction data as [|a t IH]; intros [|b l] H; try discriminate.
  - constructor.
  - simpl in H. injection H as Hb Hl. constructor; [congruence|auto].
Qed.

(** *** The frame returned by [preprocess_data] *)

Lemma assemble_rows (fR fF fM : MetricRow -> option Z)
    (gV : Z -> option string) (gS : Z -> string) :
  forall data i rs fs mo,
    Forall2 (fun m r => fR m = Some r) data rs ->
    Forall2 (fun m r => fF m = Some r) data fs ->
    Forall2 (fun m r => fM m = Some r) data mo ->
    let rfm := map3 (fun r f m => r + f + m) rs fs mo in
    let out := assemble i data rs fs mo rfm (map gV rfm) (map gS rfm) in
    Forall2 (fun m r =>
               metrics r = m /\ fR m = Some (RecencyScore r) /\
               fF m = Some (FrequencyScore r) /\
               fM m = Some (MonetaryScore r) /\
               RFM_Score r = RecencyScore r + FrequencyScore r + MonetaryScore r /\
               ValueSegment r = gV (RFM_Score r) /\
               CustomerSegment r = gS (RFM_Score r))
            data out
    /\ map index out = seq i (List.length data)
    /\ map RFM_Score out = rfm.
Proof.
  induction data as [|m data IH]; intros i rs fs mo HR HF HM;
    inversion HR; inversion HF; inversion HM; subst; simpl.
  - repeat split; constructor.
  - destruct (IH (S i) _ _ _ H3 H8 H13) as (IH1 & IH2 & IH3); clear IH.
    repeat split.
    + constructor; [simpl; repeat split; assumption|exact IH1].
    + f_equal. exact IH2.
    + f_equal. exact IH3.
Qed.

Lemma Forall2_In_r {A B : Type} (R : A -> B -> Prop) l l' b :
  Forall2 R l l' -> In b l' -> exists a, In a l /\ R a b.
Proof.
  induction 1 as [|x y l l' Hxy Hl IH]; intros Hin; [contradiction|].
  destruct Hin as [->|Hin].
  - exists x. split; [left; reflexivity|exact Hxy].
  - destruct (IH Hin) as (a & Ha & HR). exists a. split; [right|]; assumption.
Qed.

Lemma Forall2_map_r {A B : Type} (f : B -> A) l l' :
  Forall2 (fun a b => f b = a) l l' -> map f l' = l.
Proof.
  induction 1; simpl; [reflexivity|]. f_equal; assumption.
Qed.

Lemma bins_to_cuts_binned {L : Type} (labels : list L) n mn mx v :
  pipeline_bins n -> (mn <= v)%Q -> (v <= mx)%Q -> List.length labels = n ->
  exists l,
    bins_to_cuts (nbins_to_bins mn mx n) labels (Some v) = Some l /\
    binned labels mn mx n v l.
Proof.
  intros [-> | ->] Hlo Hhi Hlen.
  - destruct (bins_to_cuts5 labels mn mx v Hlo Hhi Hlen)
      as (k & l & Hk & Hc & Hr & Hd).
    exists l. split; [exact Hc|]. exists k.
    split; [exact Hk|]. split; [exact Hr|]. intros E. rewrite (Hd E). reflexivity.
  - destruct (bins_to_cuts3 labels mn mx v Hlo Hhi Hlen)
      as (k & l & Hk & Hc & Hr & Hd).
    exists l. split; [exact Hc|]. exists k.
    split; [exact Hk|]. split; [exact Hr|]. intros E. rewrite (Hd E). reflexivity.
Qed.

(** A filled, non-empty column is cut without error and without gaps. *)
Lemma cut_scores {L : Type} (x : list Q) n (labels : list L) :
  pipeline_bins n -> x <> [] -> List.length labels = n ->
  exists ls, cut (map Some x) n labels = Ok (map Some ls).
Proof.
  intros Hn Hx Hlen.
  destruct (cut_filled x n labels Hn Hx Hlen) as (mn & mx & _ & _ & Hc & Hall).
  rewrite Hc. clear Hc Hx.
  induction Hall as [|v t [Hlo Hhi] Ht IH].
  - exists []. reflexivity.
  - destruct IH as [ls IH].
    destruct (bins_to_cuts_binned labels n mn mx v Hn Hlo Hhi Hlen)
      as (l & Hl & _).
    exists (l :: ls). cbn [map]. rewrite Hl. injection IH as IH.
    rewrite IH. reflexivity.
Qed.

Lemma map3_length {A B C D : Type} (f : A -> B -> C -> D) a b c :
  List.length a = List.length b -> List.length a = List.length c ->
  List.length (map3 f a b c) = List.length a.
Proof.
  revert b c. induction a as [|x a IH]; intros [|y b] [|z c] Hb Hc;
    simpl in *; try discriminate; [reflexivity|].
  f_equal. apply IH; lia.
Qed.

Lemma map_Some_length {A B : Type} (f : A -> option B) x l :
  map Some l = map f x -> List.length l = List.length x.
Proof.
  intros H. apply (f_equal (@List.length _)) in H.
  rewrite !length_map in H. exact H.
Qed.

Section Facts.

Variable to_datetime : string -> option Z.

Lemma frequency_frame_rows now csv :
  frequency_frame to_datetime now csv
  = map (fun t => (t, recency_of to_datetime now t,
                   Some (order_count csv (CustomerID t)))) csv.
Proof.
  unfold frequency_frame, dated_frame, groupby_count.
  rewrite (merge_left_groups _ _
             (fun k => Z.of_nat (List.length (filter _ _)))) by apply incl_refl.
  rewrite !map_map. apply map_ext. intros t. simpl.
  do 2 f_equal. unfold order_count. f_equal.
  rewrite filter_map_comm, length_map. reflexivity.
Qed.

Lemma metrics_frame_rows now csv :
  metrics_frame to_datetime now csv = map (metric_row to_datetime now csv) csv.
Proof.
  unfold metrics_frame, groupby_sum.
  rewrite (merge_left_groups _ _
             (fun k => Qsum (map _ (filter _ _)))) by apply incl_refl.
  rewrite frequency_frame_rows.
  rewrite !map_map. apply map_ext. intros t. unfold metric_row. simpl.
  do 2 f_equal. unfold amount_total. f_equal.
  rewrite !filter_map_comm, !map_map. reflexivity.
Qed.

Lemma preprocess_data_inv now csv out :
  preprocess_data to_datetime now csv = Ok out ->
  exists mnR mxR mnF mxF mnM mxM mnV mxV,
    let data := metrics_frame to_datetime now csv in
    nanmin (recency_column data) = Some mnR /\
    nanmax (recency_column data) = Some mxR /\
    nanmin (frequency_column data) = Some mnF /\
    nanmax (frequency_column data) = Some mxF /\
    nanmin (monetary_column data) = Some mnM /\
    nanmax (monetary_column data) = Some mxM /\
    nanmin (score_column out) = Some mnV /\
    nanmax (score_column out) = Some mxV /\
    Forall2 (scored_from (nbins_to_bins mnR mxR 5) (nbins_to_bins mnF mxF 5)
               (nbins_to_bins mnM mxM 5) (nbins_to_bins mnV mxV 3))
            data out /\
    map index out = seq 0 (List.length out).
Proof.
  unfold preprocess_data. set (data := metrics_frame to_datetime now csv).
  destruct (cut (map _ data) 5 recency_scores) as [rs0|] eqn:ER; [|discriminate].
  destruct (cut (map _ data) 5 frequency_scores) as [fs0|] eqn:EF; [|discriminate].
  destruct (cut (map _ data) 5 monetary_scores) as [mo0|] eqn:EM; [|discriminate].
  simpl.
  destruct (astype_int rs0) as [rs|] eqn:AR; [|discriminate].
  destruct (astype_int fs0) as [fs|] eqn:AF; [|discriminate].
  destruct (astype_int mo0) as [mo|] eqn:AM; [|discriminate].
  simpl.
  destruct (cut _ 3 segment_labels) as [vs|] eqn:EV; [|discriminate].
  simpl. intros H. injection H as <-.
  apply cut_Ok_inv in ER, EF, EM, EV.
  destruct ER as (mnR & mxR & HnR & HxR & ->).
  destruct EF as (mnF & mxF & HnF & HxF & ->).
  destruct EM as (mnM & mxM & HnM & HxM & ->).
  destruct EV as (mnV & mxV & HnV & HxV & ->).
  apply astype_int_Ok in AR, AF, AM.
  rewrite map_map in AR, AF, AM. symmetry in AR, AF, AM.
  apply map_Some_inj in AR, AF, AM.
  rewrite assign_segments_rule, map_map.
  set (rfm := map3 (fun r f m => r + f + m) rs fs mo) in *.
  destruct (assemble_rows _ _ _
              (fun s => bins_to_cuts (nbins_to_bins mnV mxV 3) segment_labels
                          (Some (inject_Z s)))
              segment_rule data 0%nat rs fs mo AR AF AM) as (H1 & H2 & H3).
  fold rfm in H1, H2, H3.
  set (out := assemble 0 data rs fs mo rfm _ _) in *.
  assert (Hsc : score_column out = map (fun s => Some (inject_Z s)) rfm).
  { unfold score_column. rewrite <- H3, map_map. reflexivity. }
  exists mnR, mxR, mnF, mxF, mnM, mxM, mnV, mxV. cbv zeta.
  rewrite Hsc.
  repeat (split; [assumption|]).
  rewrite H2. f_equal. eapply Forall2_length. exact H1.
Qed.

(** The pipeline goes through on every non-empty table whose dates parse. *)
Lemma preprocess_data_total now csv :
  csv <> [] -> all_dates_parse to_datetime csv ->
  exists out, preprocess_data to_datetime now csv = Ok out.
Proof.
  intros Hne Hd. unfold preprocess_data.
  rewrite metrics_frame_rows.
  assert (Hlen : forall (f : TransactionRecord -> Q), map f csv <> []).
  { intros f E. apply Hne. destruct csv; [reflexivity|discriminate]. }
  set (qR := fun t => match recency_of to_datetime now t with
                      | Some d => inject_Z d
                      | None => 0%Q
                      end).
  set (qF := fun t => inject_Z (order_count csv (CustomerID t))).
  set (qM := fun t => amount_total csv (CustomerID t)).
  assert (HR : map (fun m => Zcell (Recency m))
                 (map (metric_row to_datetime now csv) csv)
               = map Some (map qR csv)).
  { rewrite !map_map. apply map_ext_in. intros t Ht. simpl.
    unfold qR, recency_of. specialize (Hd t Ht).
    destruct (to_datetime (PurchaseDate t)); [reflexivity|congruence]. }
  assert (HF : map (fun m => Zcell (Frequency m))
                 (map (metric_row to_datetime now csv) csv)
               = map Some (map qF csv)).
  { rewrite !map_map. reflexivity. }
  assert (HM : map MonetaryValue (map (metric_row to_datetime now csv) csv)
               = map Some (map qM csv)).
  { rewrite !map_map. reflexivity. }
  rewrite HR, HF, HM.
  destruct (cut_scores (map qR csv) 5 recency_scores
              (or_introl eq_refl) (Hlen qR) eq_refl) as [rs Hrs].
  destruct (cut_scores (map qF csv) 5 frequency_scores
              (or_introl eq_refl) (Hlen qF) eq_refl) as [fs Hfs].
  destruct (cut_scores (map qM csv) 5 monetary_scores
              (or_introl eq_refl) (Hlen qM) eq_refl) as [mo Hmo].
  rewrite Hrs, Hfs, Hmo. simpl. rewrite !astype_int_Some. simpl.
  assert (Lr : List.length rs = List.length csv).
  { apply cut_Ok_inv in Hrs. destruct Hrs as (? & ? & _ & _ & Hrs).
    apply map_Some_length in Hrs. rewrite !length_map in Hrs. exact Hrs. }
  assert (Lf : List.length fs = List.length csv).
  { apply cut_Ok_inv in Hfs. destruct Hfs as (? & ? & _ & _ & Hfs).
    apply map_Some_length in Hfs. rewrite !length_map in Hfs. exact Hfs. }
  assert (Lm : List.length mo = List.length csv).
  { apply cut_Ok_inv in Hmo. destruct Hmo as (? & ? & _ & _ & Hmo).
    apply map_Some_length in Hmo. rewrite !length_map in Hmo. exact Hmo. }
  set (rfm := map3 (fun r f m => r + f + m) rs fs mo).
  assert (Hrfm : map inject_Z rfm <> []).
  { intros E. apply (f_equal (@List.length _)) in E.
    rewrite length_map in E. unfold rfm in E.
    rewrite map3_length in E by congruence.
    destruct csv; [congruence|]. simpl in *. lia. }
  destruct (cut_scores (map inject_Z rfm) 3 segment_labels
              (or_intror eq_refl) Hrfm eq_refl) as [vs Hvs].
  rewrite map_map in Hvs. rewrite Hvs. simpl. eauto.
Qed.

Lemma preprocess_data_index now csv out :
  preprocess_data to_datetime now csv = Ok out -> NoDup (map index out).
Proof.
  intros H. destruct (preprocess_data_inv _ _ _ H)
    as (? & ? & ? & ? & ? & ? & ? & ? & Hinv).
  cbv zeta in Hinv.
  destruct Hinv as (_ & _ & _ & _ & _ & _ & _ & _ & _ & Hidx).
  rewrite Hidx. apply seq_NoDup.
Qed.

Lemma preprocess_data_metrics now csv out :
  preprocess_data to_datetime now csv = Ok out ->
  map metrics out = map (metric_row to_datetime now csv) csv.
Proof.
  intros H. destruct (preprocess_data_inv _ _ _ H)
    as (? & ? & ? & ? & ? & ? & ? & ? & Hinv).
  cbv zeta in Hinv.
  destruct Hinv as (_ & _ & _ & _ & _ & _ & _ & _ & Hrows & _).
  rewrite <- metrics_frame_rows.
  apply Forall2_map_r. eapply Forall2_impl; [|exact Hrows].
  intros m r Hr. apply Hr.
Qed.

(** Every row of a returned frame sits in a bin of each of the four cuts. *)
Lemma preprocess_data_binned now csv out :
  preprocess_data to_datetime now csv = Ok out ->
  exists mnR mxR mnF mxF mnM mxM mnV mxV,
    observed_range (recency_column (map metrics out)) mnR mxR /\
    observed_range (frequency_column (map metrics out)) mnF mxF /\
    observed_range (monetary_column (map metrics out)) mnM mxM /\
    observed_range (score_column out) mnV mxV /\
    forall r, In r out ->
      exists vR vF vM lV,
        Recency (metrics r) = Some vR /\
        Frequency (metrics r) = Some vF /\
        MonetaryValue (metrics r) = Some vM /\
        ValueSegment r = Some lV /\
        binned recency_scores mnR mxR 5 (inject_Z vR) (RecencyScore r) /\
        binned frequency_scores mnF mxF 5 (inject_Z vF) (FrequencyScore r) /\
        binned monetary_scores mnM mxM 5 vM (MonetaryScore r) /\
        binned segment_labels mnV mxV 3 (inject_Z (RFM_Score r)) lV /\
        RFM_Score r = RecencyScore r + FrequencyScore r + MonetaryScore r /\
        CustomerSegment r = segment_rule (RFM_Score r).
Proof.
  intros H. pose proof (preprocess_data_metrics _ _ _ H) as Hm.
  rewrite <- metrics_frame_rows in Hm.
  destruct (preprocess_data_inv _ _ _ H)
    as (mnR & mxR & mnF & mxF & mnM & mxM & mnV & mxV & Hinv).
  cbv zeta in Hinv. rewrite <- Hm in Hinv.
  destruct Hinv as (HnR & HxR & HnF & HxF & HnM & HxM & HnV & HxV & Hrows & _).
  exists mnR, mxR, mnF, mxF, mnM, mxM, mnV, mxV.
  repeat (split; [split; assumption|]).
  intros r Hr.
  destruct (Forall2_In_r _ _ _ _ Hrows Hr) as (m & Hin & Hs).
  destruct Hs as (Hmr & HR & HF & HM & Hsum & HV & HS). subst m.
  destruct (bins_to_cuts_label _ _ _ _ HR) as (_ & qR & EqR).
  destruct (bins_to_cuts_label _ _ _ _ HF) as (_ & qF & EqF).
  destruct (bins_to_cuts_label _ _ _ _ HM) as (_ & vM & EvM).
  destruct (Recency (metrics r)) as [vR|] eqn:ER; [|discriminate].
  destruct (Frequency (metrics r)) as [vF|] eqn:EF; [|discriminate].
  simpl in EqR, EqF. injection EqR as <-. injection EqF as <-.
  rewrite EvM in *.
  assert (InR : In (Some (inject_Z vR)) (recency_column (map metrics out))).
  { unfold recency_column. rewrite map_map.
    apply in_map_iff. exists r. rewrite ER. auto. }
  assert (InF : In (Some (inject_Z vF)) (frequency_column (map metrics out))).
  { unfold frequency_column. rewrite map_map.
    apply in_map_iff. exists r. rewrite EF. auto. }
  assert (InM : In (Some vM) (monetary_column (map metrics out))).
  { unfold monetary_column. rewrite map_map.
    apply in_map_iff. exists r. auto. }
  assert (InV : In (Some (inject_Z (RFM_Score r))) (score_column out)).
  { unfold score_column. apply in_map_iff. exists r. auto. }
  destruct (bins_to_cuts_binned recency_scores 5 mnR mxR (inject_Z vR)
              (or_introl eq_refl) (nanmin_lower _ _ HnR _ InR)
              (nanmax_upper _ _ HxR _ InR) eq_refl) as (lR & ElR & BR).
  destruct (bins_to_cuts_binned frequency_scores 5 mnF mxF (inject_Z vF)
              (or_introl eq_refl) (nanmin_lower _ _ HnF _ InF)
              (nanmax_upper _ _ HxF _ InF) eq_refl) as (lF & ElF & BF).
  destruct (bins_to_cuts_binned monetary_scores 5 mnM mxM vM
              (or_introl eq_refl) (nanmin_lower _ _ HnM _ InM)
              (nanmax_upper _ _ HxM _ InM) eq_refl) as (lM & ElM & BM).
  destruct (bins_to_cuts_binned segment_labels 3 mnV mxV
              (inject_Z (RFM_Score r))
              (or_intror eq_refl) (nanmin_lower _ _ HnV _ InV)
              (nanmax_upper _ _ HxV _ InV) eq_refl) as (lV & ElV & BV).
  cbn [Zcell option_map] in HR, HF.
  assert (lR = RecencyScore r) by congruence.
  assert (lF = FrequencyScore r) by congruence.
  assert (lM = MonetaryScore r) by congruence.
  subst lR lF lM.
  exists vR, vF, vM, lV. rewrite HV, ElV.
  repeat (split; [first [reflexivity|assumption]|]). assumption.
Qed.

Lemma binned_label {L : Type} (labels : list L) mn mx n v l :
  binned labels mn mx n v l -> In l labels.
Proof.
  intros (k & Hk & _). eapply nth_error_In. exact Hk.
Qed.

Lemma scores_in_range_aux now csv out r :
  preprocess_data to_datetime now csv = Ok out -> In r out ->
  3 <= RFM_Score r <= 15 /\ CustomerSegment r = segment_rule (RFM_Score r).
Proof.
  intros H Hr.
  destruct (preprocess_data_binned _ _ _ H)
    as (mnR & mxR & mnF & mxF & mnM & mxM & mnV & mxV & _ & _ & _ & _ & Hrow).
  destruct (Hrow r Hr)
    as (vR & vF & vM & lV & _ & _ & _ & _ & BR & BF & BM & _ & Hsum & Hseg).
  apply binned_label in BR, BF, BM.
  unfold recency_scores in BR. unfold frequency_scores in BF.
  unfold monetary_scores in BM. simpl in BR, BF, BM.
  split; [lia|exact Hseg].
Qed.

(** ** Scores and segments of the returned frame *)

(** C1.  In every row of a frame returned by [preprocess_data] the three
    metrics are present, each of the three scores is one of 1..5, the
    RFM score is their sum, and so lies between 3 and 15. *)
Theorem scores_in_range now csv out r :
  preprocess_data to_datetime now csv = Ok out -> In r out ->
  Recency (metrics r) <> None /\ Frequency (metrics r) <> None /\
  MonetaryValue (metrics r) <> None /\
  In (RecencyScore r) [1; 2; 3; 4; 5] /\
  In (FrequencyScore r) [1; 2; 3; 4; 5] /\
  In (MonetaryScore r) [1; 2; 3; 4; 5] /\
  RFM_Score r = RecencyScore r + FrequencyScore r + MonetaryScore r /\
  3 <= RFM_Score r <= 15.
Proof.
  intros H Hr.
  destruct (preprocess_data_binned _ _ _ H)
    as (mnR & mxR & mnF & mxF & mnM & mxM & mnV & mxV & _ & _ & _ & _ & Hrow).
  destruct (Hrow r Hr)
    as (vR & vF & vM & lV & ER & EF & EM & _ & BR & BF & BM & _ & Hsum & _).
  apply binned_label in BR, BF, BM.
  rewrite ER, EF, EM.
  assert (HR : 1 <= RecencyScore r <= 5)
    by (unfold recency_scores in BR; simpl in BR; lia).
  assert (HF : 1 <= FrequencyScore r <= 5)
    by (unfold frequency_scores in BF; simpl in BF; lia).
  assert (HM : 1 <= MonetaryScore r <= 5)
    by (unfold monetary_scores in BM; simpl in BM; lia).
  repeat (split; [discriminate|]).
  split; [simpl; lia|]. split; [simpl; lia|]. split; [simpl; lia|].
  split; [exact Hsum|lia].
Qed.

(** C2.  Lines 54-59 compute the segment column from the score column alone,
    by the threshold chain; so in a returned frame the segment of a row is
    fixed by its RFM score: 9 and above Champions, 6 to 8 Potential
    Loyalists, 5 At Risk Customers, 4 Can't Lose, 3 Lost. *)
Theorem segment_by_thresholds now csv out r :
  preprocess_data to_datetime now csv = Ok out -> In r out ->
  CustomerSegment r = segment_rule (RFM_Score r) /\
  (9 <= RFM_Score r -> CustomerSegment r = "Champions"%string) /\
  (6 <= RFM_Score r < 9 -> CustomerSegment r = "Potential Loyalists"%string) /\
  (5 <= RFM_Score r < 6 -> CustomerSegment r = "At Risk Customers"%string) /\
  (4 <= RFM_Score r < 5 -> CustomerSegment r = "Can't Lose"%string) /\
  (3 <= RFM_Score r < 4 -> CustomerSegment r = "Lost"%string) /\
  (forall scores, assign_segments scores = map segment_rule scores) /\
  assign_segments [9; 8; 5; 4; 3] =
    ["Champions"; "Potential Loyalists"; "At Risk Customers"; "Can't Lose";
     "Lost"]%string.
Proof.
  intros H Hr.
  destruct (preprocess_data_binned _ _ _ H)
    as (mnR & mxR & mnF & mxF & mnM & mxM & mnV & mxV & _ & _ & _ & _ & Hrow).
  destruct (Hrow r Hr)
    as (vR & vF & vM & lV & _ & _ & _ & _ & _ & _ & _ & _ & _ & Hseg).
  rewrite Hseg. split; [reflexivity|].
  do 5 (split; [intros Hs; segment_cases (RFM_Score r); reflexivity|]).
  split; [apply assign_segments_rule|reflexivity].
Qed.

(** C4, as the code has it.  When the extremes of a column differ, [cut]
    puts a value in the bin [k] whose interval is open on the left and
    closed on the right, the lowest one also holding the minimum; the score
    is the [k]-th label.  Five bins for the three metrics, three for the
    RFM score.  Recency, Frequency and the RFM score are integer columns;
    for MonetaryValue the statement is made on [whole_amounts] tables,
    where it is an integer column too. *)
Theorem bins_are_right_closed now csv out :
  preprocess_data to_datetime now csv = Ok out ->
  exists mnR mxR mnF mxF mnM mxM mnV mxV,
    observed_range (recency_column (map metrics out)) mnR mxR /\
    observed_range (frequency_column (map metrics out)) mnF mxF /\
    observed_range (monetary_column (map metrics out)) mnM mxM /\
    observed_range (score_column out) mnV mxV /\
    forall r, In r out ->
      exists vR vF vM lV,
        Recency (metrics r) = Some vR /\
        Frequency (metrics r) = Some vF /\
        MonetaryValue (metrics r) = Some vM /\
        ValueSegment r = Some lV /\
        ((mnR < mxR)%Q -> exists k,
            right_closed_bin mnR mxR 5 k (inject_Z vR) /\
            nth_error [5; 4; 3; 2; 1] k = Some (RecencyScore r)) /\
        ((mnF < mxF)%Q -> exists k,
            right_closed_bin mnF mxF 5 k (inject_Z vF) /\
            nth_error [1; 2; 3; 4; 5] k = Some (FrequencyScore r)) /\
        ((mnM < mxM)%Q -> whole_amounts csv = true -> exists k,
            right_closed_bin mnM mxM 5 k vM /\
            nth_error [1; 2; 3; 4; 5] k = Some (MonetaryScore r)) /\
        ((mnV < mxV)%Q -> exists k,
            right_closed_bin mnV mxV 3 k (inject_Z (RFM_Score r)) /\
            nth_error ["Low-Value"; "Mid-Value"; "High-Value"]%string k
              = Some lV).
Proof.
  intros H.
  destruct (preprocess_data_binned _ _ _ H)
    as (mnR & mxR & mnF & mxF & mnM & mxM & mnV & mxV
        & HR & HF & HM & HV & Hrow).
  exists mnR, mxR, mnF, mxF, mnM, mxM, mnV, mxV.
  repeat (split; [assumption|]).
  intros r Hr.
  destruct (Hrow r Hr)
    as (vR & vF & vM & lV & ER & EF & EM & EV & BR & BF & BM & BV & _).
  exists vR, vF, vM, lV.
  repeat (split; [assumption|]).
  destruct BR as (kR & HkR & HbR & _). destruct BF as (kF & HkF & HbF & _).
  destruct BM as (kM & HkM & HbM & _). destruct BV as (kV & HkV & HbV & _).
  repeat split; intros Hlt; eauto.
Qed.

(** ** Degenerate binning *)


(** ** Malformed dates *)

(** C5.  A date that does not parse gives the row a missing [Recency], and
    [preprocess_data] then raises: the whole computation is lost on one
    such row. *)
Theorem malformed_date_raises now csv t :
  In t csv -> to_datetime (PurchaseDate t) = None ->
  (exists m, In m (metrics_frame to_datetime now csv) /\
             txn m = t /\ Recency m = None) /\
  raises (preprocess_data to_datetime now csv).
Proof.
  intros Ht Hd.
  assert (Hm : In (metric_row to_datetime now csv t)
                 (metrics_frame to_datetime now csv)).
  { rewrite metrics_frame_rows. apply in_map. exact Ht. }
  assert (Hrec : Recency (metric_row to_datetime now csv t) = None).
  { simpl. unfold recency_of. rewrite Hd. reflexivity. }
  split; [eauto|].
  unfold preprocess_data.
  set (data := metrics_frame to_datetime now csv) in *.
  destruct (cut (map _ data) 5 recency_scores) as [rs|e] eqn:ER;
    [|exists e; reflexivity].
  destruct (cut (map _ data) 5 frequency_scores) as [fs|e];
    [|exists e; reflexivity].
  destruct (cut (map _ data) 5 monetary_scores) as [mo|e];
    [|exists e; reflexivity].
  simpl.
  assert (Hnone : In None rs).
  { apply cut_Ok_inv in ER. destruct ER as (mn & mx & _ & _ & ->).
    rewrite map_map. apply in_map_iff.
    exists (metric_row to_datetime now csv t). split; [|exact Hm].
    rewrite Hrec. reflexivity. }
  destruct (astype_int_missing rs Hnone) as [e He].
  rewrite He. exists e. reflexivity.
Qed.

(** ** Frequency *)

Lemma filter_length_le {A : Type} (p q : A -> bool) l :
  (forall a, p a = true -> q a = true) ->
  (List.length (filter p l) <= List.length (filter q l))%nat.
Proof.
  intros Hpq. induction l as [|a t IH]; simpl; [lia|].
  destruct (p a) eqn:P.
  - rewrite (Hpq a P). simpl. lia.
  - destruct (q a); simpl; lia.
Qed.

(** C10.  The Frequency of a row is the number of its customer's rows that
    have an OrderID.  It is the customer's row count when all those rows
    have one, never more than it, and less on a table where one is
    missing. *)
Theorem frequency_counts_order_ids now :
  (forall csv m,
      In m (metrics_frame to_datetime now csv) ->
      Frequency m = Some (order_count csv (CustomerID (txn m))) /\
      order_count csv (CustomerID (txn m))
        <= Z.of_nat (row_count csv (CustomerID (txn m))) /\
      ((forall t, In t csv -> CustomerID t = CustomerID (txn m) ->
                  OrderID t <> None) ->
       Frequency m = Some (Z.of_nat (row_count csv (CustomerID (txn m)))))) /\
  (exists csv m f,
      In m (metrics_frame to_datetime now csv) /\
      Frequency m = Some f /\
      f < Z.of_nat (row_count csv (CustomerID (txn m)))).
Proof.
  split.
  - intros csv m Hm. rewrite metrics_frame_rows in Hm.
    apply in_map_iff in Hm. destruct Hm as (t & <- & Ht). simpl.
    split; [reflexivity|]. split.
    + unfold order_count, row_count. apply inj_le.
      apply filter_length_le. intros a Ha.
      apply andb_true_iff in Ha. tauto.
    + intros Hall. f_equal. unfold order_count, row_count. do 2 f_equal.
      apply filter_ext_in. intros a Ha.
      destruct (CustomerID a =? CustomerID t) eqn:E; [|reflexivity].
      apply Z.eqb_eq in E. specialize (Hall a Ha E).
      destruct (OrderID a); [reflexivity|congruence].
  - exists [mkTransaction 7 (Some 100) "2023-06-10" 5;
            mkTransaction 7 None "2023-06-09" 5].
    eexists. exists 1. rewrite metrics_frame_rows. split.
    + left. reflexivity.
    + split; reflexivity.
Qed.

End Facts.

(** ** Re-engagement pass *)

Lemma py_round_fifth (N : nat) :
  py_round (reactivation_rate * inject_Z (Z.of_nat N)) = (Z.of_nat N + 2) / 5.
Proof.
  unfold py_round, reactivation_rate.
  set (z := Z.of_nat N).
  assert (Hf : Qfloor ((2 # 10) * inject_Z z) = (2 * z) / 10).
  { unfold Qfloor, Qmult, inject_Z. cbn [Qnum Qden]. reflexivity. }
  rewrite Hf.
  unfold Qcompare, Qminus, Qplus, Qopp, Qmult, inject_Z. cbn [Qnum Qden].
  change (Z.pos (10 * 1 * 1)) with 10. change (Z.pos (10 * 1)) with 10.
  match goal with
  | |- context [(?a ?= ?b)%Z] => destruct (Z.compare_spec a b) as [E|E|E]
  end; [exfalso|..]; Z.div_mod_to_equations; lia.
Qed.

Lemma draw_size_le (N : nat) :
  (Z.to_nat (py_round (reactivation_rate * inject_Z (Z.of_nat N))) <= N)%nat.
Proof.
  rewrite py_round_fifth.
  assert ((Z.of_nat N + 2) / 5 <= Z.of_nat N)
    by (Z.div_mod_to_equations; lia).
  lia.
Qed.

Lemma take_inv {A : Type} (df : list A) locs rows :
  take df locs = Ok rows ->
  Forall2 (fun i r => nth_error df i = Some r) locs rows.
Proof.
  revert rows. induction locs as [|i t IH]; intros rows H; simpl in H.
  - injection H as <-. constructor.
  - destruct (nth_error df i) as [r|] eqn:E; [|discriminate].
    destruct (take df t) as [rest|]; simpl in H; [|discriminate].
    injection H as <-. constructor; auto.
Qed.

Lemma take_total {A : Type} (df : list A) locs :
  Forall (fun i => (i < List.length df)%nat) locs ->
  exists rows, take df locs = Ok rows.
Proof.
  induction 1 as [|i t Hi Ht [rest IH]]; simpl.
  - eauto.
  - destruct (nth_error df i) as [r|] eqn:E.
    + rewrite IH. simpl. eauto.
    + apply nth_error_None in E. lia.
Qed.

Lemma NoDup_map_eq {A B : Type} (f : A -> B) l a b :
  NoDup (map f l) -> In a l -> In b l -> f a = f b -> a = b.
Proof.
  induction l as [|x t IH]; intros Hnd Ha Hb E; [contradiction|].
  simpl in Hnd. inversion Hnd as [|? ? Hx Ht]; subst.
  destruct Ha as [->|Ha], Hb as [->|Hb]; auto.
  - exfalso. apply Hx. rewrite E. apply in_map. exact Hb.
  - exfalso. apply Hx. rewrite <- E. apply in_map. exact Ha.
Qed.

Lemma NoDup_map_filter {A B : Type} (f : A -> B) p l :
  NoDup (map f l) -> NoDup (map f (filter p l)).
Proof.
  induction l as [|x t IH]; simpl; intros Hnd; [constructor|].
  inversion Hnd as [|? ? Hx Ht]; subst.
  destruct (p x); simpl; auto.
  constructor; auto. intros Hin. apply Hx.
  apply in_map_iff in Hin. destruct Hin as (y & Hy & Hin).
  apply filter_In in Hin. rewrite <- Hy. apply in_map. tauto.
Qed.

(** Rows taken at distinct positions of a frame with distinct labels have
    distinct labels. *)
Lemma take_labels_NoDup {A B : Type} (f : A -> B) (df : list A) locs rows :
  NoDup (map f df) -> NoDup locs ->
  Forall2 (fun i r => nth_error df i = Some r) locs rows ->
  NoDup (map f rows).
Proof.
  intros Hdf Hlocs Hrows. induction Hrows as [|i r locs rows Hi Hrest IH].
  - constructor.
  - inversion Hlocs as [|? ? Hnotin Hlocs']; subst. simpl.
    constructor; [|auto].
    intros Hin. apply in_map_iff in Hin. destruct Hin as (r' & Hr' & Hin').
    destruct (Forall2_In_r _ _ _ _ Hrest Hin') as (j & Hj & Hnj).
    apply Hnotin.
    assert (E : nth_error (map f df) i = nth_error (map f df) j).
    { rewrite !nth_error_map, Hi, Hnj. simpl. congruence. }
    assert (Hlt : (i < List.length (map f df))%nat).
    { rewrite length_map. apply nth_error_Some. congruence. }
    rewrite (proj1 (NoDup_nth_error (map f df)) Hdf i j Hlt E). exact Hj.
Qed.

Lemma mem_true (x : nat) (S : list nat) :
  existsb (Nat.eqb x) S = true <-> In x S.
Proof.
  rewrite existsb_exists. split.
  - intros (y & Hy & E). apply Nat.eqb_eq in E. subst. exact Hy.
  - intros H. exists x. split; [exact H|apply Nat.eqb_refl].
Qed.

(** As many rows carry a listed label as there are labels listed. *)
Lemma labelled_rows_count {A : Type} (f : A -> nat) (l : list A) S :
  NoDup (map f l) -> NoDup S -> incl S (map f l) ->
  List.length (filter (fun a => existsb (Nat.eqb (f a)) S) l) = List.length S.
Proof.
  intros Hl HS Hincl.
  rewrite <- (length_map f (filter _ l)).
  apply Permutation_length. apply NoDup_Permutation.
  - apply NoDup_map_filter. exact Hl.
  - exact HS.
  - intros x. rewrite in_map_iff. split.
    + intros (a & <- & Ha). apply filter_In in Ha. apply mem_true. tauto.
    + intros Hx. destruct (proj1 (in_map_iff _ _ _) (Hincl x Hx))
        as (a & <- & Ha).
      exists a. split; [reflexivity|].
      apply filter_In. split; [exact Ha|]. apply mem_true. exact Hx.
Qed.

Lemma filter_split_length {A : Type} (p q : A -> bool) l :
  List.length (filter p l)
  = (List.length (filter (fun a => p a && q a) l)
     + List.length (filter (fun a => p a && negb (q a)) l))%nat.
Proof.
  induction l as [|a t IH]; simpl; [reflexivity|].
  destruct (p a), (q a); simpl; lia.
Qed.

Lemma filter_length_ext {A : Type} (p q : A -> bool) l :
  (forall a, In a l -> p a = q a) ->
  List.length (filter p l) = List.length (filter q l).
Proof.
  intros H. rewrite (filter_ext_in p q l H). reflexivity.
Qed.

Lemma segment_total_all data :
  Forall (fun r => In (CustomerSegment r) all_segments) data ->
  segment_total data = List.length data.
Proof.
  induction 1 as [|r t Hr Ht IH]; [reflexivity|].
  unfold segment_total, all_segments, list_sum in *.
  cbn [map fold_right filter] in *.
  destruct Hr as [E|[E|[E|[E|[E|[]]]]]]; rewrite <- E; cbn; lia.
Qed.

Section Reengagement.

Variable to_datetime : string -> option Z.
Variable RandomState_choice : Z -> nat -> nat -> list nat.

Lemma create_plots_inv data data' :
  create_plots RandomState_choice data = Ok data' ->
  exists chosen,
    sample RandomState_choice
      (filter (fun r => String.eqb (CustomerSegment r) "Lost") data)
      reactivation_rate 1 = Ok chosen /\
    data' = loc_set_segment (map index chosen) "Potential Loyalists" data.
Proof.
  unfold create_plots. destruct (sample _ _ _ _) as [chosen|]; [|discriminate].
  simpl. intros H. injection H as <-. eauto.
Qed.

(** The draw of the pass, when it is a valid one, takes that many rows of
    the Lost subset, with distinct labels. *)
Lemma sample_lost data :
  NoDup (map index data) ->
  let lost := filter (fun r => String.eqb (CustomerSegment r) "Lost") data in
  let N := List.length lost in
  let n := Z.to_nat (py_round (reactivation_rate * inject_Z (Z.of_nat N))) in
  valid_draw N n (RandomState_choice 1 N n) ->
  exists chosen,
    sample RandomState_choice lost reactivation_rate 1 = Ok chosen /\
    List.length chosen = n /\ NoDup (map index chosen) /\ incl chosen lost.
Proof.
  intros Hnd lost N n (Hlen & Hlocs & Hlt).
  unfold sample. fold N. fold n.
  destruct (take_total lost _ Hlt) as [chosen Hc].
  exists chosen. split; [exact Hc|].
  apply take_inv in Hc.
  split; [rewrite <- (Forall2_length Hc); exact Hlen|].
  split.
  - eapply take_labels_NoDup; [|exact Hlocs|exact Hc].
    apply NoDup_map_filter. exact Hnd.
  - intros r Hr. destruct (Forall2_In_r _ _ _ _ Hc Hr) as (i & _ & Hi).
    eapply nth_error_In. exact Hi.
Qed.

(** Counting the segments after the chosen rows are relabelled. *)
Lemma relabel_counts data chosen :
  NoDup (map index data) -> NoDup (map index chosen) ->
  incl chosen (filter (fun r => String.eqb (CustomerSegment r) "Lost") data) ->
  let data' :=
    loc_set_segment (map index chosen) "Potential Loyalists" data in
  let n := List.length chosen in
  (value_counts data "Lost" = value_counts data' "Lost" + n)%nat /\
  (value_counts data' "Potential Loyalists"
   = value_counts data "Potential Loyalists" + n)%nat /\
  (forall label, label <> "Lost"%string ->
                 label <> "Potential Loyalists"%string ->
                 value_counts data' label = value_counts data label) /\
  Forall2 (fun r r' =>
             (In r chosen /\ CustomerSegment r = "Lost"%string /\
              r' = set_segment "Potential Loyalists" r)
             \/ (~ In r chosen /\ r' = r)) data data'.
Proof.
  intros Hnd Hch Hincl data' n.
  set (S := map index chosen) in *.
  set (sel := fun r => existsb (Nat.eqb (index r)) S).
  assert (Hsel : forall r, In r data -> sel r = true ->
                           In r chosen /\ CustomerSegment r = "Lost"%string).
  { intros r Hr Hs. apply mem_true in Hs. unfold S in Hs.
    apply in_map_iff in Hs. destruct Hs as (c & Ec & Hc).
    pose proof (Hincl c Hc) as Hlost. apply filter_In in Hlost.
    destruct Hlost as [Hcd Hcl].
    assert (c = r) by (apply (NoDup_map_eq index data c r Hnd Hcd Hr Ec)).
    subst c.
    split; [exact Hc|]. apply String.eqb_eq. exact Hcl. }
  assert (Hcount : List.length (filter sel data) = n).
  { unfold sel, n. rewrite labelled_rows_count; auto.
    - unfold S. apply length_map.
    - intros x Hx. unfold S in Hx. apply in_map_iff in Hx.
      destruct Hx as (c & <- & Hc). apply in_map.
      pose proof (Hincl c Hc) as Hlost. apply filter_In in Hlost. tauto. }
  assert (Hvc : forall label,
             value_counts data' label
             = List.length
                 (filter (fun r => if sel r
                                   then String.eqb "Potential Loyalists" label
                                   else String.eqb (CustomerSegment r) label)
                    data)).
  { intros label. unfold value_counts, data', loc_set_segment.
    rewrite filter_map_comm, length_map. apply filter_length_ext.
    intros r _. fold (sel r). destruct (sel r); reflexivity. }
  split; [|split; [|split]].
  - pose proof (filter_split_length
                  (fun r => String.eqb (CustomerSegment r) "Lost") sel data)
      as HA.
    assert (HB : List.length
                   (filter (fun r => String.eqb (CustomerSegment r) "Lost"
                                     && sel r) data) = n).
    { rewrite <- Hcount. apply filter_length_ext. intros r Hr.
      destruct (sel r) eqn:E; [|apply andb_false_r].
      destruct (Hsel r Hr E) as [_ ->]. reflexivity. }
    assert (HC : value_counts data' "Lost"
                 = List.length
                     (filter (fun r => String.eqb (CustomerSegment r) "Lost"
                                       && negb (sel r)) data)).
    { rewrite Hvc. apply filter_length_ext. intros r _.
      destruct (sel r); simpl; [rewrite andb_false_r|rewrite andb_true_r];
        reflexivity. }
    unfold value_counts at 1. lia.
  - set (p := fun r => if sel r then String.eqb "Potential Loyalists"
                                      "Potential Loyalists"
                       else String.eqb (CustomerSegment r)
                              "Potential Loyalists").
    pose proof (filter_split_length p sel data) as HA.
    assert (HB : List.length (filter (fun r => p r && sel r) data) = n).
    { rewrite <- Hcount. apply filter_length_ext. intros r _.
      unfold p. destruct (sel r); [reflexivity|apply andb_false_r]. }
    assert (HC : List.length (filter (fun r => p r && negb (sel r)) data)
                 = value_counts data "Potential Loyalists").
    { unfold value_counts. apply filter_length_ext. intros r Hr.
      unfold p. destruct (sel r) eqn:E; simpl; [|apply andb_true_r].
      destruct (Hsel r Hr E) as [_ ->]. reflexivity. }
    rewrite Hvc. fold p. lia.
  - intros label Hl Hp. rewrite Hvc. unfold value_counts.
    apply filter_length_ext. intros r Hr.
    destruct (sel r) eqn:E; [|reflexivity].
    destruct (Hsel r Hr E) as [_ ->].
    transitivity false; [|symmetry]; apply String.eqb_neq; congruence.
  - unfold data', loc_set_segment.
    assert (Hall : forall r, In r data -> In r data) by auto.
    revert Hall. generalize data at 1 3 4.
    induction data0 as [|r t IH]; intros Hall; simpl; constructor.
    + fold (sel r). destruct (sel r) eqn:E.
      * left. destruct (Hsel r (Hall r (or_introl eq_refl)) E). auto.
      * right. split; [|reflexivity]. intros Hin.
        assert (sel r = true); [|congruence].
        apply mem_true. unfold S. apply in_map. exact Hin.
    + apply IH. intros x Hx. apply Hall. right. exact Hx.
Qed.

(** C3.  On a frame returned by [preprocess_data], with [N] rows labelled
    Lost and [n = round(0.2 * N)], the pass asks the generator seeded with
    1 for [n] positions among the [N] Lost rows and relabels the rows at
    exactly those positions: [chosen] lists them in the order drawn.  When
    the draw is without replacement they are [n] distinct rows, all Lost
    before and Potential Loyalists after; Lost loses that many rows,
    Potential Loyalists gains as many, every other count stays, and
    nothing changes when [N] is 0.  Which positions a seed yields, and how
    evenly, is the generator's. *)
Theorem reengage_counts now csv data :
  preprocess_data to_datetime now csv = Ok data ->
  let N := value_counts data "Lost" in
  let n := Z.to_nat (py_round (reactivation_rate * inject_Z (Z.of_nat N))) in
  valid_draw N n (RandomState_choice 1 N n) ->
  exists chosen data',
    create_plots RandomState_choice data = Ok data' /\
    Forall2 (fun i r =>
               nth_error
                 (filter (fun r => String.eqb (CustomerSegment r) "Lost") data)
                 i = Some r)
            (RandomState_choice 1 N n) chosen /\
    List.length chosen = n /\ NoDup chosen /\
    (forall r, In r chosen ->
               In r data /\ CustomerSegment r = "Lost"%string) /\
    Forall2 (fun r r' =>
               (In r chosen /\ r' = set_segment "Potential Loyalists" r)
               \/ (~ In r chosen /\ r' = r)) data data' /\
    (n <= N)%nat /\
    value_counts data' "Lost" = (N - n)%nat /\
    value_counts data' "Potential Loyalists"
      = (value_counts data "Potential Loyalists" + n)%nat /\
    (forall label, label <> "Lost"%string ->
                   label <> "Potential Loyalists"%string ->
                   value_counts data' label = value_counts data label) /\
    (N = 0%nat -> data' = data).
Proof.
  intros H N n Hdraw.
  pose proof (preprocess_data_index _ _ _ _ H) as Hnd.
  destruct (sample_lost data Hnd Hdraw) as (chosen & Hs & Hlen & Hch & Hincl).
  destruct (relabel_counts data chosen Hnd Hch Hincl)
    as (HL & HP & HO & Hrows).
  exists chosen, (loc_set_segment (map index chosen) "Potential Loyalists" data).
  assert (Hlen' : List.length chosen = n) by exact Hlen.
  clear Hlen. rename Hlen' into Hlen.
  cbv zeta in HL, HP. rewrite Hlen in HL, HP. fold N in HL.
  split; [unfold create_plots; rewrite Hs; reflexivity|].
  split; [exact (take_inv _ _ _ Hs)|].
  split; [exact Hlen|].
  split; [eapply NoDup_map_inv; exact Hch|].
  split.
  { intros r Hr. pose proof (Hincl r Hr) as Hl. apply filter_In in Hl.
    split; [tauto|]. apply String.eqb_eq. tauto. }
  split.
  { eapply Forall2_impl; [|exact Hrows]. intros r r' [(? & _ & ?)|?]; auto. }
  split; [apply draw_size_le|].
  split; [lia|]. split; [exact HP|]. split; [exact HO|].
  intros HN. assert (chosen = []) as ->.
  { destruct chosen; [reflexivity|].
    pose proof (draw_size_le N). fold n in H0. simpl in Hlen. lia. }
  unfold loc_set_segment. simpl. apply map_id.
Qed.

(** C6.  The pass leaves every field of every row as it was, except the
    segment of the rows whose label was drawn: label, metrics, the three
    scores, the RFM score and the value segment are unchanged, and a row
    whose label was not drawn is unchanged altogether. *)
Theorem reengage_frame data data' :
  create_plots RandomState_choice data = Ok data' ->
  exists chosen,
    sample RandomState_choice
      (filter (fun r => String.eqb (CustomerSegment r) "Lost") data)
      reactivation_rate 1 = Ok chosen /\
    Forall2 (fun r r' =>
               index r' = index r /\ metrics r' = metrics r /\
               RecencyScore r' = RecencyScore r /\
               FrequencyScore r' = FrequencyScore r /\
               MonetaryScore r' = MonetaryScore r /\
               RFM_Score r' = RFM_Score r /\
               ValueSegment r' = ValueSegment r /\
               (~ In (index r) (map index chosen) -> r' = r))
            data data'.
Proof.
  intros H. destruct (create_plots_inv _ _ H) as (chosen & Hs & ->).
  exists chosen. split; [exact Hs|]. clear H Hs.
  unfold loc_set_segment. induction data as [|r t IH]; simpl; constructor.
  - destruct (existsb _ _) eqn:E; simpl.
    + repeat split; try reflexivity. intros Hn. exfalso. apply Hn.
      apply mem_true. exact E.
    + repeat split; reflexivity.
  - exact IH.
Qed.

(** C9.  Each merge returns one row per input row, in order, so the frame
    returned by [preprocess_data] has the input transactions as its rows;
    the pass keeps them; and before and after the pass the counts of the
    five segments add up to the number of input rows. *)
Theorem row_set_preserved now csv data :
  preprocess_data to_datetime now csv = Ok data ->
  map (fun r => fst (fst r)) (frequency_frame to_datetime now csv) = csv /\
  map txn (metrics_frame to_datetime now csv) = csv /\
  map (fun r => txn (metrics r)) data = csv /\
  List.length data = List.length csv /\
  segment_total data = List.length csv /\
  forall data',
    create_plots RandomState_choice data = Ok data' ->
    map (fun r => txn (metrics r)) data' = csv /\
    List.length data' = List.length csv /\
    segment_total data' = List.length csv.
Proof.
  intros H.
  assert (H1 : map (fun r => fst (fst r)) (frequency_frame to_datetime now csv)
               = csv).
  { rewrite frequency_frame_rows, map_map. simpl. apply map_id. }
  assert (H2 : map txn (metrics_frame to_datetime now csv) = csv).
  { rewrite metrics_frame_rows, map_map. simpl. apply map_id. }
  assert (H3 : map (fun r => txn (metrics r)) data = csv).
  { rewrite <- (map_map metrics txn), (preprocess_data_metrics _ _ _ _ H).
    rewrite <- metrics_frame_rows. exact H2. }
  assert (H4 : List.length data = List.length csv).
  { apply (f_equal (@List.length _)) in H3. rewrite length_map in H3.
    exact H3. }
  assert (Hseg : Forall (fun r => In (CustomerSegment r) all_segments) data).
  { apply Forall_forall. intros r Hr.
    destruct (scores_in_range_aux _ _ _ _ _ H Hr) as (Hrange & ->).
    apply segment_rule_range. exact Hrange. }
  repeat (split; [assumption|]).
  split; [rewrite segment_total_all; assumption|].
  intros data' Hre. destruct (create_plots_inv _ _ Hre) as (chosen & _ & ->).
  unfold loc_set_segment.
  split; [|split].
  - rewrite map_map. rewrite <- H3. apply map_ext. intros r.
    destruct (existsb _ _); reflexivity.
  - rewrite length_map. exact H4.
  - rewrite segment_total_all; [rewrite length_map; exact H4|].
    apply Forall_forall. intros r' Hr'. apply in_map_iff in Hr'.
    destruct Hr' as (r & <- & Hr). rewrite Forall_forall in Hseg.
    destruct (existsb _ _); [|auto].
    simpl. unfold all_segments. simpl. tauto.
Qed.

End Reengagement.

(** ** Requests *)

Section Requests.

Variable to_datetime : string -> option Z.
Variable MT19937 : Type.
Variable RandomState : Z -> MT19937.
Variable choice : MT19937 -> nat -> nat -> list nat * MT19937.

(** The pass in a world is the pass of the pure model under the generator
    seeded on line 103, and it leaves the world alone. *)
Lemma create_plots_request_seeded data (w : World MT19937) :
  create_plots_request RandomState choice data w
  = (create_plots (seeded_choice RandomState choice) data, w).
Proof. reflexivity. Qed.

Lemma index_request_seeded (w : World MT19937) :
  index_request to_datetime RandomState choice w
  = (index_view to_datetime (seeded_choice RandomState choice)
       (datetime_now_date w) (rfm_data_csv w), w).
Proof.
  unfold index_request, index_view, preprocess_data_request.
  destruct (preprocess_data _ _ _) as [data|e]; [|reflexivity].
  apply create_plots_request_seeded.
Qed.

(** C7.  What a request returns is fixed by the table in the file and the
    date the clock shows: two requests that find the same table on the
    same day return the same frame, or raise the same exception, at
    whatever time of the day they run and in whatever state numpy's global
    generator is, because line 103 seeds a generator of its own with 1 and
    line 19 keeps the date only.  A request leaves the world as it found
    it, so a second run right after the first returns what the first
    did. *)
Theorem pipeline_deterministic (w w' : World MT19937) :
  rfm_data_csv w = rfm_data_csv w' ->
  datetime_now_date w = datetime_now_date w' ->
  fst (index_request to_datetime RandomState choice w)
  = fst (index_request to_datetime RandomState choice w') /\
  snd (index_request to_datetime RandomState choice w) = w /\
  fst (index_request to_datetime RandomState choice
         (snd (index_request to_datetime RandomState choice w)))
  = fst (index_request to_datetime RandomState choice w) /\
  fst (index_request to_datetime RandomState choice w)
  = index_view to_datetime (seeded_choice RandomState choice)
      (datetime_now_date w) (rfm_data_csv w).
Proof.
  intros Hcsv Hday. rewrite (index_request_seeded w').
  rewrite !(index_request_seeded w). cbn [fst snd].
  rewrite (index_request_seeded w). cbn [fst].
  rewrite Hcsv, Hday. repeat split; reflexivity.
Qed.

End Requests.

(** ** Sample runs *)

Lemma sample_frame_run :
  preprocess_data sample_to_datetime sample_now sample_csv = Ok sample_frame.
Proof. vm_compute. reflexivity. Defined.

Lemma lapsed_frame_run :
  preprocess_data sample_to_datetime sample_now lapsed_csv = Ok lapsed_frame.
Proof. vm_compute. reflexivity. Defined.

Lemma lapsed_frame_pass :
  create_plots sample_choice lapsed_frame = Ok lapsed_frame_after.
Proof. vm_compute. reflexivity. Defined.

(** [scores_in_range] on the three-customer table, at its first row. *)
Lemma scores_in_range_witness :
  exists r,
    preprocess_data sample_to_datetime sample_now sample_csv = Ok sample_frame
    /\ In r sample_frame
    /\ Recency (metrics r) <> None /\ Frequency (metrics r) <> None
    /\ MonetaryValue (metrics r) <> None
    /\ In (RecencyScore r) [1; 2; 3; 4; 5]
    /\ In (FrequencyScore r) [1; 2; 3; 4; 5]
    /\ In (MonetaryScore r) [1; 2; 3; 4; 5]
    /\ RFM_Score r = RecencyScore r + FrequencyScore r + MonetaryScore r
    /\ 3 <= RFM_Score r <= 15.
Proof.
  eexists. split; [exact sample_frame_run|].
  split; [left; reflexivity|].
  apply (scores_in_range sample_to_datetime sample_now sample_csv sample_frame
           _ sample_frame_run).
  left. reflexivity.
Defined.

(** [segment_by_thresholds] on the lapsed-customer table, at its first row,
    a Lost one. *)
Lemma segment_by_thresholds_witness :
  exists r,
    preprocess_data sample_to_datetime sample_now lapsed_csv = Ok lapsed_frame
    /\ In r lapsed_frame
    /\ CustomerSegment r = segment_rule (RFM_Score r)
    /\ (9 <= RFM_Score r -> CustomerSegment r = "Champions"%string)
    /\ (6 <= RFM_Score r < 9 ->
        CustomerSegment r = "Potential Loyalists"%string)
    /\ (5 <= RFM_Score r < 6 -> CustomerSegment r = "At Risk Customers"%string)
    /\ (4 <= RFM_Score r < 5 -> CustomerSegment r = "Can't Lose"%string)
    /\ (3 <= RFM_Score r < 4 -> CustomerSegment r = "Lost"%string)
    /\ (forall scores, assign_segments scores = map segment_rule scores)
    /\ assign_segments [9; 8; 5; 4; 3] =
         ["Champions"; "Potential Loyalists"; "At Risk Customers";
          "Can't Lose"; "Lost"]%string.
Proof.
  eexists. split; [exact lapsed_frame_run|].
  split; [left; reflexivity|].
  apply (segment_by_thresholds sample_to_datetime sample_now lapsed_csv
           lapsed_frame _ lapsed_frame_run).
  left. reflexivity.
Defined.

(** [reengage_counts] on the lapsed-customer table: three Lost rows, one of
    them drawn. *)
Lemma reengage_counts_witness :
  preprocess_data sample_to_datetime sample_now lapsed_csv = Ok lapsed_frame
  /\ valid_draw 3 1 (sample_choice 1 3 1)
  /\ exists chosen data',
       create_plots sample_choice lapsed_frame = Ok data' /\
       Forall2 (fun i r =>
                  nth_error
                    (filter (fun r => String.eqb (CustomerSegment r) "Lost")
                       lapsed_frame) i = Some r)
               (sample_choice 1 3 1) chosen /\
       List.length chosen = 1%nat /\ NoDup chosen /\
       (forall r, In r chosen ->
                  In r lapsed_frame /\ CustomerSegment r = "Lost"%string) /\
       Forall2 (fun r r' =>
                  (In r chosen /\ r' = set_segment "Potential Loyalists" r)
                  \/ (~ In r chosen /\ r' = r)) lapsed_frame data' /\
       (1 <= 3)%nat /\
       value_counts data' "Lost" = (3 - 1)%nat /\
       value_counts data' "Potential Loyalists"
         = (value_counts lapsed_frame "Potential Loyalists" + 1)%nat /\
       (forall label, label <> "Lost"%string ->
                      label <> "Potential Loyalists"%string ->
                      value_counts data' label
                      = value_counts lapsed_frame label) /\
       (3%nat = 0%nat -> data' = lapsed_frame).
Proof.
  assert (Hdraw : valid_draw 3 1 (sample_choice 1 3 1)).
  { split; [reflexivity|]. split; [|repeat constructor].
    repeat constructor. simpl. tauto. }
  split; [exact lapsed_frame_run|]. split; [exact Hdraw|].
  exact (reengage_counts sample_to_datetime sample_choice sample_now
           lapsed_csv lapsed_frame lapsed_frame_run Hdraw).
Defined.

(** C4 read with half-open bins fails on the three-customer table.  The
    Recency values are 0, 1 and 5, so the edges are 0, 1, ..., 5 and the
    value 1 sits on an edge.  The half-open bin holding 1 is bin 1, whose
    label is 4; the row bought one day ago scores 5, the label of the bin
    below the edge. *)
Lemma half_open_binning_fails :
  exists r,
    preprocess_data sample_to_datetime sample_now sample_csv = Ok sample_frame
    /\ In r sample_frame
    /\ observed_range (recency_column (map metrics sample_frame))
         (inject_Z 0) (inject_Z 5)
    /\ Recency (metrics r) = Some 1
    /\ RecencyScore r = 5
    /\ half_open_bin (inject_Z 0) (inject_Z 5) 5 1 (inject_Z 1)
    /\ nth_error recency_scores 1 = Some 4
    /\ ~ (exists k,
            half_open_bin (inject_Z 0) (inject_Z 5) 5 k (inject_Z 1) /\
            nth_error recency_scores k = Some (RecencyScore r))
    /\ ~ half_open_binning sample_to_datetime.
Proof.
  set (r := mkScoredRecord 1
              (mkMetricRow (mkTransaction 2 (Some 102) "2023-06-09" 20)
                 (Some 1) (Some 1) (Some 20%Q))
              5 3 3 11 (Some "High-Value"%string) "Champions").
  assert (Hin : In r sample_frame) by (right; left; reflexivity).
  assert (Hrange : observed_range (recency_column (map metrics sample_frame))
                     (inject_Z 0) (inject_Z 5)).
  { split; vm_compute; reflexivity. }
  assert (Hno : ~ (exists k,
                     half_open_bin (inject_Z 0) (inject_Z 5) 5 k (inject_Z 1) /\
                     nth_error recency_scores k = Some (RecencyScore r))).
  { intros (k & (Hlo & Hhi) & Hk). unfold recency_scores in Hk.
    destruct k as [|[|[|[|[|k]]]]]; simpl in Hk; try discriminate;
      [|destruct k; discriminate].
    revert Hhi. unfold bin_edge, bin_width, Qdiv.
    cbn [Z.of_nat Pos.of_succ_nat Pos.succ inject_Z Qinv Qnum Qden].
    unfold inject_Z. intros [Hhi|[Hhi _]]; [lra|discriminate]. }
  exists r.
  split; [exact sample_frame_run|]. split; [exact Hin|].
  split; [exact Hrange|]. split; [reflexivity|]. split; [reflexivity|].
  split.
  { unfold half_open_bin, bin_edge, bin_width, Qdiv.
    cbn [Z.of_nat Pos.of_succ_nat Pos.succ inject_Z Qinv Qnum Qden].
    unfold inject_Z. split; [lra|left; lra]. }
  split; [reflexivity|]. split; [exact Hno|].
  intros Hclaim. apply Hno.
  exact (Hclaim sample_now sample_csv sample_frame sample_frame_run
           _ _ Hrange eq_refl r 1 Hin eq_refl).
Qed.

(** [bins_are_right_closed] on the three-customer table. *)
Lemma bins_are_right_closed_witness :
  preprocess_data sample_to_datetime sample_now sample_csv = Ok sample_frame
  /\ whole_amounts sample_csv = true
  /\ exists mnR mxR mnF mxF mnM mxM mnV mxV,
    observed_range (recency_column (map metrics sample_frame)) mnR mxR /\
    observed_range (frequency_column (map metrics sample_frame)) mnF mxF /\
    observed_range (monetary_column (map metrics sample_frame)) mnM mxM /\
    observed_range (score_column sample_frame) mnV mxV /\
    forall r, In r sample_frame ->
      exists vR vF vM lV,
        Recency (metrics r) = Some vR /\
        Frequency (metrics r) = Some vF /\
        MonetaryValue (metrics r) = Some vM /\
        ValueSegment r = Some lV /\
        ((mnR < mxR)%Q -> exists k,
            right_closed_bin mnR mxR 5 k (inject_Z vR) /\
            nth_error [5; 4; 3; 2; 1] k = Some (RecencyScore r)) /\
        ((mnF < mxF)%Q -> exists k,
            right_closed_bin mnF mxF 5 k (inject_Z vF) /\
            nth_error [1; 2; 3; 4; 5] k = Some (FrequencyScore r)) /\
        ((mnM < mxM)%Q -> whole_amounts sample_csv = true -> exists k,
            right_closed_bin mnM mxM 5 k vM /\
            nth_error [1; 2; 3; 4; 5] k = Some (MonetaryScore r)) /\
        ((mnV < mxV)%Q -> exists k,
            right_closed_bin mnV mxV 3 k (inject_Z (RFM_Score r)) /\
            nth_error ["Low-Value"; "Mid-Value"; "High-Value"]%string k
              = Some lV).
Proof.
  split; [exact sample_frame_run|]. split; [reflexivity|].
  exact (bins_are_right_closed sample_to_datetime sample_now sample_csv
           sample_frame sample_frame_run).
Defined.

(** [malformed_date_raises] on a two-row table whose second date is not a
    date. *)
Lemma malformed_date_raises_witness :
  In (mkTransaction 2 (Some 102) "not a date" 20) malformed_csv
  /\ sample_to_datetime "not a date" = None
  /\ (exists m, In m (metrics_frame sample_to_datetime sample_now malformed_csv)
                /\ txn m = mkTransaction 2 (Some 102) "not a date" 20
                /\ Recency m = None)
  /\ raises (preprocess_data sample_to_datetime sample_now malformed_csv).
Proof.
  assert (Hin : In (mkTransaction 2 (Some 102) "not a date" 20) malformed_csv)
    by (right; left; reflexivity).
  split; [exact Hin|]. split; [reflexivity|].
  exact (malformed_date_raises sample_to_datetime sample_now malformed_csv
           (mkTransaction 2 (Some 102) "not a date" 20) Hin eq_refl).
Defined.

(** The exception of that run. *)
Lemma malformed_csv_run :
  preprocess_data sample_to_datetime sample_now malformed_csv
  = Raise (ValueError "Cannot convert float NaN to integer").
Proof. vm_compute. reflexivity. Qed.

(** [reengage_frame] on the lapsed-customer table. *)
Lemma reengage_frame_witness :
  create_plots sample_choice lapsed_frame = Ok lapsed_frame_after
  /\ exists chosen,
    sample sample_choice
      (filter (fun r => String.eqb (CustomerSegment r) "Lost") lapsed_frame)
      reactivation_rate 1 = Ok chosen /\
    Forall2 (fun r r' =>
               index r' = index r /\ metrics r' = metrics r /\
               RecencyScore r' = RecencyScore r /\
               FrequencyScore r' = FrequencyScore r /\
               MonetaryScore r' = MonetaryScore r /\
               RFM_Score r' = RFM_Score r /\
               ValueSegment r' = ValueSegment r /\
               (~ In (index r) (map index chosen) -> r' = r))
            lapsed_frame lapsed_frame_after.
Proof.
  split; [exact lapsed_frame_pass|].
  exact (reengage_frame sample_choice lapsed_frame lapsed_frame_after
           lapsed_frame_pass).
Defined.

(** An unseeded [sample] does read the global generator: in the morning
    and in the evening world it draws different rows of the same frame. *)
Lemma unseeded_sample_reads_np_random :
  fst (DataFrame_sample sample_RandomState sample_generator
         [10; 11; 12; 13; 14] reactivation_rate None morning)
  <> fst (DataFrame_sample sample_RandomState sample_generator
            [10; 11; 12; 13; 14] reactivation_rate None evening).
Proof. vm_compute. discriminate. Qed.

(** [pipeline_deterministic] on the morning and the evening world: the
    same table on the same day, another time of day and another state of
    the global generator. *)
Lemma pipeline_deterministic_witness :
  rfm_data_csv morning = rfm_data_csv evening
  /\ datetime_now_date morning = datetime_now_date evening
  /\ wall_clock morning <> wall_clock evening
  /\ np_random morning <> np_random evening
  /\ fst (index_request sample_to_datetime sample_RandomState
            sample_generator morning)
     = fst (index_request sample_to_datetime sample_RandomState
              sample_generator evening)
  /\ snd (index_request sample_to_datetime sample_RandomState
            sample_generator morning) = morning
  /\ fst (index_request sample_to_datetime sample_RandomState
            sample_generator
            (snd (index_request sample_to_datetime sample_RandomState
                    sample_generator morning)))
     = fst (index_request sample_to_datetime sample_RandomState
              sample_generator morning)
  /\ fst (index_request sample_to_datetime sample_RandomState
            sample_generator morning)
     = index_view sample_to_datetime
         (seeded_choice sample_RandomState sample_generator)
         (datetime_now_date morning) (rfm_data_csv morning).
Proof.
  split; [reflexivity|]. split; [reflexivity|].
  split; [vm_compute; discriminate|]. split; [vm_compute; discriminate|].
  exact (pipeline_deterministic sample_to_datetime Z sample_RandomState
           sample_generator morning evening eq_refl eq_refl).
Defined.


(** Where float64 leaves the exact model.  Between the extremes 0 and 3
    the third inner edge is [3 * 0.6], which float64 rounds below 1.8: it
    puts the value 1.8 in the fourth bin, the exact edges in the third. *)
Lemma float64_edge_rounds_below :
  Float64.searchsorted_left
    (Float64.nbins_to_bins (Float64.ratio 0 1) (Float64.ratio 3 1) 5)
    (Float64.ratio 9 5) = 4%nat
  /\ searchsorted_left (nbins_to_bins 0 3 5) (9 # 5) = 3%nat.
Proof. split; vm_compute; reflexivity. Qed.


(** [row_set_preserved] on the lapsed-customer table. *)
Lemma row_set_preserved_witness :
  preprocess_data sample_to_datetime sample_now lapsed_csv = Ok lapsed_frame
  /\ map (fun r => fst (fst r))
       (frequency_frame sample_to_datetime sample_now lapsed_csv) = lapsed_csv
  /\ map txn (metrics_frame sample_to_datetime sample_now lapsed_csv)
     = lapsed_csv
  /\ map (fun r => txn (metrics r)) lapsed_frame = lapsed_csv
  /\ List.length lapsed_frame = List.length lapsed_csv
  /\ segment_total lapsed_frame = List.length lapsed_csv
  /\ forall data',
       create_plots sample_choice lapsed_frame = Ok data' ->
       map (fun r => txn (metrics r)) data' = lapsed_csv /\
       List.length data' = List.length lapsed_csv /\
       segment_total data' = List.length lapsed_csv.
Proof.
  split; [exact lapsed_frame_run|].
  exact (row_set_preserved sample_to_datetime sample_choice sample_now
           lapsed_csv lapsed_frame lapsed_frame_run).
Defined.

(** * Further properties of the pipeline *)

(** ** Bins are ordered *)

Lemma binned_index_mono {L : Type} (labels : list L) mn mx n v v' l l' :
  (0 < n)%nat -> (mn <= mx)%Q -> (v <= v')%Q ->
  binned labels mn mx n v l -> binned labels mn mx n v' l' ->
  exists k k', (k <= k')%nat /\
               nth_error labels k = Some l /\ nth_error labels k' = Some l'.
Proof.
  intros Hn Hle Hv (k & Hk & Hr & Hd) (k' & Hk' & Hr' & Hd').
  exists k, k'. split; [|split; assumption].
  destruct (Qlt_le_dec mn mx) as [Hlt|Hge].
  - destruct (Hr Hlt) as [Hlo Hhi]. destruct (Hr' Hlt) as [Hlo' Hhi'].
    destruct (Nat.le_gt_cases k k') as [H|H]; [exact H|exfalso].
    destruct Hlo as [Hlo|[-> _]]; [|lia].
    pose proof (bin_edge_mono mn mx n (S k') k Hlt Hn ltac:(lia)). lra.
  - assert (E : (mn == mx)%Q) by lra.
    specialize (Hd E). specialize (Hd' E). lia.
Qed.

Lemma binned_at_min {L : Type} (labels : list L) mn mx n v l :
  (0 < n)%nat -> (mn < mx)%Q -> (v == mn)%Q ->
  binned labels mn mx n v l -> nth_error labels 0 = Some l.
Proof.
  intros Hn Hlt Hv (k & Hk & Hr & _).
  assert (H0 : right_closed_bin mn mx n 0 v).
  { split; [right; split; [reflexivity|lra]|].
    pose proof (bin_edge_mono mn mx n 0 1 Hlt Hn ltac:(lia)) as Hm.
    unfold bin_edge in Hm at 1.
    change (inject_Z (Z.of_nat 0)) with 0%Q in Hm. lra. }
  rewrite <- (right_closed_bin_unique mn mx n k 0 v Hlt Hn (Hr Hlt) H0).
  exact Hk.
Qed.

Lemma bin_edge_last mn mx n :
  (0 < n)%nat -> (bin_edge mn mx n n == mx)%Q.
Proof.
  intros Hn. unfold bin_edge, bin_width.
  assert (H : ~ (inject_Z (Z.of_nat n) == 0)%Q).
  { change 0%Q with (inject_Z 0). rewrite inject_Z_injective. lia. }
  field. exact H.
Qed.

Lemma binned_at_max {L : Type} (labels : list L) mn mx n v l :
  (mn < mx)%Q -> (v == mx)%Q ->
  binned labels mn mx (S n) v l -> nth_error labels n = Some l.
Proof.
  intros Hlt Hv (k & Hk & Hr & _).
  assert (Hn : (0 < S n)%nat) by lia.
  pose proof (bin_edge_last mn mx (S n) Hn) as Hlast.
  assert (H0 : right_closed_bin mn mx (S n) n v).
  { split; [|lra]. left.
    assert (Hw : (0 < bin_width mn mx (S n))%Q).
    { unfold bin_width. apply Qlt_shift_div_l.
      - change 0%Q with (inject_Z 0). rewrite <- Zlt_Qlt. lia.
      - lra. }
    unfold bin_edge in *. rewrite Nat2Z.inj_succ in Hlast.
    unfold Z.succ in Hlast. rewrite inject_Z_plus in Hlast.
    change (inject_Z 1) with 1%Q in Hlast. nra. }
  rewrite <- (right_closed_bin_unique mn mx (S n) k n v Hlt Hn (Hr Hlt) H0).
  exact Hk.
Qed.

Lemma observed_range_bounds col mn mx v :
  observed_range col mn mx -> In (Some v) col -> (mn <= v)%Q /\ (v <= mx)%Q.
Proof.
  intros [Hn Hx] Hin. split.
  - exact (nanmin_lower _ _ Hn _ Hin).
  - exact (nanmax_upper _ _ Hx _ Hin).
Qed.

Lemma observed_range_le col mn mx : observed_range col mn mx -> (mn <= mx)%Q.
Proof.
  intros H. destruct (observed_range_bounds col mn mx mn H); [|assumption].
  apply nanmin_In. apply H.
Qed.

Lemma descending_labels k k' l l' :
  (k <= k')%nat -> nth_error recency_scores k = Some l ->
  nth_error recency_scores k' = Some l' -> l' <= l.
Proof.
  intros H Hk Hk'. unfold recency_scores in *.
  destruct k as [|[|[|[|[|k]]]]], k' as [|[|[|[|[|k']]]]]; simpl in *;
    try (destruct k; discriminate); try (destruct k'; discriminate);
    injection Hk as <-; injection Hk' as <-; lia.
Qed.

Lemma ascending_labels k k' l l' :
  (k <= k')%nat -> nth_error frequency_scores k = Some l ->
  nth_error frequency_scores k' = Some l' -> l <= l'.
Proof.
  intros H Hk Hk'. unfold frequency_scores in *.
  destruct k as [|[|[|[|[|k]]]]], k' as [|[|[|[|[|k']]]]]; simpl in *;
    try (destruct k; discriminate); try (destruct k'; discriminate);
    injection Hk as <-; injection Hk' as <-; lia.
Qed.

Lemma Qsum_nonneg l : (forall x, In x l -> (0 <= x)%Q) -> (0 <= Qsum l)%Q.
Proof.
  induction l as [|a t IH]; intros H; simpl; [lra|].
  pose proof (H a (or_introl eq_refl)).
  assert (0 <= Qsum t)%Q by (apply IH; intros; apply H; right; assumption).
  lra.
Qed.

Lemma Qsum_ge_member l a :
  (forall x, In x l -> (0 <= x)%Q) -> In a l -> (a <= Qsum l)%Q.
Proof.
  induction l as [|b t IH]; intros H Hin; [contradiction|]. simpl.
  destruct Hin as [->|Hin].
  - assert (0 <= Qsum t)%Q
      by (apply Qsum_nonneg; intros; apply H; right; assumption).
    lra.
  - pose proof (H b (or_introl eq_refl)).
    assert (a <= Qsum t)%Q
      by (apply IH; [intros; apply H; right; assumption|exact Hin]).
    lra.
Qed.

(** *** Whole amounts *)

Lemma is_whole_inv q : is_whole q = true -> exists z, (q == inject_Z z)%Q.
Proof.
  unfold is_whole. intros H. apply Z.eqb_eq in H.
  exists (Qnum q / Z.pos (Qden q)).
  unfold Qeq, inject_Z. cbn [Qnum Qden].
  pose proof (Z.div_mod (Qnum q) (Z.pos (Qden q)) ltac:(discriminate)) as E.
  rewrite H in E. rewrite Z.mul_1_r. lia.
Qed.

(** A sum of whole numbers is a whole number, no larger in absolute value
    than the absolute values add up to. *)
Lemma Qsum_whole l :
  (forall x, In x l -> exists z, (x == inject_Z z)%Q) ->
  exists z, (Qsum l == inject_Z z)%Q /\
            (inject_Z (Z.abs z) <= Qsum (map Qabs l))%Q.
Proof.
  induction l as [|a t IH]; intros H; simpl.
  - exists 0. split; [reflexivity|]. apply Qle_refl.
  - destruct (H a (or_introl eq_refl)) as [za Ea].
    destruct IH as (zt & Et & Ht); [intros; apply H; right; assumption|].
    exists (za + zt). split.
    + rewrite Ea, Et, inject_Z_plus. reflexivity.
    + assert (Eabs : (Qabs a == inject_Z (Z.abs za))%Q)
        by (rewrite Ea; reflexivity).
      assert (Htri : (inject_Z (Z.abs (za + zt))
                      <= inject_Z (Z.abs za) + inject_Z (Z.abs zt))%Q).
      { rewrite <- inject_Z_plus, <- Zle_Qle. lia. }
      lra.
Qed.

Lemma Qsum_filter_le {A : Type} (f : A -> Q) (p : A -> bool) l :
  (forall x, (0 <= f x)%Q) ->
  (Qsum (map f (filter p l)) <= Qsum (map f l))%Q.
Proof.
  intros Hf. induction l as [|a t IH]; simpl; [lra|].
  pose proof (Hf a). destruct (p a); simpl; lra.
Qed.

(** On a [whole_amounts] table a customer's total is a whole number of at
    most [amount_bound] in absolute value: neither int64 nor float64
    rounds or wraps it. *)
Lemma amount_total_whole csv c :
  whole_amounts csv = true ->
  exists z, (amount_total csv c == inject_Z z)%Q /\
            - amount_bound <= z <= amount_bound.
Proof.
  unfold whole_amounts. intros H. apply andb_true_iff in H.
  destruct H as [Hw Hb]. rewrite forallb_forall in Hw.
  apply Qle_bool_iff in Hb.
  destruct (Qsum_whole
              (map TransactionAmount (filter (fun t => CustomerID t =? c) csv)))
    as (z & Ez & Hz).
  { intros x Hx. apply in_map_iff in Hx. destruct Hx as (t & <- & Ht).
    apply is_whole_inv, Hw. apply filter_In in Ht. tauto. }
  exists z. split; [exact Ez|].
  rewrite map_map in Hz.
  pose proof (Qsum_filter_le (fun t => Qabs (TransactionAmount t))
                (fun t => CustomerID t =? c) csv
                (fun t => Qabs_nonneg _)) as Hle.
  assert (Hq : (inject_Z (Z.abs z) <= inject_Z amount_bound)%Q) by lra.
  rewrite <- Zle_Qle in Hq. lia.
Qed.

Section MoreFacts.

Variable to_datetime : string -> option Z.

Lemma unparsed_date_raises now csv t :
  In t csv -> to_datetime (PurchaseDate t) = None ->
  raises (preprocess_data to_datetime now csv).
Proof.
  intros Ht Hd.
  assert (Hm : In (metric_row to_datetime now csv t)
                 (metrics_frame to_datetime now csv)).
  { rewrite metrics_frame_rows. apply in_map. exact Ht. }
  assert (Hrec : Recency (metric_row to_datetime now csv t) = None).
  { simpl. unfold recency_of. rewrite Hd. reflexivity. }
  unfold preprocess_data.
  set (data := metrics_frame to_datetime now csv) in *.
  destruct (cut (map _ data) 5 recency_scores) as [rs|e] eqn:ER;
    [|exists e; reflexivity].
  destruct (cut (map _ data) 5 frequency_scores) as [fs|e];
    [|exists e; reflexivity].
  destruct (cut (map _ data) 5 monetary_scores) as [mo|e];
    [|exists e; reflexivity].
  simpl.
  assert (Hnone : In None rs).
  { apply cut_Ok_inv in ER. destruct ER as (mn & mx & _ & _ & ->).
    rewrite map_map. apply in_map_iff.
    exists (metric_row to_datetime now csv t). split; [|exact Hm].
    rewrite Hrec. reflexivity. }
  destruct (astype_int_missing rs Hnone) as [e He].
  rewrite He. exists e. reflexivity.
Qed.

(** The metric row behind a row of a returned frame. *)
Lemma frame_row_metrics now csv out r :
  preprocess_data to_datetime now csv = Ok out -> In r out ->
  In (txn (metrics r)) csv /\
  metrics r = metric_row to_datetime now csv (txn (metrics r)).
Proof.
  intros H Hr. pose proof (preprocess_data_metrics _ _ _ _ H) as Hm.
  assert (Hin : In (metrics r) (map metrics out)) by (apply in_map; exact Hr).
  rewrite Hm in Hin. apply in_map_iff in Hin. destruct Hin as (t & <- & Ht).
  split; [exact Ht|reflexivity].
Qed.

Lemma preprocess_data_rows now csv out :
  preprocess_data to_datetime now csv = Ok out ->
  exists eR eF eM eV,
    forall r, In r out -> scored_from eR eF eM eV (metrics r) r.
Proof.
  intros H. destruct (preprocess_data_inv _ _ _ _ H)
    as (mnR & mxR & mnF & mxF & mnM & mxM & mnV & mxV & Hinv).
  cbv zeta in Hinv.
  destruct Hinv as (_ & _ & _ & _ & _ & _ & _ & _ & Hrows & _).
  do 4 eexists. intros r Hr.
  destruct (Forall2_In_r _ _ _ _ Hrows Hr) as (m & _ & Hs).
  assert (E : metrics r = m) by apply Hs. rewrite E. exact Hs.
Qed.

(** X1.  [preprocess_data] returns a frame only on a non-empty table all
    of whose dates parse, and on every such table whose amounts are whole
    numbers or which is a single transaction of ordinary amount; on the
    empty table it is [pd.cut] that raises, on the Recency column. *)
Theorem preprocess_data_returns now csv :
  ((exists out, preprocess_data to_datetime now csv = Ok out) ->
   csv <> [] /\ all_dates_parse to_datetime csv)
  /\ (amounts_exact csv = true ->
      csv <> [] -> all_dates_parse to_datetime csv ->
      exists out, preprocess_data to_datetime now csv = Ok out)
  /\ preprocess_data to_datetime now []
     = Raise (ValueError "Cannot cut empty array").
Proof.
  split; [|split; [|reflexivity]].
  - intros [out H]. split.
    + intros ->. discriminate H.
    + intros t Ht Hd. destruct (unparsed_date_raises now csv t Ht Hd) as [e He].
      congruence.
  - intros _ Hne Hd. apply preprocess_data_total; assumption.
Qed.

(** X2.  Of two rows of a returned frame, the one purchased later never
    has the lower RecencyScore. *)
Theorem recent_purchase_scores_higher now csv out r1 r2 d1 d2 :
  preprocess_data to_datetime now csv = Ok out ->
  In r1 out -> In r2 out ->
  to_datetime (PurchaseDate (txn (metrics r1))) = Some d1 ->
  to_datetime (PurchaseDate (txn (metrics r2))) = Some d2 ->
  d1 <= d2 ->
  RecencyScore r1 <= RecencyScore r2.
Proof.
  intros H H1 H2 E1 E2 Hd.
  destruct (frame_row_metrics _ _ _ _ H H1) as [_ M1].
  destruct (frame_row_metrics _ _ _ _ H H2) as [_ M2].
  assert (R1 : Recency (metrics r1) = Some (now - d1)).
  { rewrite M1. simpl. unfold recency_of. rewrite E1. reflexivity. }
  assert (R2 : Recency (metrics r2) = Some (now - d2)).
  { rewrite M2. simpl. unfold recency_of. rewrite E2. reflexivity. }
  destruct (preprocess_data_binned _ _ _ _ H)
    as (mnR & mxR & mnF & mxF & mnM & mxM & mnV & mxV
        & HR & _ & _ & _ & Hrow).
  destruct (Hrow r1 H1) as (v1 & ? & ? & ? & Ev1 & _ & _ & _ & B1 & _).
  destruct (Hrow r2 H2) as (v2 & ? & ? & ? & Ev2 & _ & _ & _ & B2 & _).
  assert (v1 = now - d1) by congruence. assert (v2 = now - d2) by congruence.
  subst v1 v2.
  assert (Hq : (inject_Z (now - d2) <= inject_Z (now - d1))%Q).
  { rewrite <- Zle_Qle. lia. }
  destruct (binned_index_mono recency_scores mnR mxR 5 _ _ _ _
              ltac:(lia) (observed_range_le _ _ _ HR) Hq B2 B1)
    as (k & k' & Hk & Hl & Hl').
  exact (descending_labels k k' _ _ Hk Hl Hl').
Qed.

(** X3.  Of two rows of a returned frame, the one with the larger
    Frequency never has the lower FrequencyScore, and the one with the
    larger MonetaryValue never has the lower MonetaryScore. *)
Theorem scores_rise_with_metrics now csv out r1 r2 :
  preprocess_data to_datetime now csv = Ok out ->
  In r1 out -> In r2 out ->
  (forall f1 f2,
      Frequency (metrics r1) = Some f1 -> Frequency (metrics r2) = Some f2 ->
      f1 <= f2 -> FrequencyScore r1 <= FrequencyScore r2) /\
  (forall m1 m2,
      MonetaryValue (metrics r1) = Some m1 ->
      MonetaryValue (metrics r2) = Some m2 ->
      (m1 <= m2)%Q -> MonetaryScore r1 <= MonetaryScore r2).
Proof.
  intros H H1 H2.
  destruct (preprocess_data_binned _ _ _ _ H)
    as (mnR & mxR & mnF & mxF & mnM & mxM & mnV & mxV
        & _ & HF & HM & _ & Hrow).
  destruct (Hrow r1 H1)
    as (? & vF1 & vM1 & ? & _ & EF1 & EM1 & _ & _ & BF1 & BM1 & _).
  destruct (Hrow r2 H2)
    as (? & vF2 & vM2 & ? & _ & EF2 & EM2 & _ & _ & BF2 & BM2 & _).
  split.
  - intros f1 f2 E1 E2 Hle.
    assert (vF1 = f1) by congruence. assert (vF2 = f2) by congruence. subst.
    assert (Hq : (inject_Z f1 <= inject_Z f2)%Q) by (rewrite <- Zle_Qle; lia).
    destruct (binned_index_mono frequency_scores mnF mxF 5 _ _ _ _
                ltac:(lia) (observed_range_le _ _ _ HF) Hq BF1 BF2)
      as (k & k' & Hk & Hl & Hl').
    exact (ascending_labels k k' _ _ Hk Hl Hl').
  - intros m1 m2 E1 E2 Hle.
    assert (vM1 = m1) by congruence. assert (vM2 = m2) by congruence. subst.
    destruct (binned_index_mono monetary_scores mnM mxM 5 _ _ _ _
                ltac:(lia) (observed_range_le _ _ _ HM) Hle BM1 BM2)
      as (k & k' & Hk & Hl & Hl').
    exact (ascending_labels k k' _ _ Hk Hl Hl').
Qed.

(** X4.  When the Recency values of a returned frame are not all equal,
    every row at the smallest one has RecencyScore 5 and every row at the
    largest one has RecencyScore 1, and there are such rows: both ends of
    the scale are used. *)
Theorem recency_extremes_scored now csv out mn mx :
  preprocess_data to_datetime now csv = Ok out ->
  observed_range (recency_column (map metrics out)) mn mx ->
  (mn < mx)%Q ->
  (forall r v, In r out -> Recency (metrics r) = Some v ->
               ((inject_Z v == mn)%Q -> RecencyScore r = 5) /\
               ((inject_Z v == mx)%Q -> RecencyScore r = 1)) /\
  (exists r, In r out /\ RecencyScore r = 5) /\
  (exists r, In r out /\ RecencyScore r = 1).
Proof.
  intros H Ho Hlt.
  destruct (preprocess_data_binned _ _ _ _ H)
    as (mnR & mxR & mnF & mxF & mnM & mxM & mnV & mxV
        & HR & _ & _ & _ & Hrow).
  assert (mnR = mn /\ mxR = mx) as [-> ->].
  { destruct HR, Ho. split; congruence. }
  assert (Hall : forall r v, In r out -> Recency (metrics r) = Some v ->
                 ((inject_Z v == mn)%Q -> RecencyScore r = 5) /\
                 ((inject_Z v == mx)%Q -> RecencyScore r = 1)).
  { intros r v Hr Ev.
    destruct (Hrow r Hr) as (v' & ? & ? & ? & Ev' & _ & _ & _ & B & _).
    assert (v' = v) by congruence. subst v'. split; intros E.
    - pose proof (binned_at_min _ _ _ 5 _ _ ltac:(lia) Hlt E B) as Hl.
      simpl in Hl. congruence.
    - pose proof (binned_at_max _ _ _ 4 _ _ Hlt E B) as Hl.
      simpl in Hl. congruence. }
  split; [exact Hall|].
  assert (Hcell : forall q, In (Some q) (recency_column (map metrics out)) ->
                  exists r v, In r out /\ Recency (metrics r) = Some v /\
                              q = inject_Z v).
  { intros q Hq. unfold recency_column in Hq. rewrite map_map in Hq.
    apply in_map_iff in Hq. destruct Hq as (r & Eq & Hr).
    destruct (Recency (metrics r)) as [v|] eqn:Ev; [|discriminate].
    simpl in Eq. injection Eq as <-. eauto. }
  split.
  - destruct (Hcell mn (nanmin_In _ _ (proj1 Ho))) as (r & v & Hr & Ev & ->).
    exists r. split; [exact Hr|]. apply (Hall r v Hr Ev). reflexivity.
  - destruct (Hcell mx (nanmax_In _ _ (proj2 Ho))) as (r & v & Hr & Ev & ->).
    exists r. split; [exact Hr|]. apply (Hall r v Hr Ev). reflexivity.
Qed.

(** X5.  When the Frequency values of a returned frame are not all equal,
    the rows at the smallest one have FrequencyScore 1 and those at the
    largest one FrequencyScore 5; likewise for MonetaryValue and
    MonetaryScore. *)
Theorem frequency_monetary_extremes_scored now csv out :
  preprocess_data to_datetime now csv = Ok out ->
  (forall mn mx,
      observed_range (frequency_column (map metrics out)) mn mx ->
      (mn < mx)%Q ->
      forall r v, In r out -> Frequency (metrics r) = Some v ->
        ((inject_Z v == mn)%Q -> FrequencyScore r = 1) /\
        ((inject_Z v == mx)%Q -> FrequencyScore r = 5)) /\
  (forall mn mx,
      observed_range (monetary_column (map metrics out)) mn mx ->
      (mn < mx)%Q ->
      forall r v, In r out -> MonetaryValue (metrics r) = Some v ->
        ((v == mn)%Q -> MonetaryScore r = 1) /\
        ((v == mx)%Q -> MonetaryScore r = 5)).
Proof.
  intros H.
  destruct (preprocess_data_binned _ _ _ _ H)
    as (mnR & mxR & mnF & mxF & mnM & mxM & mnV & mxV
        & _ & HF & HM & _ & Hrow).
  split; intros mn mx Ho Hlt r v Hr Ev.
  - assert (mnF = mn /\ mxF = mx) as [-> ->].
    { destruct HF, Ho. split; congruence. }
    destruct (Hrow r Hr) as (? & v' & ? & ? & _ & Ev' & _ & _ & _ & B & _).
    assert (v' = v) by congruence. subst v'. split; intros E.
    + pose proof (binned_at_min _ _ _ 5 _ _ ltac:(lia) Hlt E B) as Hl.
      simpl in Hl. congruence.
    + pose proof (binned_at_max _ _ _ 4 _ _ Hlt E B) as Hl.
      simpl in Hl. congruence.
  - assert (mnM = mn /\ mxM = mx) as [-> ->].
    { destruct HM, Ho. split; congruence. }
    destruct (Hrow r Hr)
      as (? & ? & v' & ? & _ & _ & Ev' & _ & _ & _ & B & _).
    assert (v' = v) by congruence. subst v'. split; intros E.
    + pose proof (binned_at_min _ _ _ 5 _ _ ltac:(lia) Hlt E B) as Hl.
      simpl in Hl. congruence.
    + pose proof (binned_at_max _ _ _ 4 _ _ Hlt E B) as Hl.
      simpl in Hl. congruence.
Qed.

(** X6.  Two rows of a returned frame that belong to the same customer
    carry the same Frequency and MonetaryValue, hence the same
    FrequencyScore and MonetaryScore. *)
Theorem customer_rows_share_scores now csv out r1 r2 :
  preprocess_data to_datetime now csv = Ok out ->
  In r1 out -> In r2 out ->
  CustomerID (txn (metrics r1)) = CustomerID (txn (metrics r2)) ->
  Frequency (metrics r1) = Frequency (metrics r2) /\
  MonetaryValue (metrics r1) = MonetaryValue (metrics r2) /\
  FrequencyScore r1 = FrequencyScore r2 /\
  MonetaryScore r1 = MonetaryScore r2.
Proof.
  intros H H1 H2 Hc.
  destruct (frame_row_metrics _ _ _ _ H H1) as [_ M1].
  destruct (frame_row_metrics _ _ _ _ H H2) as [_ M2].
  assert (EF : Frequency (metrics r1) = Frequency (metrics r2)).
  { rewrite M1, M2. simpl. rewrite Hc. reflexivity. }
  assert (EM : MonetaryValue (metrics r1) = MonetaryValue (metrics r2)).
  { rewrite M1, M2. simpl. rewrite Hc. reflexivity. }
  destruct (preprocess_data_rows _ _ _ H) as (eR & eF & eM & eV & Hrows).
  destruct (Hrows r1 H1) as (_ & _ & F1 & S1 & _).
  destruct (Hrows r2 H2) as (_ & _ & F2 & S2 & _).
  rewrite EF in F1. rewrite EM in S1.
  repeat split; congruence.
Qed.

(** X7.  On a table of whole amounts the MonetaryValue of a row is the
    total of the amounts of its customer's rows, a whole number no larger
    than [amount_bound] in absolute value.  With no negative amount in the
    table it is at least the row's own amount, and for a customer with a
    single row it is that amount. *)
Theorem monetary_value_is_customer_total now csv m :
  whole_amounts csv = true ->
  In m (metrics_frame to_datetime now csv) ->
  In (txn m) csv /\
  MonetaryValue m = Some (amount_total csv (CustomerID (txn m))) /\
  (exists z, (amount_total csv (CustomerID (txn m)) == inject_Z z)%Q /\
             - amount_bound <= z <= amount_bound) /\
  ((forall t, In t csv -> (0 <= TransactionAmount t)%Q) ->
   (TransactionAmount (txn m) <= amount_total csv (CustomerID (txn m)))%Q) /\
  (row_count csv (CustomerID (txn m)) = 1%nat ->
   (amount_total csv (CustomerID (txn m)) == TransactionAmount (txn m))%Q).
Proof.
  intros Hw Hm. rewrite metrics_frame_rows in Hm.
  apply in_map_iff in Hm. destruct Hm as (t & <- & Ht). simpl.
  assert (Hf : In t (filter (fun t' => CustomerID t' =? CustomerID t) csv)).
  { apply filter_In. split; [exact Ht|apply Z.eqb_refl]. }
  split; [exact Ht|]. split; [reflexivity|].
  split; [exact (amount_total_whole csv _ Hw)|]. split.
  - intros Hpos. unfold amount_total. apply Qsum_ge_member.
    + intros x Hx. apply in_map_iff in Hx. destruct Hx as (t' & <- & Ht').
      apply Hpos. apply filter_In in Ht'. tauto.
    + apply in_map. exact Hf.
  - unfold row_count, amount_total. intros Hone.
    destruct (filter _ csv) as [|a [|b l]]; simpl in Hone; try discriminate.
    destruct Hf as [->|[]]. simpl. lra.
Qed.

(** X8.  Every row of a returned frame carries one of the five segment
    names, never the empty string the column starts with, and its RFM
    score lies within the thresholds of that name.  A row is Lost exactly
    when its three scores are all 1. *)
Theorem segments_named now csv out r :
  preprocess_data to_datetime now csv = Ok out -> In r out ->
  In (CustomerSegment r) all_segments /\
  CustomerSegment r <> ""%string /\
  segment_floor (CustomerSegment r) <= RFM_Score r
    <= segment_ceiling (CustomerSegment r) /\
  (CustomerSegment r = "Lost"%string <->
   RecencyScore r = 1 /\ FrequencyScore r = 1 /\ MonetaryScore r = 1).
Proof.
  intros H Hr.
  destruct (preprocess_data_binned _ _ _ _ H)
    as (mnR & mxR & mnF & mxF & mnM & mxM & mnV & mxV & _ & _ & _ & _ & Hrow).
  destruct (Hrow r Hr)
    as (vR & vF & vM & lV & _ & _ & _ & _ & BR & BF & BM & _ & Hsum & Hseg).
  apply binned_label in BR, BF, BM.
  unfold recency_scores in BR. unfold frequency_scores in BF.
  unfold monetary_scores in BM. simpl in BR, BF, BM.
  assert (Hrange : 3 <= RFM_Score r <= 15) by lia.
  rewrite Hseg.
  split; [apply segment_rule_range; exact Hrange|].
  segment_cases (RFM_Score r); cbn;
    (split; [discriminate|]); (split; [lia|]);
    (split; [intros E; first [discriminate E | lia] | intros E; first [reflexivity | exfalso; lia]]).
Qed.

Lemma value_label_index k l :
  nth_error segment_labels k = Some l ->
  (l = "Low-Value"%string /\ k = 0%nat) \/
  (l = "Mid-Value"%string /\ k = 1%nat) \/
  (l = "High-Value"%string /\ k = 2%nat).
Proof.
  unfold segment_labels. intros H.
  destruct k as [|[|[|k]]]; simpl in H;
    try (injection H as <-; tauto).
  destruct k; discriminate.
Qed.

(** X9.  In a returned frame the value segment is never missing and is one
    of the three labels; a row with a higher RFM score never gets a lower
    label; and when the scores differ, the rows with the lowest score are
    Low-Value and those with the highest are High-Value. *)
Theorem value_segment_follows_score now csv out :
  preprocess_data to_datetime now csv = Ok out ->
  (forall r, In r out ->
     exists l, ValueSegment r = Some l /\ In l segment_labels) /\
  (forall r1 r2, In r1 out -> In r2 out -> RFM_Score r1 <= RFM_Score r2 ->
     (ValueSegment r1 = Some "High-Value"%string ->
      ValueSegment r2 = Some "High-Value"%string) /\
     (ValueSegment r2 = Some "Low-Value"%string ->
      ValueSegment r1 = Some "Low-Value"%string)) /\
  (forall mn mx,
     observed_range (score_column out) mn mx -> (mn < mx)%Q ->
     forall r, In r out ->
       ((inject_Z (RFM_Score r) == mn)%Q ->
        ValueSegment r = Some "Low-Value"%string) /\
       ((inject_Z (RFM_Score r) == mx)%Q ->
        ValueSegment r = Some "High-Value"%string)).
Proof.
  intros H.
  destruct (preprocess_data_binned _ _ _ _ H)
    as (mnR & mxR & mnF & mxF & mnM & mxM & mnV & mxV
        & _ & _ & _ & HV & Hrow).
  split; [|split].
  - intros r Hr.
    destruct (Hrow r Hr) as (? & ? & ? & lV & _ & _ & _ & EV & _ & _ & _ & B & _).
    exists lV. split; [exact EV|]. eapply binned_label. exact B.
  - intros r1 r2 H1 H2 Hle.
    destruct (Hrow r1 H1)
      as (? & ? & ? & l1 & _ & _ & _ & E1 & _ & _ & _ & B1 & _).
    destruct (Hrow r2 H2)
      as (? & ? & ? & l2 & _ & _ & _ & E2 & _ & _ & _ & B2 & _).
    assert (Hq : (inject_Z (RFM_Score r1) <= inject_Z (RFM_Score r2))%Q)
      by (rewrite <- Zle_Qle; lia).
    destruct (binned_index_mono segment_labels mnV mxV 3 _ _ _ _
                ltac:(lia) (observed_range_le _ _ _ HV) Hq B1 B2)
      as (k & k' & Hk & Hl & Hl').
    rewrite E1, E2.
    destruct (value_label_index _ _ Hl) as [[-> ->]|[[-> ->]|[-> ->]]],
             (value_label_index _ _ Hl') as [[-> ->]|[[-> ->]|[-> ->]]];
      split; intros E; try reflexivity; try discriminate E; lia.
  - intros mn mx Ho Hlt r Hr.
    assert (mnV = mn /\ mxV = mx) as [-> ->].
    { destruct HV, Ho. split; congruence. }
    destruct (Hrow r Hr)
      as (? & ? & ? & lV & _ & _ & _ & EV & _ & _ & _ & B & _).
    rewrite EV. split; intros E.
    + pose proof (binned_at_min _ _ _ 3 _ _ ltac:(lia) Hlt E B) as Hl.
      simpl in Hl. congruence.
    + pose proof (binned_at_max _ _ _ 2 _ _ Hlt E B) as Hl.
      simpl in Hl. congruence.
Qed.

(** X10.  The three bars of the value-segment chart add up to the number
    of rows of the frame. *)
Theorem value_segment_counts_total now csv out :
  preprocess_data to_datetime now csv = Ok out ->
  (value_segment_counts out "Low-Value"
   + value_segment_counts out "Mid-Value"
   + value_segment_counts out "High-Value")%nat = List.length csv.
Proof.
  intros H.
  assert (Hlen : List.length out = List.length csv).
  { pose proof (preprocess_data_metrics _ _ _ _ H) as Hm.
    apply (f_equal (@List.length _)) in Hm. rewrite !length_map in Hm.
    exact Hm. }
  rewrite <- Hlen. clear Hlen.
  assert (Hall : Forall (fun r => exists l, ValueSegment r = Some l /\
                                            In l segment_labels) out).
  { destruct (preprocess_data_binned _ _ _ _ H)
      as (mnR & mxR & mnF & mxF & mnM & mxM & mnV & mxV
          & _ & _ & _ & _ & Hrow).
    apply Forall_forall. intros r Hr.
    destruct (Hrow r Hr)
      as (? & ? & ? & lV & _ & _ & _ & EV & _ & _ & _ & B & _).
    exists lV. split; [exact EV|]. eapply binned_label. exact B. }
  clear H. unfold value_segment_counts.
  induction Hall as [|r t (l & El & Hl) Ht IH]; [reflexivity|].
  cbn [filter]. rewrite El.
  unfold segment_labels in Hl.
  destruct Hl as [<-|[<-|[<-|[]]]]; cbn; lia.
Qed.

End MoreFacts.

(** ** Figures *)

Lemma insert_label_In k keys x :
  In x (insert_label k keys) <-> x = k \/ In x keys.
Proof.
  induction keys as [|h t IH]; simpl.
  - intuition.
  - destruct (String.compare k h) eqn:C.
    + apply String.compare_eq_iff in C. subst. simpl. intuition.
    + simpl. intuition.
    + simpl. rewrite IH. intuition.
Qed.

Lemma insert_label_sorted k keys :
  StronglySorted OrderedTypeEx.String_as_OT.lt keys ->
  StronglySorted OrderedTypeEx.String_as_OT.lt (insert_label k keys).
Proof.
  induction 1 as [|h t Hs IH Hall]; simpl.
  - repeat constructor.
  - destruct (String.compare k h) eqn:C.
    + constructor; assumption.
    + apply OrderedTypeEx.String_as_OT.cmp_lt in C.
      constructor; [constructor; assumption|].
      constructor; [exact C|].
      eapply Forall_impl; [|exact Hall]. intros a Ha.
      eapply OrderedTypeEx.String_as_OT.lt_trans; eassumption.
    + assert (C' : String.compare h k = Lt).
      { rewrite String.compare_antisym, C. reflexivity. }
      apply OrderedTypeEx.String_as_OT.cmp_lt in C'.
      constructor; [exact IH|].
      apply Forall_forall. intros x Hx. apply insert_label_In in Hx.
      destruct Hx as [->|Hx]; [exact C'|].
      rewrite Forall_forall in Hall. auto.
Qed.

Lemma group_labels_In keys x : In x (group_labels keys) <-> In x keys.
Proof.
  induction keys as [|h t IH]; simpl; [tauto|].
  rewrite insert_label_In, IH. intuition.
Qed.

Lemma group_labels_sorted keys :
  StronglySorted OrderedTypeEx.String_as_OT.lt (group_labels keys).
Proof.
  induction keys as [|h t IH]; simpl; [constructor|].
  apply insert_label_sorted. exact IH.
Qed.

Lemma group_labels_NoDup keys : NoDup (group_labels keys).
Proof.
  pose proof (group_labels_sorted keys) as H.
  induction H as [|h t Hs IH Hall]; constructor; [|exact IH].
  intros Hin. rewrite Forall_forall in Hall.
  apply (OrderedTypeEx.String_as_OT.lt_not_eq h h (Hall h Hin)).
  reflexivity.
Qed.

Lemma Qsum_inject l : (Qsum (map inject_Z l) == inject_Z (Zsum l))%Q.
Proof.
  induction l as [|a t IH]; simpl; [reflexivity|].
  rewrite IH, inject_Z_plus. reflexivity.
Qed.

Lemma Zsum_bounds {A : Type} (f : A -> Z) rows a b :
  (forall r, In r rows -> a <= f r <= b) ->
  a * Z.of_nat (List.length rows) <= Zsum (map f rows)
    <= b * Z.of_nat (List.length rows).
Proof.
  induction rows as [|r t IH]; intros H; [simpl; lia|].
  assert (a <= f r <= b) by (apply H; left; reflexivity).
  assert (a * Z.of_nat (List.length t) <= Zsum (map f t)
            <= b * Z.of_nat (List.length t))
    by (apply IH; intros; apply H; right; assumption).
  cbn [map Zsum fold_right List.length]. fold (Zsum (map f t)). lia.
Qed.

Lemma mean_Zsum col :
  (mean col == inject_Z (Zsum col) / inject_Z (Z.of_nat (List.length col)))%Q.
Proof.
  unfold mean. rewrite Qsum_inject. reflexivity.
Qed.

Lemma Zratio_bounds a b s n :
  0 < n -> a * n <= s <= b * n ->
  (inject_Z a <= inject_Z s / inject_Z n)%Q /\
  (inject_Z s / inject_Z n <= inject_Z b)%Q.
Proof.
  intros Hn [Hlo Hhi].
  assert (Hq : (0 < inject_Z n)%Q).
  { change 0%Q with (inject_Z 0). rewrite <- Zlt_Qlt. exact Hn. }
  split.
  - apply Qle_shift_div_l; [exact Hq|].
    rewrite <- inject_Z_mult, <- Zle_Qle. exact Hlo.
  - apply Qle_shift_div_r; [exact Hq|].
    rewrite <- inject_Z_mult, <- Zle_Qle. exact Hhi.
Qed.

Lemma segment_rule_thresholds s :
  3 <= s <= 15 ->
  segment_floor (segment_rule s) <= s <= segment_ceiling (segment_rule s).
Proof.
  intros Hs. segment_cases s; cbn; lia.
Qed.

Lemma marker_colors_from_spec pastel_colors segments i0 :
  (exists colors, marker_colors_from pastel_colors i0 segments = Ok colors)
  <-> (forall j s, nth_error segments j = Some s ->
                   s <> "Champions"%string ->
                   (i0 + j < List.length pastel_colors)%nat).
Proof.
  revert i0. induction segments as [|s t IH]; intros i0; simpl.
  - split; [intros _ [|j] ? H; discriminate H|eauto].
  - split.
    + intros [colors H] j s' Hj Hs'.
      destruct j as [|j]; simpl in Hj.
      * injection Hj as ->. apply String.eqb_neq in Hs'. rewrite Hs' in H.
        unfold list_getitem in H.
        destruct (nth_error pastel_colors i0) eqn:E; [|discriminate].
        rewrite Nat.add_0_r. apply nth_error_Some. congruence.
      * assert (Ht : exists cs, marker_colors_from pastel_colors (S i0) t
                                = Ok cs).
        { destruct (if String.eqb s "Champions" then _ else _);
            [|discriminate].
          simpl in H. destruct (marker_colors_from _ _ t); [eauto|discriminate]. }
        pose proof (proj1 (IH (S i0)) Ht j s' Hj Hs'). lia.
    + intros Hall.
      assert (Ht : exists cs, marker_colors_from pastel_colors (S i0) t = Ok cs).
      { apply IH. intros j s' Hj Hs'.
        pose proof (Hall (S j) s' Hj Hs'). lia. }
      destruct Ht as [cs Hcs]. rewrite Hcs.
      destruct (String.eqb s "Champions") eqn:E; simpl; [eauto|].
      apply String.eqb_neq in E.
      pose proof (Hall 0%nat s eq_refl E) as Hlt. rewrite Nat.add_0_r in Hlt.
      unfold list_getitem.
      destruct (nth_error pastel_colors i0) eqn:En; simpl; [eauto|].
      apply nth_error_None in En. lia.
Qed.

Lemma marker_colors_from_nth pastel_colors segments i0 colors :
  marker_colors_from pastel_colors i0 segments = Ok colors ->
  List.length colors = List.length segments /\
  forall j s, nth_error segments j = Some s ->
    (s = "Champions"%string -> nth_error colors j = Some champions_color) /\
    (s <> "Champions"%string ->
     nth_error colors j = nth_error pastel_colors (i0 + j)).
Proof.
  revert i0 colors. induction segments as [|s t IH]; intros i0 colors H;
    simpl in H.
  - injection H as <-. split; [reflexivity|].
    intros [|j] ? Hj; discriminate Hj.
  - destruct (if String.eqb s "Champions" then _ else _) as [c|] eqn:Ec;
      [|discriminate].
    simpl in H.
    destruct (marker_colors_from pastel_colors (S i0) t) as [cs|] eqn:Et;
      [|discriminate].
    simpl in H. injection H as <-.
    destruct (IH _ _ Et) as [Hlen Hnth].
    split; [simpl; f_equal; exact Hlen|].
    intros [|j] s' Hj; simpl in Hj.
    + injection Hj as ->. simpl. split; intros Hs.
      * subst s'. simpl in Ec. congruence.
      * apply String.eqb_neq in Hs. rewrite Hs in Ec.
        unfold list_getitem in Ec. rewrite Nat.add_0_r.
        destruct (nth_error pastel_colors i0); congruence.
    + simpl. destruct (Hnth j s' Hj) as [HA HB]. split; [exact HA|].
      intros Hs. rewrite (HB Hs). f_equal. lia.
Qed.

(** X11.  The colour list of the segment chart is built without error
    exactly when every segment other than Champions sits at a position
    inside the palette; it then has one colour per segment, the fixed
    blue for Champions and the palette colour of its position for any
    other. *)
Theorem marker_colors_defined pastel_colors segments :
  ((exists colors, marker_colors pastel_colors segments = Ok colors)
   <-> (forall j s, nth_error segments j = Some s ->
                    s <> "Champions"%string ->
                    (j < List.length pastel_colors)%nat))
  /\ (forall colors,
        marker_colors pastel_colors segments = Ok colors ->
        List.length colors = List.length segments /\
        forall j s, nth_error segments j = Some s ->
          (s = "Champions"%string ->
           nth_error colors j = Some champions_color) /\
          (s <> "Champions"%string ->
           nth_error colors j = nth_error pastel_colors j)).
Proof.
  split.
  - unfold marker_colors. rewrite marker_colors_from_spec. reflexivity.
  - intros colors H. exact (marker_colors_from_nth _ _ _ _ H).
Qed.

Lemma sample_choice_valid : draws_without_replacement sample_choice.
Proof.
  intros N n Hn. unfold sample_choice. split; [|split].
  - rewrite length_rev, length_seq. reflexivity.
  - apply NoDup_rev. apply seq_NoDup.
  - apply Forall_forall. intros x Hx. apply in_rev in Hx.
    apply in_seq in Hx. lia.
Qed.

Section MorePlots.

Variable to_datetime : string -> option Z.

Lemma row_scores_aux now csv out r :
  preprocess_data to_datetime now csv = Ok out -> In r out ->
  1 <= RecencyScore r <= 5 /\ 1 <= FrequencyScore r <= 5 /\
  1 <= MonetaryScore r <= 5 /\
  RFM_Score r = RecencyScore r + FrequencyScore r + MonetaryScore r /\
  CustomerSegment r = segment_rule (RFM_Score r).
Proof.
  intros H Hr.
  destruct (preprocess_data_binned _ _ _ _ H)
    as (mnR & mxR & mnF & mxF & mnM & mxM & mnV & mxV & _ & _ & _ & _ & Hrow).
  destruct (Hrow r Hr)
    as (vR & vF & vM & lV & _ & _ & _ & _ & BR & BF & BM & _ & Hsum & Hseg).
  apply binned_label in BR, BF, BM.
  unfold recency_scores in BR. unfold frequency_scores in BF.
  unfold monetary_scores in BM. simpl in BR, BF, BM.
  repeat split; try lia; assumption.
Qed.

(** X12.  For a frame returned by [preprocess_data], whatever order
    [value_counts] lists its segments in, a palette of at least five
    colours is enough: the comprehension never indexes past its end. *)
Theorem marker_colors_in_range now csv data pastel_colors segments :
  preprocess_data to_datetime now csv = Ok data ->
  NoDup segments -> incl segments (map CustomerSegment data) ->
  (5 <= List.length pastel_colors)%nat ->
  (List.length segments <= 5)%nat /\
  exists colors,
    marker_colors pastel_colors segments = Ok colors /\
    List.length colors = List.length segments.
Proof.
  intros H Hnd Hincl Hp.
  assert (Hlen : (List.length segments <= 5)%nat).
  { change 5%nat with (List.length all_segments).
    apply NoDup_incl_length; [exact Hnd|].
    intros s Hs. apply Hincl in Hs. apply in_map_iff in Hs.
    destruct Hs as (r & <- & Hr).
    destruct (scores_in_range_aux _ _ _ _ _ H Hr) as [Hrange ->].
    apply segment_rule_range. exact Hrange. }
  split; [exact Hlen|].
  assert (Hok : exists colors,
             marker_colors_from pastel_colors 0 segments = Ok colors).
  { apply marker_colors_from_spec. intros j s Hj _.
    assert (j < List.length segments)%nat
      by (apply nth_error_Some; congruence).
    lia. }
  destruct Hok as [colors Hc]. exists colors. split; [exact Hc|].
  apply (marker_colors_from_nth _ _ _ _ Hc).
Qed.

(** X13.  In the table of mean scores of a returned frame every segment of
    the frame appears once, in ascending order of name, with at least one
    row behind it; each mean lies between 1 and 5, and the three means of
    Lost are all 1.  The bounds are float64 values themselves, so they hold
    of the mean as [Series.mean] rounds it as well. *)
Theorem segment_scores_in_range now csv data :
  preprocess_data to_datetime now csv = Ok data ->
  NoDup (map segment (segment_scores data)) /\
  StronglySorted OrderedTypeEx.String_as_OT.lt
    (map segment (segment_scores data)) /\
  (forall r, In r data ->
     exists e, In e (segment_scores data) /\ segment e = CustomerSegment r) /\
  forall e, In e (segment_scores data) ->
    In (segment e) all_segments /\
    (0 < value_counts data (segment e))%nat /\
    (1 <= mean_recency e)%Q /\ (mean_recency e <= 5)%Q /\
    (1 <= mean_frequency e)%Q /\ (mean_frequency e <= 5)%Q /\
    (1 <= mean_monetary e)%Q /\ (mean_monetary e <= 5)%Q /\
    (segment e = "Lost"%string ->
     (mean_recency e == 1)%Q /\ (mean_frequency e == 1)%Q /\
     (mean_monetary e == 1)%Q).
Proof.
  intros H.
  assert (Hseg : map segment (segment_scores data)
                 = group_labels (map CustomerSegment data)).
  { unfold segment_scores. rewrite map_map. simpl. apply map_id. }
  split; [rewrite Hseg; apply group_labels_NoDup|].
  split; [rewrite Hseg; apply group_labels_sorted|].
  split.
  { intros r Hr.
    assert (Hin : In (CustomerSegment r) (map segment (segment_scores data))).
    { rewrite Hseg. apply group_labels_In. apply in_map. exact Hr. }
    apply in_map_iff in Hin. destruct Hin as (e & He & Hin). eauto. }
  intros e He. unfold segment_scores in He. apply in_map_iff in He.
  destruct He as (label & <- & Hlabel). cbn [segment mean_recency
    mean_frequency mean_monetary].
  apply (proj1 (group_labels_In _ _)) in Hlabel.
  apply in_map_iff in Hlabel.
  destruct Hlabel as (r0 & E0 & Hr0).
  set (rows := filter (fun r => String.eqb (CustomerSegment r) label) data).
  assert (Hrows : forall r, In r rows ->
            In r data /\ CustomerSegment r = label).
  { intros r Hr. apply filter_In in Hr. destruct Hr as [Hd Hl].
    apply String.eqb_eq in Hl. tauto. }
  assert (Hr0' : In r0 rows).
  { apply filter_In. split; [exact Hr0|]. apply String.eqb_eq. exact E0. }
  assert (Hn : 0 < Z.of_nat (List.length rows)).
  { destruct rows; [contradiction|]. simpl. lia. }
  destruct (row_scores_aux _ _ _ _ H Hr0) as (_ & _ & _ & Hsum0 & Hs0).
  destruct (scores_in_range_aux _ _ _ _ _ H Hr0) as [Hrange0 _].
  assert (Hlab : In label all_segments).
  { rewrite <- E0, Hs0. apply segment_rule_range. exact Hrange0. }
  assert (HR : 1 * Z.of_nat (List.length rows)
               <= Zsum (map RecencyScore rows)
               <= 5 * Z.of_nat (List.length rows)).
  { apply Zsum_bounds. intros r Hr.
    apply (row_scores_aux _ _ _ _ H (proj1 (Hrows r Hr))). }
  assert (HF : 1 * Z.of_nat (List.length rows)
               <= Zsum (map FrequencyScore rows)
               <= 5 * Z.of_nat (List.length rows)).
  { apply Zsum_bounds. intros r Hr.
    apply (row_scores_aux _ _ _ _ H (proj1 (Hrows r Hr))). }
  assert (HM : 1 * Z.of_nat (List.length rows)
               <= Zsum (map MonetaryScore rows)
               <= 5 * Z.of_nat (List.length rows)).
  { apply Zsum_bounds. intros r Hr.
    apply (row_scores_aux _ _ _ _ H (proj1 (Hrows r Hr))). }
  assert (Hq : ~ (inject_Z (Z.of_nat (List.length rows)) == 0)%Q).
  { change 0%Q with (inject_Z 0). rewrite inject_Z_injective. lia. }
  assert (Hlen : forall f : ScoredRecord -> Z,
             List.length (map f rows) = List.length rows)
    by (intros; apply length_map).
  pose proof (mean_Zsum (map RecencyScore rows)) as ER.
  pose proof (mean_Zsum (map FrequencyScore rows)) as EF.
  pose proof (mean_Zsum (map MonetaryScore rows)) as EM.
  rewrite Hlen in ER, EF, EM.
  destruct (Zratio_bounds 1 5 _ _ Hn HR) as [R1 R2].
  destruct (Zratio_bounds 1 5 _ _ Hn HF) as [F1 F2].
  destruct (Zratio_bounds 1 5 _ _ Hn HM) as [M1 M2].
  change (inject_Z 1) with 1%Q in *. change (inject_Z 5) with 5%Q in *.
  split; [exact Hlab|].
  split; [unfold value_counts; fold rows; lia|].
  do 6 (split; [lra|]).
  intros ->.
  assert (HL : forall r, In r rows ->
             RecencyScore r = 1 /\ FrequencyScore r = 1 /\ MonetaryScore r = 1).
  { intros r Hr. destruct (Hrows r Hr) as [Hd El].
    destruct (row_scores_aux _ _ _ _ H Hd) as (? & ? & ? & Hsum & Hs).
    destruct (scores_in_range_aux _ _ _ _ _ H Hd) as [Hrange _].
    pose proof (segment_rule_thresholds _ Hrange) as Ht.
    rewrite <- Hs, El in Ht. cbn in Ht. lia. }
  assert (HR1 : 1 * Z.of_nat (List.length rows)
                <= Zsum (map RecencyScore rows)
                <= 1 * Z.of_nat (List.length rows))
    by (apply Zsum_bounds; intros r Hr; destruct (HL r Hr) as (-> & _); lia).
  assert (HF1 : 1 * Z.of_nat (List.length rows)
                <= Zsum (map FrequencyScore rows)
                <= 1 * Z.of_nat (List.length rows))
    by (apply Zsum_bounds; intros r Hr; destruct (HL r Hr) as (_ & -> & _); lia).
  assert (HM1 : 1 * Z.of_nat (List.length rows)
                <= Zsum (map MonetaryScore rows)
                <= 1 * Z.of_nat (List.length rows))
    by (apply Zsum_bounds; intros r Hr; destruct (HL r Hr) as (_ & _ & ->); lia).
  destruct (Zratio_bounds 1 1 _ _ Hn HR1). destruct (Zratio_bounds 1 1 _ _ Hn HF1).
  destruct (Zratio_bounds 1 1 _ _ Hn HM1).
  change (inject_Z 1) with 1%Q in *.
  repeat split; lra.
Qed.

Variable RandomState_choice : Z -> nat -> nat -> list nat.

(** The rows the pass relabels: those whose label is that of a drawn row;
    they are the drawn rows themselves, all of them Lost. *)
Lemma relabel_selection data chosen :
  NoDup (map index data) -> NoDup (map index chosen) ->
  incl chosen (filter (fun r => String.eqb (CustomerSegment r) "Lost") data) ->
  (forall r, In r data ->
     existsb (Nat.eqb (index r)) (map index chosen) = true ->
     In r chosen /\ CustomerSegment r = "Lost"%string) /\
  List.length
    (filter (fun r => existsb (Nat.eqb (index r)) (map index chosen)) data)
  = List.length chosen.
Proof.
  intros Hnd Hch Hincl. split.
  - intros r Hr Hs. apply mem_true in Hs.
    apply in_map_iff in Hs. destruct Hs as (c & Ec & Hc).
    pose proof (Hincl c Hc) as Hlost. apply filter_In in Hlost.
    destruct Hlost as [Hcd Hcl].
    assert (c = r) by (apply (NoDup_map_eq index data c r Hnd Hcd Hr Ec)).
    subst c. split; [exact Hc|]. apply String.eqb_eq. exact Hcl.
  - rewrite labelled_rows_count; auto.
    + apply length_map.
    + intros x Hx. apply in_map_iff in Hx.
      destruct Hx as (c & <- & Hc). apply in_map.
      pose proof (Hincl c Hc) as Hlost. apply filter_In in Hlost. tauto.
Qed.

(** X14.  After the pass the segment of a row is no longer fixed by its
    RFM score: every row either still obeys the threshold rule or is a
    relabelled one, named Potential Loyalists with an RFM score of 3 and
    all three scores 1; the rows that break the rule are exactly the
    [round(0.2 * N)] relabelled ones. *)
Theorem relabelled_rows_break_rule now csv data :
  preprocess_data to_datetime now csv = Ok data ->
  let N := value_counts data "Lost" in
  let n := Z.to_nat (py_round (reactivation_rate * inject_Z (Z.of_nat N))) in
  valid_draw N n (RandomState_choice 1 N n) ->
  exists data',
    create_plots RandomState_choice data = Ok data' /\
    (forall r, In r data' ->
       CustomerSegment r = segment_rule (RFM_Score r) \/
       (CustomerSegment r = "Potential Loyalists"%string /\
        RFM_Score r = 3 /\ RecencyScore r = 1 /\ FrequencyScore r = 1 /\
        MonetaryScore r = 1)) /\
    List.length
      (filter (fun r => negb (String.eqb (CustomerSegment r)
                                         (segment_rule (RFM_Score r))))
         data') = n.
Proof.
  intros H N n Hdraw.
  pose proof (preprocess_data_index _ _ _ _ H) as Hnd.
  destruct (sample_lost RandomState_choice data Hnd Hdraw)
    as (chosen & Hs & Hlen & Hch & Hincl).
  destruct (relabel_selection data chosen Hnd Hch Hincl) as [Hsel Hcount].
  assert (Hlost : forall r, In r data -> CustomerSegment r = "Lost"%string ->
            RFM_Score r = 3 /\ RecencyScore r = 1 /\ FrequencyScore r = 1 /\
            MonetaryScore r = 1).
  { intros r Hr El.
    destruct (row_scores_aux _ _ _ _ H Hr) as (? & ? & ? & Hsum & Hseg).
    destruct (scores_in_range_aux _ _ _ _ _ H Hr) as [Hrange _].
    pose proof (segment_rule_thresholds _ Hrange) as Ht.
    rewrite <- Hseg, El in Ht. cbn in Ht. lia. }
  exists (loc_set_segment (map index chosen) "Potential Loyalists" data).
  split; [unfold create_plots; rewrite Hs; reflexivity|].
  unfold loc_set_segment. split.
  - intros r' Hr'. apply in_map_iff in Hr'. destruct Hr' as (r & <- & Hr).
    destruct (existsb _ _) eqn:E.
    + right. destruct (Hsel r Hr E) as [_ El].
      destruct (Hlost r Hr El) as (? & ? & ? & ?). simpl. tauto.
    + left. apply (row_scores_aux _ _ _ _ H Hr).
  - rewrite filter_map_comm, length_map.
    assert (Hn : List.length chosen = n) by exact Hlen.
    rewrite <- Hn, <- Hcount. apply filter_length_ext. intros r Hr.
    destruct (existsb _ _) eqn:E.
    + destruct (Hsel r Hr E) as [_ El].
      destruct (Hlost r Hr El) as (E3 & _). simpl. rewrite E3. reflexivity.
    + destruct (row_scores_aux _ _ _ _ H Hr) as (_ & _ & _ & _ & ->).
      rewrite String.eqb_refl. reflexivity.
Qed.

(** X15.  The pass changes the frame exactly when at least three rows are
    Lost: with fewer, [round(0.2 * N)] is 0.  In general it relabels
    [(N + 2) / 5] rows, so it never empties the Lost segment. *)
Theorem few_lost_rows_untouched now csv data :
  preprocess_data to_datetime now csv = Ok data ->
  let N := value_counts data "Lost" in
  let n := Z.to_nat (py_round (reactivation_rate * inject_Z (Z.of_nat N))) in
  valid_draw N n (RandomState_choice 1 N n) ->
  exists data',
    create_plots RandomState_choice data = Ok data' /\
    n = ((N + 2) / 5)%nat /\
    (data' = data <-> (N <= 2)%nat) /\
    ((1 <= N)%nat -> (1 <= value_counts data' "Lost")%nat).
Proof.
  intros H N n Hdraw.
  pose proof (preprocess_data_index _ _ _ _ H) as Hnd.
  destruct (sample_lost RandomState_choice data Hnd Hdraw)
    as (chosen & Hs & Hlen & Hch & Hincl).
  destruct (relabel_counts data chosen Hnd Hch Hincl) as (HL & _ & _ & _).
  assert (Hn : List.length chosen = n) by exact Hlen.
  cbv zeta in HL. rewrite Hn in HL. fold N in HL.
  assert (En : n = ((N + 2) / 5)%nat).
  { unfold n. rewrite py_round_fifth.
    rewrite <- (Nat2Z.id ((N + 2) / 5)). f_equal.
    rewrite Nat2Z.inj_div, Nat2Z.inj_add. reflexivity. }
  exists (loc_set_segment (map index chosen) "Potential Loyalists" data).
  split; [unfold create_plots; rewrite Hs; reflexivity|].
  split; [exact En|].
  assert (Hdiv : (n = 0 <-> N <= 2)%nat).
  { rewrite En. split; intros Hx.
    - destruct (Nat.le_gt_cases N 2) as [|Hgt]; [assumption|exfalso].
      assert (1 <= (N + 2) / 5)%nat
        by (apply Nat.div_le_lower_bound; lia).
      lia.
    - apply Nat.div_small. lia. }
  split; [split|].
  - intros E. apply Hdiv. rewrite E in HL. lia.
  - intros Hsmall. apply Hdiv in Hsmall.
    assert (chosen = []) as -> by (destruct chosen; [reflexivity|simpl in Hn; lia]).
    unfold loc_set_segment. simpl. apply map_id.
  - intros HN.
    assert (5 * n <= N + 2)%nat
      by (rewrite En; apply Nat.Div0.mul_div_le).
    lia.
Qed.

(** X16.  Given a generator that draws without replacement, the route
    returns a frame only on a non-empty table all of whose dates parse,
    and on every such table whose amounts are whole numbers or which is a
    single transaction of ordinary amount; the frame then has one row per
    input row. *)
Theorem index_view_returns now csv :
  draws_without_replacement RandomState_choice ->
  ((exists out, index_view to_datetime RandomState_choice now csv = Ok out)
   -> csv <> [] /\ all_dates_parse to_datetime csv) /\
  (amounts_exact csv = true ->
   csv <> [] -> all_dates_parse to_datetime csv ->
   exists out, index_view to_datetime RandomState_choice now csv = Ok out) /\
  (forall out,
     index_view to_datetime RandomState_choice now csv = Ok out ->
     List.length out = List.length csv).
Proof.
  intros Hrng. unfold index_view. split; [|split].
  - intros [out Hout].
    destruct (preprocess_data to_datetime now csv) as [data|e] eqn:H;
      [|discriminate].
    split.
    + intros ->. discriminate H.
    + intros t Ht Hd.
      destruct (unparsed_date_raises to_datetime now csv t Ht Hd) as [e He].
      congruence.
  - intros _ Hne Hd.
    destruct (preprocess_data_total to_datetime now csv Hne Hd) as [data H].
    rewrite H. simpl.
    pose proof (preprocess_data_index _ _ _ _ H) as Hnd.
    destruct (sample_lost RandomState_choice data Hnd
                (Hrng _ _ (draw_size_le _)))
      as (chosen & Hs & _).
    unfold create_plots. rewrite Hs. simpl. eauto.
  - intros out Hout.
    destruct (preprocess_data to_datetime now csv) as [data|e] eqn:H;
      [|discriminate].
    simpl in Hout. destruct (create_plots_inv _ _ _ Hout) as (chosen & _ & ->).
    unfold loc_set_segment. rewrite length_map.
    pose proof (preprocess_data_metrics _ _ _ _ H) as Hm.
    apply (f_equal (@List.length _)) in Hm. rewrite !length_map in Hm.
    exact Hm.
Qed.

End MorePlots.

(** ** Sample runs of the further properties *)

Lemma repeat_frame_run :
  preprocess_data sample_to_datetime sample_now repeat_csv = Ok repeat_frame.
Proof. vm_compute. reflexivity. Defined.

(** [recent_purchase_scores_higher] on the three-customer table: the row
    bought on 2023-06-05 against the row bought on 2023-06-10. *)
Lemma recent_purchase_scores_higher_witness :
  exists r1 r2,
    preprocess_data sample_to_datetime sample_now sample_csv = Ok sample_frame
    /\ In r1 sample_frame /\ In r2 sample_frame
    /\ sample_to_datetime (PurchaseDate (txn (metrics r1))) = Some 19513
    /\ sample_to_datetime (PurchaseDate (txn (metrics r2))) = Some 19518
    /\ 19513 <= 19518
    /\ RecencyScore r1 <= RecencyScore r2.
Proof.
  do 2 eexists. split; [exact sample_frame_run|].
  split; [right; right; left; reflexivity|].
  split; [left; reflexivity|].
  split; [reflexivity|]. split; [reflexivity|]. split; [lia|].
  apply (recent_purchase_scores_higher sample_to_datetime sample_now
           sample_csv sample_frame _ _ 19513 19518 sample_frame_run);
    [right; right; left; reflexivity|left; reflexivity
    |reflexivity|reflexivity|lia].
Defined.

(** [scores_rise_with_metrics] on the repeat-customer table: the
    one-order customer against the two-order customer. *)
Lemma scores_rise_with_metrics_witness :
  exists r1 r2,
    preprocess_data sample_to_datetime sample_now repeat_csv = Ok repeat_frame
    /\ In r1 repeat_frame /\ In r2 repeat_frame
    /\ (forall f1 f2,
          Frequency (metrics r1) = Some f1 ->
          Frequency (metrics r2) = Some f2 ->
          f1 <= f2 -> FrequencyScore r1 <= FrequencyScore r2)
    /\ (forall m1 m2,
          MonetaryValue (metrics r1) = Some m1 ->
          MonetaryValue (metrics r2) = Some m2 ->
          (m1 <= m2)%Q -> MonetaryScore r1 <= MonetaryScore r2).
Proof.
  do 2 eexists. split; [exact repeat_frame_run|].
  split; [left; reflexivity|].
  split; [right; left; reflexivity|].
  apply (scores_rise_with_metrics sample_to_datetime sample_now repeat_csv
           repeat_frame _ _ repeat_frame_run);
    [left; reflexivity|right; left; reflexivity].
Defined.

(** [recency_extremes_scored] on the three-customer table, Recency from 0
    to 5. *)
Lemma recency_extremes_scored_witness :
  preprocess_data sample_to_datetime sample_now sample_csv = Ok sample_frame
  /\ observed_range (recency_column (map metrics sample_frame))
       (inject_Z 0) (inject_Z 5)
  /\ (inject_Z 0 < inject_Z 5)%Q
  /\ (forall r v, In r sample_frame -> Recency (metrics r) = Some v ->
        ((inject_Z v == inject_Z 0)%Q -> RecencyScore r = 5) /\
        ((inject_Z v == inject_Z 5)%Q -> RecencyScore r = 1))
  /\ (exists r, In r sample_frame /\ RecencyScore r = 5)
  /\ (exists r, In r sample_frame /\ RecencyScore r = 1).
Proof.
  assert (Hrange : observed_range (recency_column (map metrics sample_frame))
                     (inject_Z 0) (inject_Z 5)).
  { split; vm_compute; reflexivity. }
  split; [exact sample_frame_run|]. split; [exact Hrange|].
  split; [reflexivity|].
  exact (recency_extremes_scored sample_to_datetime sample_now sample_csv
           sample_frame _ _ sample_frame_run Hrange eq_refl).
Defined.

(** [frequency_monetary_extremes_scored] on the repeat-customer table. *)
Lemma frequency_monetary_extremes_scored_witness :
  preprocess_data sample_to_datetime sample_now repeat_csv = Ok repeat_frame
  /\ (forall mn mx,
        observed_range (frequency_column (map metrics repeat_frame)) mn mx ->
        (mn < mx)%Q ->
        forall r v, In r repeat_frame -> Frequency (metrics r) = Some v ->
          ((inject_Z v == mn)%Q -> FrequencyScore r = 1) /\
          ((inject_Z v == mx)%Q -> FrequencyScore r = 5))
  /\ (forall mn mx,
        observed_range (monetary_column (map metrics repeat_frame)) mn mx ->
        (mn < mx)%Q ->
        forall r v, In r repeat_frame -> MonetaryValue (metrics r) = Some v ->
          ((v == mn)%Q -> MonetaryScore r = 1) /\
          ((v == mx)%Q -> MonetaryScore r = 5)).
Proof.
  split; [exact repeat_frame_run|].
  exact (frequency_monetary_extremes_scored sample_to_datetime sample_now
           repeat_csv repeat_frame repeat_frame_run).
Defined.

(** [customer_rows_share_scores] on the two rows of customer 2. *)
Lemma customer_rows_share_scores_witness :
  exists r1 r2,
    preprocess_data sample_to_datetime sample_now repeat_csv = Ok repeat_frame
    /\ In r1 repeat_frame /\ In r2 repeat_frame
    /\ CustomerID (txn (metrics r1)) = CustomerID (txn (metrics r2))
    /\ Frequency (metrics r1) = Frequency (metrics r2)
    /\ MonetaryValue (metrics r1) = MonetaryValue (metrics r2)
    /\ FrequencyScore r1 = FrequencyScore r2
    /\ MonetaryScore r1 = MonetaryScore r2.
Proof.
  do 2 eexists. split; [exact repeat_frame_run|].
  split; [right; left; reflexivity|].
  split; [right; right; left; reflexivity|].
  split; [reflexivity|].
  apply (customer_rows_share_scores sample_to_datetime sample_now repeat_csv
           repeat_frame _ _ repeat_frame_run);
    [right; left; reflexivity|right; right; left; reflexivity|reflexivity].
Defined.

(** [monetary_value_is_customer_total] on the first row of customer 2. *)
Lemma monetary_value_is_customer_total_witness :
  exists m,
    whole_amounts repeat_csv = true
    /\ In m (metrics_frame sample_to_datetime sample_now repeat_csv)
    /\ txn m = mkTransaction 2 (Some 12) "2023-06-05" 20
    /\ In (txn m) repeat_csv
    /\ MonetaryValue m = Some (amount_total repeat_csv (CustomerID (txn m)))
    /\ (exists z,
          (amount_total repeat_csv (CustomerID (txn m)) == inject_Z z)%Q /\
          - amount_bound <= z <= amount_bound)
    /\ ((forall t, In t repeat_csv -> (0 <= TransactionAmount t)%Q) ->
        (TransactionAmount (txn m)
           <= amount_total repeat_csv (CustomerID (txn m)))%Q)
    /\ (row_count repeat_csv (CustomerID (txn m)) = 1%nat ->
        (amount_total repeat_csv (CustomerID (txn m))
           == TransactionAmount (txn m))%Q).
Proof.
  assert (Hin : In (metric_row sample_to_datetime sample_now repeat_csv
                      (mkTransaction 2 (Some 12) "2023-06-05" 20))
                  (metrics_frame sample_to_datetime sample_now repeat_csv)).
  { vm_compute. right. left. reflexivity. }
  eexists. split; [reflexivity|]. split; [exact Hin|].
  split; [reflexivity|].
  exact (monetary_value_is_customer_total sample_to_datetime sample_now
           repeat_csv _ eq_refl Hin).
Defined.

(** [segments_named] on the lapsed-customer table, at a Lost row. *)
Lemma segments_named_witness :
  exists r,
    preprocess_data sample_to_datetime sample_now lapsed_csv = Ok lapsed_frame
    /\ In r lapsed_frame
    /\ In (CustomerSegment r) all_segments
    /\ CustomerSegment r <> ""%string
    /\ segment_floor (CustomerSegment r) <= RFM_Score r
         <= segment_ceiling (CustomerSegment r)
    /\ (CustomerSegment r = "Lost"%string <->
        RecencyScore r = 1 /\ FrequencyScore r = 1 /\ MonetaryScore r = 1).
Proof.
  eexists. split; [exact lapsed_frame_run|].
  split; [left; reflexivity|].
  apply (segments_named sample_to_datetime sample_now lapsed_csv
           lapsed_frame _ lapsed_frame_run).
  left. reflexivity.
Defined.

(** [value_segment_follows_score] on the three-customer table. *)
Lemma value_segment_follows_score_witness :
  preprocess_data sample_to_datetime sample_now sample_csv = Ok sample_frame
  /\ (forall r, In r sample_frame ->
        exists l, ValueSegment r = Some l /\ In l segment_labels)
  /\ (forall r1 r2, In r1 sample_frame -> In r2 sample_frame ->
        RFM_Score r1 <= RFM_Score r2 ->
        (ValueSegment r1 = Some "High-Value"%string ->
         ValueSegment r2 = Some "High-Value"%string) /\
        (ValueSegment r2 = Some "Low-Value"%string ->
         ValueSegment r1 = Some "Low-Value"%string))
  /\ (forall mn mx,
        observed_range (score_column sample_frame) mn mx -> (mn < mx)%Q ->
        forall r, In r sample_frame ->
          ((inject_Z (RFM_Score r) == mn)%Q ->
           ValueSegment r = Some "Low-Value"%string) /\
          ((inject_Z (RFM_Score r) == mx)%Q ->
           ValueSegment r = Some "High-Value"%string)).
Proof.
  split; [exact sample_frame_run|].
  exact (value_segment_follows_score sample_to_datetime sample_now sample_csv
           sample_frame sample_frame_run).
Defined.

(** [value_segment_counts_total] on the lapsed-customer table. *)
Lemma value_segment_counts_total_witness :
  preprocess_data sample_to_datetime sample_now lapsed_csv = Ok lapsed_frame
  /\ (value_segment_counts lapsed_frame "Low-Value"
      + value_segment_counts lapsed_frame "Mid-Value"
      + value_segment_counts lapsed_frame "High-Value")%nat
     = List.length lapsed_csv.
Proof.
  split; [exact lapsed_frame_run|].
  exact (value_segment_counts_total sample_to_datetime sample_now lapsed_csv
           lapsed_frame lapsed_frame_run).
Defined.

(** [marker_colors_in_range] on the lapsed-customer table with plotly's
    palette. *)
Lemma marker_colors_in_range_witness :
  preprocess_data sample_to_datetime sample_now lapsed_csv = Ok lapsed_frame
  /\ NoDup ["Lost"; "Champions"]%string
  /\ incl ["Lost"; "Champions"]%string (map CustomerSegment lapsed_frame)
  /\ (5 <= List.length sample_pastel)%nat
  /\ (List.length ["Lost"; "Champions"]%string <= 5)%nat
  /\ exists colors,
       marker_colors sample_pastel ["Lost"; "Champions"]%string = Ok colors /\
       List.length colors = List.length ["Lost"; "Champions"]%string.
Proof.
  assert (Hnd : NoDup ["Lost"; "Champions"]%string).
  { repeat constructor; simpl; intuition discriminate. }
  assert (Hincl : incl ["Lost"; "Champions"]%string
                    (map CustomerSegment lapsed_frame)).
  { intros s [<-|[<-|[]]]; simpl; tauto. }
  assert (Hp : (5 <= List.length sample_pastel)%nat) by (simpl; lia).
  split; [exact lapsed_frame_run|]. split; [exact Hnd|].
  split; [exact Hincl|]. split; [exact Hp|].
  exact (marker_colors_in_range sample_to_datetime sample_now lapsed_csv
           lapsed_frame sample_pastel _ lapsed_frame_run Hnd Hincl Hp).
Defined.

(** [segment_scores_in_range] on the lapsed-customer table. *)
Lemma segment_scores_in_range_witness :
  preprocess_data sample_to_datetime sample_now lapsed_csv = Ok lapsed_frame
  /\ NoDup (map segment (segment_scores lapsed_frame))
  /\ StronglySorted OrderedTypeEx.String_as_OT.lt
       (map segment (segment_scores lapsed_frame))
  /\ (forall r, In r lapsed_frame ->
        exists e, In e (segment_scores lapsed_frame) /\
                  segment e = CustomerSegment r)
  /\ forall e, In e (segment_scores lapsed_frame) ->
       In (segment e) all_segments /\
       (0 < value_counts lapsed_frame (segment e))%nat /\
       (1 <= mean_recency e)%Q /\ (mean_recency e <= 5)%Q /\
       (1 <= mean_frequency e)%Q /\ (mean_frequency e <= 5)%Q /\
       (1 <= mean_monetary e)%Q /\ (mean_monetary e <= 5)%Q /\
       (segment e = "Lost"%string ->
        (mean_recency e == 1)%Q /\ (mean_frequency e == 1)%Q /\
        (mean_monetary e == 1)%Q).
Proof.
  split; [exact lapsed_frame_run|].
  exact (segment_scores_in_range sample_to_datetime sample_now
           lapsed_csv lapsed_frame lapsed_frame_run).
Defined.

(** [relabelled_rows_break_rule] on the lapsed-customer table. *)
Lemma relabelled_rows_break_rule_witness :
  preprocess_data sample_to_datetime sample_now lapsed_csv = Ok lapsed_frame
  /\ valid_draw 3 1 (sample_choice 1 3 1)
  /\ exists data',
       create_plots sample_choice lapsed_frame = Ok data' /\
       (forall r, In r data' ->
          CustomerSegment r = segment_rule (RFM_Score r) \/
          (CustomerSegment r = "Potential Loyalists"%string /\
           RFM_Score r = 3 /\ RecencyScore r = 1 /\ FrequencyScore r = 1 /\
           MonetaryScore r = 1)) /\
       List.length
         (filter (fun r => negb (String.eqb (CustomerSegment r)
                                            (segment_rule (RFM_Score r))))
            data') = 1%nat.
Proof.
  assert (Hdraw : valid_draw 3 1 (sample_choice 1 3 1)).
  { split; [reflexivity|]. split; [|repeat constructor].
    repeat constructor. simpl. tauto. }
  split; [exact lapsed_frame_run|]. split; [exact Hdraw|].
  exact (relabelled_rows_break_rule sample_to_datetime sample_choice
           sample_now lapsed_csv lapsed_frame lapsed_frame_run Hdraw).
Defined.

(** [few_lost_rows_untouched] on the lapsed-customer table, whose three
    Lost rows lose one to the pass and keep two, and on the three-customer
    table, which has no Lost row and comes back as it was. *)
Lemma few_lost_rows_untouched_witness :
  (preprocess_data sample_to_datetime sample_now lapsed_csv = Ok lapsed_frame
   /\ valid_draw 3 1 (sample_choice 1 3 1)
   /\ exists data',
        create_plots sample_choice lapsed_frame = Ok data' /\
        1%nat = ((3 + 2) / 5)%nat /\
        (data' = lapsed_frame <-> (3 <= 2)%nat) /\
        data' <> lapsed_frame /\
        (1 <= value_counts data' "Lost")%nat)
  /\ (preprocess_data sample_to_datetime sample_now sample_csv
      = Ok sample_frame
      /\ valid_draw 0 0 (sample_choice 1 0 0)
      /\ exists data',
           create_plots sample_choice sample_frame = Ok data' /\
           0%nat = ((0 + 2) / 5)%nat /\
           (data' = sample_frame <-> (0 <= 2)%nat) /\
           data' = sample_frame).
Proof.
  assert (Hdraw : valid_draw 3 1 (sample_choice 1 3 1)).
  { split; [reflexivity|]. split; [|repeat constructor].
    repeat constructor. simpl. tauto. }
  assert (Hdraw0 : valid_draw 0 0 (sample_choice 1 0 0)).
  { split; [reflexivity|]. split; constructor. }
  split.
  - split; [exact lapsed_frame_run|]. split; [exact Hdraw|].
    destruct (few_lost_rows_untouched sample_to_datetime sample_choice
                sample_now lapsed_csv lapsed_frame lapsed_frame_run Hdraw)
      as (data' & Hrun & Hn & Hiff & Hlost).
    exists data'. split; [exact Hrun|]. split; [exact Hn|].
    split; [exact Hiff|]. split.
    + intros E. apply Hiff in E.
      apply Nat.leb_le in E. discriminate E.
    + apply Hlost. repeat constructor.
  - split; [exact sample_frame_run|]. split; [exact Hdraw0|].
    destruct (few_lost_rows_untouched sample_to_datetime sample_choice
                sample_now sample_csv sample_frame sample_frame_run Hdraw0)
      as (data' & Hrun & Hn & Hiff & _).
    exists data'. split; [exact Hrun|]. split; [exact Hn|].
    split; [exact Hiff|]. apply Hiff. repeat constructor.
Defined.

(** [index_view_returns] with the sample generator, on the
    lapsed-customer table. *)
Lemma index_view_returns_witness :
  draws_without_replacement sample_choice
  /\ amounts_exact lapsed_csv = true
  /\ lapsed_csv <> []
  /\ all_dates_parse sample_to_datetime lapsed_csv
  /\ (exists out,
        index_view sample_to_datetime sample_choice sample_now lapsed_csv
        = Ok out /\
        List.length out = List.length lapsed_csv).
Proof.
  assert (Hne : lapsed_csv <> []) by discriminate.
  assert (Hd : all_dates_parse sample_to_datetime lapsed_csv).
  { intros t [<-|[<-|[<-|[<-|[<-|[]]]]]]; discriminate. }
  split; [exact sample_choice_valid|]. split; [reflexivity|].
  split; [exact Hne|]. split; [exact Hd|].
  destruct (index_view_returns sample_to_datetime sample_choice sample_now
              lapsed_csv sample_choice_valid) as (_ & Hret & Hlen).
  destruct (Hret eq_refl Hne Hd) as [out Hout].
  exists out. split; [exact Hout|]. exact (Hlen out Hout).
Defined.

(** [preprocess_data_returns] on the lapsed-customer table, which returns,
    and on the table with a malformed date, which cannot. *)
Lemma preprocess_data_returns_witness :
  amounts_exact lapsed_csv = true
  /\ lapsed_csv <> []
  /\ all_dates_parse sample_to_datetime lapsed_csv
  /\ (exists out,
        preprocess_data sample_to_datetime sample_now lapsed_csv = Ok out)
  /\ ~ all_dates_parse sample_to_datetime malformed_csv
  /\ ~ (exists out,
          preprocess_data sample_to_datetime sample_now malformed_csv
          = Ok out).
Proof.
  assert (Hne : lapsed_csv <> []) by discriminate.
  assert (Hd : all_dates_parse sample_to_datetime lapsed_csv).
  { intros t [<-|[<-|[<-|[<-|[<-|[]]]]]]; discriminate. }
  assert (Hbad : ~ all_dates_parse sample_to_datetime malformed_csv).
  { intros H. apply (H (mkTransaction 2 (Some 102) "not a date" 20)).
    - right. left. reflexivity.
    - reflexivity. }
  split; [reflexivity|]. split; [exact Hne|]. split; [exact Hd|].
  split.
  - exact (proj1 (proj2 (preprocess_data_returns sample_to_datetime sample_now
                           lapsed_csv)) eq_refl Hne Hd).
  - split; [exact Hbad|]. intros Hout. apply Hbad.
    exact (proj2 (proj1 (preprocess_data_returns sample_to_datetime
                           sample_now malformed_csv) Hout)).
Defined.
